(** * Storage reconciliation of a host (controllers/host/storage.go)

    A shallow embedding of the storage reconcilers of the host controller:
    the Go methods of [HostReconciler] become functions in a small monad that
    threads the host snapshot ([*v1info.HostInfo], mutated in place by the
    source), stops at the first returned [error], and records every request
    made to the inventory client and to the event recorder.

    Calls to the logger ([logHost.Info], [logHost.Error]) have no effect on
    the outcome and are left out. *)

From Stdlib Require Import ZArith Ascii String List Bool Lia.
From stdpp Require Import base option list strings gmap.

Local Open Scope string_scope.
Local Open Scope Z_scope.

(** ** Strings *)

(** [strings.EqualFold] of the Go standard library, on ASCII text: two
    strings are equal up to the case of the letters [A]-[Z].  The
    personalities compared in this file are ASCII identifiers. *)
Definition lower (c : ascii) : ascii :=
  let n := nat_of_ascii c in
  if ((65 <=? n)%nat && (n <=? 90)%nat)%bool then ascii_of_nat (n + 32) else c.

Fixpoint EqualFold (s t : string) : bool :=
  match s, t with
  | EmptyString, EmptyString => true
  | String a s', String b t' => Ascii.eqb (lower a) (lower b) && EqualFold s' t'
  | _, _ => false
  end.

(** ** Constants of the inventory API and of the manager

    These are declared in packages outside storage.go (gophercloud's
    [hosts], [osds], [clusters], [partitions], [physicalvolumes] and
    [storagetiers]; the controllers' [manager] and [common]). *)

Definition PersonalityController : string := "controller".
Definition PersonalityWorker : string := "worker".
Definition PersonalityStorage : string := "storage".

Definition FunctionOSD : string := "osd".
Definition FunctionJournal : string := "journal".

Definition PVTypeDisk : string := "disk".
Definition PVTypePartition : string := "partition".

Definition DeploymentModelUndefined : string := "undefined".
Definition DeploymentModelController : string := "controller-nodes".
Definition DeploymentModelStorage : string := "storage-nodes".

Definition CephClusterName : string := "ceph_cluster".
Definition StorageTierName : string := "storage".

Definition PartitionTypeLVM : string := "lvm_phys_vol".

Definition StatusCreating : string := "Creating".
Definition StatusModifying : string := "Modifying".
Definition StatusDeleting : string := "Deleting".

Definition AdminLocked : string := "locked".
Definition AdminUnlocked : string := "unlocked".
Definition OperEnabled : string := "enabled".
Definition OperDisabled : string := "disabled".
Definition AvailAvailable : string := "available".

(** [cloudManager.SystemType]: the two topologies the reconciler tells apart
    and every other value of the type (the value of a system that has not
    been identified yet). *)
Inductive SystemType : Type :=
| SystemTypeAllInOne
| SystemTypeStandard
| SystemTypeOther (name : string).

(** [RequiredState]: the host state a class of changes needs. *)
Inductive RequiredState : Type :=
| RequiredStateNone
| RequiredStateAny
| RequiredStateEnabled
| RequiredStateDisabled.

(** The reconciler names given to [common.IsReconcilerEnabled]. *)
Inductive ReconcilerName : Type :=
| Storage
| StorageMonitor
| Partition
| PhysicalVolume
| VolumeGroup
| OSD
| FileSystemTypes
| FileSystemSizes.

(** The reasons given to [NormalEvent]. *)
Inductive EventReason : Type :=
| ResourceCreated
| ResourceUpdated
| ResourceDeleted.

(** ** Records of the inventory service (the host snapshot) *)

Module cephmonitors.
Record CephMonitor : Type := {
  UUID : string;
  HostUUID : string;
  Size : Z
}.
Record CephMonitorOpts : Type := {
  oHostUUID : option string;
  oSize : option Z
}.
End cephmonitors.

Module disks.
Record Disk : Type := {
  ID : string;
  DevicePath : string
}.
End disks.

Module partitions.
(** A partition of the snapshot: the backing path, size and owning volume
    group are what [FindPartitionByPath] searches by. *)
Record DiskPartition : Type := {
  ID : string;
  DevicePath : string;
  Size : Z;
  VolumeGroup : string;
  Status : string
}.
Record DiskPartitionOpts : Type := {
  oHostID : string;
  oDiskID : string;
  oTypeName : option string;
  oTypeGUID : option string;
  oSize : Z
}.
End partitions.

Module physicalvolumes.
Record PhysicalVolume : Type := {
  ID : string;
  Type_ : string;
  DevicePath : string;
  Size : Z;
  VolumeGroup : string
}.
Record PhysicalVolumeOpts : Type := {
  oHostID : string;
  oDeviceID : string;
  oVolumeGroupID : string;
  oType : string
}.
End physicalvolumes.

Module volumegroups.
Record VolumeGroup : Type := {
  ID : string;
  Name : string
}.
Record CapabilitiesOpts : Type := {
  oLVMType : option string
}.
Record VolumeGroupOpts : Type := {
  oHostID : option string;
  oName : option string;
  oCapabilities : option CapabilitiesOpts
}.
End volumegroups.

Module osds.
(** [Gibibytes] holds the value of the record's [Gibibytes()] method. *)
Record JournalInfo : Type := {
  Location : option string;
  Gibibytes : Z
}.
Record OSD : Type := {
  ID : string;
  Function : string;
  DiskID : string;
  Journal : JournalInfo
}.
Record OSDOpts : Type := {
  oHostID : option string;
  oDiskID : option string;
  oFunction : option string;
  oJournalLocation : option string;
  oJournalSize : option Z;
  oTierUUID : option string
}.
(** The zero value [osds.OSDOpts{}]. *)
Definition noOpts : OSDOpts :=
  {| oHostID := None; oDiskID := None; oFunction := None;
     oJournalLocation := None; oJournalSize := None; oTierUUID := None |}.
End osds.

Module hostFilesystems.
Record FileSystem : Type := {
  ID : string;
  Name : string;
  Size : Z
}.
Record CreateFileSystemOpts : Type := {
  cName : string;
  cSize : Z;
  cHostUUID : string
}.
Record FileSystemOpts : Type := {
  oName : string;
  oSize : Z
}.
End hostFilesystems.

Module storagetiers.
Record StorageTier : Type := {
  ID : string;
  Name : string
}.
End storagetiers.

Module clusters.
Record Cluster : Type := {
  ID : string;
  Name : string;
  DeploymentModel : string
}.
End clusters.

(** [v1info.HostInfo]: the snapshot of one host.  The map of storage tiers is
    keyed by cluster name; a key bound to a nil pointer reads like an absent
    key, so the map holds the allocated tiers only. *)
Record HostInfo : Type := {
  hID : string;
  hPersonality : string;
  hAdministrativeState : string;
  hOperationalStatus : string;
  hAvailabilityStatus : string;
  hDisks : list disks.Disk;
  hPartitions : list partitions.DiskPartition;
  hPhysicalVolumes : list physicalvolumes.PhysicalVolume;
  hVolumeGroups : list volumegroups.VolumeGroup;
  hOSDs : list osds.OSD;
  hFileSystems : list hostFilesystems.FileSystem;
  hStorageTiers : gmap string storagetiers.StorageTier;
  hClusters : list clusters.Cluster
}.

(** ** The desired profile ([starlingxv1.HostProfileSpec]) *)

Record MonitorInfo : Type := {
  mSize : option Z
}.

Record PhysicalVolumeInfo : Type := {
  pvType : string;
  pvPath : string;
  pvSize : option Z
}.

Record VolumeGroupInfo : Type := {
  vgName : string;
  vgLVMType : option string;
  vgPhysicalVolumes : list PhysicalVolumeInfo
}.

Record JournalInfo : Type := {
  jLocation : string;
  jSize : Z
}.

Record OSDInfo : Type := {
  osdPath : string;
  osdFunction : string;
  osdClusterName : option string;
  osdJournal : option JournalInfo
}.

Record FileSystemInfo : Type := {
  fsName : string;
  fsSize : Z
}.

(** Optional groups are pointers in the source: [None] is the nil pointer,
    [Some []] an empty list that was given. *)
Record ProfileStorageInfo : Type := {
  sMonitor : option MonitorInfo;
  sVolumeGroups : option (list VolumeGroupInfo);
  sOSDs : option (list OSDInfo);
  sFileSystems : option (list FileSystemInfo)
}.

Record HostProfileSpec : Type := {
  pPersonality : option string;
  pStorage : option ProfileStorageInfo
}.

(** [starlingxv1.Host]: the resource being reconciled. *)
Record Host : Type := {
  iName : string;
  iNamespace : string
}.


(** ** Messages, monitors and errors *)

(** An argument of a [fmt.Sprintf] or [perrors.Wrapf] format.  The text is
    rendered by Go's [fmt]; a message is kept as its format and arguments. *)
Inductive FmtArg : Type :=
| ArgString (s : string)
| ArgInt (n : Z)
| ArgPartitionOpts (o : partitions.DiskPartitionOpts)
| ArgVolumeGroupOpts (o : volumegroups.VolumeGroupOpts)
| ArgOSD (o : osds.OSD)
| ArgOSDOpts (o : osds.OSDOpts).

Record Message : Type := {
  format : string;
  args : list FmtArg
}.

Definition text (s : string) : Message := {| format := s; args := [] |}.
Definition Sprintf (s : string) (a : list FmtArg) : Message :=
  {| format := s; args := a |}.

(** The monitors built by the [New...Monitor] constructors: what the pass
    waits for, and the identifier or name of the target. *)
Inductive Monitor : Type :=
| PartitionStateMonitor (instance : Host) (hostID : string)
| ClusterPresenceMonitor (instance : Host) (clusterName : string)
| ClusterDeploymentModelMonitor (instance : Host) (clusterID : string)
| StorageMonitorCountMonitor (instance : Host) (count : Z)
| StorageTierMonitor (instance : Host) (clusterID : string) (tierName : string)
| UnlockedAvailableHostMonitor (instance : Host) (hostID : string).

(** The values of Go's [error] that the reconcilers return, and the panic of
    a nil pointer dereference, which ends the pass in the same way. *)
Inductive error : Type :=
| ClientFailure (e : string)
| Wrap (cause : error) (context : Message)
| MissingSystemResource (msg : Message)
| UserDataError (msg : Message)
| WaitFor (m : Monitor) (msg : Message)
| NilPointerPanic.

(** Modelled from the spec: [StartMonitor] (a method of the reconciler
    declared outside storage.go) produces the Wait Descriptor: the monitor
    that names the target and the human-readable reason.  It signals
    re-evaluate later and is not a failure. *)
Definition StartMonitor (m : Monitor) (msg : Message) : error := WaitFor m msg.

Definition isWait (e : error) : bool :=
  match e with
  | WaitFor _ _ => true
  | _ => false
  end.

(** ** Requests to the inventory client and to the event recorder *)

Inductive Request : Type :=
| ListCephMonitors
| CephMonitorUpdate (hostID : string) (opts : cephmonitors.CephMonitorOpts)
| CephMonitorCreate (opts : cephmonitors.CephMonitorOpts)
| PartitionCreate (opts : partitions.DiskPartitionOpts)
| ListPartitions (hostID : string)
| PopulateSystemPartitions (hostID : string)
| PhysicalVolumeCreate (opts : physicalvolumes.PhysicalVolumeOpts)
| ListPhysicalVolumes (hostID : string)
| VolumeGroupCreate (opts : volumegroups.VolumeGroupOpts)
| ListVolumeGroups (hostID : string)
| OSDDelete (id : string)
| OSDUpdate (id : string) (opts : osds.OSDOpts)
| OSDCreate (opts : osds.OSDOpts)
| ListOSDs (hostID : string)
| FileSystemDelete (id : string)
| FileSystemCreate (opts : hostFilesystems.CreateFileSystemOpts)
| FileSystemUpdate (hostID : string) (opts : list hostFilesystems.FileSystemOpts)
| ListFileSystems (hostID : string)
| NormalEvent (instance : Host) (reason : EventReason) (msg : Message).

(** What a request comes back with: the value, or the client's error. *)
Inductive result (A : Type) : Type :=
| Success (a : A)
| Failure (e : string).
Arguments Success {A} a.
Arguments Failure {A} e.

(** The type of the answer to each request.  Where the source drops the
    value ([_, err := ...]) the answer is a [result unit]; the event recorder
    returns nothing.  [PopulateSystemPartitions] answers with the partitions
    the system created itself. *)
Definition Reply (q : Request) : Type :=
  match q with
  | ListCephMonitors => result (list cephmonitors.CephMonitor)
  | PartitionCreate _ => result partitions.DiskPartition
  | ListPartitions _ => result (list partitions.DiskPartition)
  | PopulateSystemPartitions _ => result (list partitions.DiskPartition)
  | ListPhysicalVolumes _ => result (list physicalvolumes.PhysicalVolume)
  | ListVolumeGroups _ => result (list volumegroups.VolumeGroup)
  | ListOSDs _ => result (list osds.OSD)
  | ListFileSystems _ => result (list hostFilesystems.FileSystem)
  | NormalEvent _ _ _ => unit
  | _ => result unit
  end.

(** A computation that makes requests and continues with each answer. *)
Inductive Prog (A : Type) : Type :=
| Ret (a : A)
| Vis (q : Request) (k : Reply q -> Prog A).
Arguments Ret {A} a.
Arguments Vis {A} q k.

Fixpoint pbind {A B : Type} (p : Prog A) (f : A -> Prog B) : Prog B :=
  match p with
  | Ret a => f a
  | Vis q k => Vis q (fun r => pbind (k r) f)
  end.

(** The remote system: it answers a request knowing the requests made so far
    in the pass. *)
Definition Oracle : Type := list Request -> forall q : Request, Reply q.

(** [run o hist p]: the value of [p] and the requests made, in order, after
    the requests [hist], against the system [o]. *)
Fixpoint run {A : Type} (o : Oracle) (hist : list Request) (p : Prog A)
  : A * list Request :=
  match p with
  | Ret a => (a, hist)
  | Vis q k => run o (hist ++ [q]) (k (o hist q))
  end.

(** ** The monad of the reconcilers *)

Inductive outcome (A : Type) : Type :=
| Done (a : A)
| Raise (e : error).
Arguments Done {A} a.
Arguments Raise {A} e.

Definition M (A : Type) : Type := HostInfo -> Prog (outcome A * HostInfo).

Definition ret {A : Type} (a : A) : M A := fun h => Ret (Done a, h).
Definition raise {A : Type} (e : error) : M A := fun h => Ret (Raise e, h).

Definition bind {A B : Type} (m : M A) (f : A -> M B) : M B :=
  fun h => pbind (m h) (fun x =>
    match x with
    | (Done a, h') => f a h'
    | (Raise e, h') => Ret (Raise e, h')
    end).

Notation "x <- c1 ;; c2" := (bind c1 (fun x => c2))
  (at level 100, c1 at next level, right associativity).
Notation "c1 ;; c2" := (bind c1 (fun _ => c2))
  (at level 100, right associativity).

Definition call (q : Request) : M (Reply q) := fun h => Vis q (fun r => Ret (Done r, h)).
Definition getHost : M HostInfo := fun h => Ret (Done h, h).

(** [return err] of a function whose only result is an [error]: [nil]
    continues. *)
Definition returnErr (e : option error) : M unit :=
  match e with
  | None => ret tt
  | Some e => raise e
  end.

(** [for _, x := range l { body }], leaving at the first [return err]. *)
Fixpoint forRange {A : Type} (l : list A) (body : A -> M unit) : M unit :=
  match l with
  | [] => ret tt
  | x :: l' => body x ;; forRange l' body
  end.

(** The same loop with a local variable that the body updates. *)
Fixpoint forRangeAcc {A S : Type} (l : list A) (s : S) (body : S -> A -> M S) : M S :=
  match l with
  | [] => ret s
  | x :: l' => s' <- body s x ;; forRangeAcc l' s' body
  end.

(** The result of a pass: the returned [error] ([None] is [nil]), the
    snapshot the pass leaves, and the requests it made. *)
Definition exec (o : Oracle) (m : M unit) (h : HostInfo)
  : option error * HostInfo * list Request :=
  match run o [] (m h) with
  | ((Done _, h'), t) => (None, h', t)
  | ((Raise e, h'), t) => (Some e, h', t)
  end.

(** ** The reconciler and what it reads from outside storage.go *)

(** The receiver [r *HostReconciler] together with the configuration and the
    package constants the methods read: the system type of a namespace
    ([GetSystemType]), the number of enabled Ceph monitors, the reconciler
    toggles ([common.IsReconcilerEnabled]), the minimum monitor count
    ([hosts.OSDMinimumMonitorCount]), the filesystem allow-lists and the
    table of partition type GUIDs. *)
Record HostReconciler : Type := {
  GetSystemType : string -> SystemType;
  EnabledMonitors : Z;
  IsReconcilerEnabled : ReconcilerName -> bool;
  OSDMinimumMonitorCount : Z;
  FileSystemCreationAllowed : list string;
  FileSystemDeletionAllowed : list string;
  PartitionTypeMap : string -> string
}.

(** Modelled from the spec: [MonitorsEnabled] (declared outside storage.go)
    holds when at least the required number of Ceph monitors is enabled. *)
Definition MonitorsEnabled (r : HostReconciler) (required : Z) : bool :=
  required <=? EnabledMonitors r.

(** The name is in the list. *)
Definition member (x : string) (l : list string) : bool :=
  existsb (String.eqb x) l.

(** Modelled from the spec: [common.ListDelta] (declared outside storage.go),
    given the current names and the configured names: the names configured
    but not current (added), the names current but not configured (removed)
    and the names in both (unchanged). *)
Definition ListDelta (current configured : list string)
  : list string * list string * list string :=
  (List.filter (fun x => negb (member x current)) configured,
   List.filter (fun x => negb (member x configured)) current,
   List.filter (fun x => member x current) configured).

(** The lookups of the snapshot are methods of [v1info.HostInfo], declared
    outside storage.go.  Each returns the first match. *)

(** Modelled from the spec: [FindDiskByPath], the disk at a backing path. *)
Definition FindDiskByPath (host : HostInfo) (path : string) : option disks.Disk :=
  List.find (fun d => String.eqb (disks.DevicePath d) path) (hDisks host).

(** Modelled from the spec: [FindOSDByPath], the OSD record matched by
    backing path: the record on the disk at that path. *)
Definition FindOSDByPath (host : HostInfo) (path : string) : option osds.OSD :=
  match FindDiskByPath host path with
  | Some disk => List.find (fun o => String.eqb (osds.DiskID o) (disks.ID disk)) (hOSDs host)
  | None => None
  end.

(** Modelled from the spec: [FindPartitionByPath], the partition matching
    (backing path, size, owning group). *)
Definition FindPartitionByPath (host : HostInfo) (path : string) (size : Z) (group : string)
  : option partitions.DiskPartition :=
  List.find (fun p => String.eqb (partitions.DevicePath p) path
                      && (partitions.Size p =? size)
                      && String.eqb (partitions.VolumeGroup p) group)
            (hPartitions host).

(** Modelled from the spec: [FindVolumeGroup], the volume group of a name. *)
Definition FindVolumeGroup (host : HostInfo) (name : string) : option volumegroups.VolumeGroup :=
  List.find (fun g => String.eqb (volumegroups.Name g) name) (hVolumeGroups host).

(** Modelled from the spec: [FindPhysicalVolume], the physical volume matched
    by group, type, path and size. *)
Definition FindPhysicalVolume (host : HostInfo) (group type path : string) (size : Z)
  : option physicalvolumes.PhysicalVolume :=
  List.find (fun v => String.eqb (physicalvolumes.VolumeGroup v) group
                      && String.eqb (physicalvolumes.Type_ v) type
                      && String.eqb (physicalvolumes.DevicePath v) path
                      && (physicalvolumes.Size v =? size))
            (hPhysicalVolumes host).

(** Modelled from the spec: [FindClusterByName], the cluster of a name. *)
Definition FindClusterByName (host : HostInfo) (name : string) : option clusters.Cluster :=
  List.find (fun c => String.eqb (clusters.Name c) name) (hClusters host).

(** Modelled from the spec: [IsUnlockedAvailable], the host has reached the
    unlocked/available state. *)
Definition IsUnlockedAvailable (host : HostInfo) : bool :=
  String.eqb (hAdministrativeState host) AdminUnlocked
  && String.eqb (hAvailabilityStatus host) AvailAvailable.

(** Modelled from the spec: [OSDInfo.GetClusterName] (declared with the
    profile types, outside storage.go), the name of the cluster that the entry
    refers to; an entry that names none refers to the Ceph cluster. *)
Definition GetClusterName (osdInfo : OSDInfo) : string :=
  match osdClusterName osdInfo with
  | Some n => n
  | None => CephClusterName
  end.

(** Assignments to the fields of the snapshot ([host.Partitions = result]
    and the like). *)
Definition setPartitions (l : list partitions.DiskPartition) : M unit :=
  fun h => Ret (Done tt,
    {| hID := hID h; hPersonality := hPersonality h;
       hAdministrativeState := hAdministrativeState h;
       hOperationalStatus := hOperationalStatus h;
       hAvailabilityStatus := hAvailabilityStatus h;
       hDisks := hDisks h; hPartitions := l;
       hPhysicalVolumes := hPhysicalVolumes h; hVolumeGroups := hVolumeGroups h;
       hOSDs := hOSDs h; hFileSystems := hFileSystems h;
       hStorageTiers := hStorageTiers h; hClusters := hClusters h |}).

Definition setPhysicalVolumes (l : list physicalvolumes.PhysicalVolume) : M unit :=
  fun h => Ret (Done tt,
    {| hID := hID h; hPersonality := hPersonality h;
       hAdministrativeState := hAdministrativeState h;
       hOperationalStatus := hOperationalStatus h;
       hAvailabilityStatus := hAvailabilityStatus h;
       hDisks := hDisks h; hPartitions := hPartitions h;
       hPhysicalVolumes := l; hVolumeGroups := hVolumeGroups h;
       hOSDs := hOSDs h; hFileSystems := hFileSystems h;
       hStorageTiers := hStorageTiers h; hClusters := hClusters h |}).

Definition setVolumeGroups (l : list volumegroups.VolumeGroup) : M unit :=
  fun h => Ret (Done tt,
    {| hID := hID h; hPersonality := hPersonality h;
       hAdministrativeState := hAdministrativeState h;
       hOperationalStatus := hOperationalStatus h;
       hAvailabilityStatus := hAvailabilityStatus h;
       hDisks := hDisks h; hPartitions := hPartitions h;
       hPhysicalVolumes := hPhysicalVolumes h; hVolumeGroups := l;
       hOSDs := hOSDs h; hFileSystems := hFileSystems h;
       hStorageTiers := hStorageTiers h; hClusters := hClusters h |}).

Definition withOSDs (h : HostInfo) (l : list osds.OSD) : HostInfo :=
  {| hID := hID h; hPersonality := hPersonality h;
     hAdministrativeState := hAdministrativeState h;
     hOperationalStatus := hOperationalStatus h;
     hAvailabilityStatus := hAvailabilityStatus h;
     hDisks := hDisks h; hPartitions := hPartitions h;
     hPhysicalVolumes := hPhysicalVolumes h; hVolumeGroups := hVolumeGroups h;
     hOSDs := l; hFileSystems := hFileSystems h;
     hStorageTiers := hStorageTiers h; hClusters := hClusters h |}.

Definition setOSDs (l : list osds.OSD) : M unit :=
  fun h => Ret (Done tt, withOSDs h l).

Definition setFileSystems (l : list hostFilesystems.FileSystem) : M unit :=
  fun h => Ret (Done tt,
    {| hID := hID h; hPersonality := hPersonality h;
       hAdministrativeState := hAdministrativeState h;
       hOperationalStatus := hOperationalStatus h;
       hAvailabilityStatus := hAvailabilityStatus h;
       hDisks := hDisks h; hPartitions := hPartitions h;
       hPhysicalVolumes := hPhysicalVolumes h; hVolumeGroups := hVolumeGroups h;
       hOSDs := hOSDs h; hFileSystems := l;
       hStorageTiers := hStorageTiers h; hClusters := hClusters h |}).

(** [profile.Storage], a pointer: reading through it when it is nil
    panics. *)
Definition storageOf (profile : HostProfileSpec) : M ProfileStorageInfo :=
  match pStorage profile with
  | Some s => ret s
  | None => raise NilPointerPanic
  end.

(** ** ReconcileMonitor *)

(** The body of the loop over the listed monitors when a monitor is desired;
    [found] is the local flag of the source. *)
Definition monitorStep (instance : Host) (host : HostInfo) (monitorInfo : MonitorInfo)
    (found : bool) (monitor : cephmonitors.CephMonitor) : M bool :=
  if String.eqb (cephmonitors.HostUUID monitor) (hID host) then
    match mSize monitorInfo with
    | Some size =>
      if negb (size =? cephmonitors.Size monitor) then
        let opts := {| cephmonitors.oHostUUID := None;
                       cephmonitors.oSize := mSize monitorInfo |} in
        updated <- call (CephMonitorUpdate (hID host) opts) ;;
        match updated with
        | Failure e =>
          raise (Wrap (ClientFailure e) (text "failed to update Ceph monitor"))
        | Success _ =>
          call (NormalEvent instance ResourceCreated
                  (text "ceph monitor has been updated")) ;;
          ret true
        end
      else ret true
    | None => ret true
    end
  else ret found.

Definition ReconcileMonitor (r : HostReconciler) (instance : Host)
    (profile : HostProfileSpec) : M unit :=
  if negb (IsReconcilerEnabled r StorageMonitor) then ret tt
  else if match pPersonality profile with
          | None => true
          | Some p => negb (String.eqb p PersonalityWorker)
          end
  then ret tt
  else
    listed <- call ListCephMonitors ;;
    match listed with
    | Failure e => raise (Wrap (ClientFailure e) (text "failed to list monitors on host"))
    | Success monitors =>
      storage <- storageOf profile ;;
      host <- getHost ;;
      match sMonitor storage with
      | None =>
        (* a stale monitor of the host is logged only *)
        forRange monitors (fun monitor => ret tt)
      | Some monitorInfo =>
        found <- forRangeAcc monitors false (monitorStep instance host monitorInfo) ;;
        if negb found then
          let opts := {| cephmonitors.oHostUUID := Some (hID host);
                         cephmonitors.oSize := mSize monitorInfo |} in
          created <- call (CephMonitorCreate opts) ;;
          match created with
          | Failure e => raise (Wrap (ClientFailure e) (text "failed to create Ceph monitor"))
          | Success _ =>
            call (NormalEvent instance ResourceCreated (text "ceph monitor has been created")) ;;
            ret tt
          end
        else ret tt
      end
    end.

(** ** ReconcilePartitions *)

Definition isTransient (p : partitions.DiskPartition) : bool :=
  String.eqb (partitions.Status p) StatusDeleting
  || String.eqb (partitions.Status p) StatusModifying
  || String.eqb (partitions.Status p) StatusCreating.

(** The body of the loop over the physical volumes of the group; [updated]
    is the local flag of the source. *)
Definition partitionStep (r : HostReconciler) (instance : Host) (group : VolumeGroupInfo)
    (updated : bool) (pvInfo : PhysicalVolumeInfo) : M bool :=
  match pvSize pvInfo with
  | None => ret updated
  | Some size =>
    if negb (String.eqb (pvType pvInfo) PVTypePartition) then ret updated
    else
      host <- getHost ;;
      match FindPartitionByPath host (pvPath pvInfo) size (vgName group) with
      | Some _ => ret updated
      | None =>
        match FindDiskByPath host (pvPath pvInfo) with
        | None =>
          raise (MissingSystemResource
                   (Sprintf "failed to find disk for path %s" [ArgString (pvPath pvInfo)]))
        | Some disk =>
          let typeName := PartitionTypeLVM in
          let typeGUID := PartitionTypeMap r typeName in
          let opts := {| partitions.oHostID := hID host;
                         partitions.oDiskID := disks.ID disk;
                         partitions.oTypeName := Some typeName;
                         partitions.oTypeGUID := Some typeGUID;
                         partitions.oSize := size |} in
          created <- call (PartitionCreate opts) ;;
          match created with
          | Failure e =>
            raise (Wrap (ClientFailure e)
                     (Sprintf "failed to create new partition: %s" [ArgPartitionOpts opts]))
          | Success partition =>
            call (NormalEvent instance ResourceCreated
                    (Sprintf "partition %q has been created"
                       [ArgString (partitions.DevicePath partition)])) ;;
            ret true
          end
        end
      end
  end.

(** The refresh after a creation: the list of partitions is fetched again
    and the partitions the system created itself are added to it.
    Modelled from the spec: [host.PopulateSystemPartitions] (declared outside
    storage.go) asks the remote system for the partitions it created itself
    and folds them into the snapshot; its error is returned as it is. *)
Definition refreshPartitions : M unit :=
  host <- getHost ;;
  listed <- call (ListPartitions (hID host)) ;;
  match listed with
  | Failure e => raise (Wrap (ClientFailure e) (text "failed to refresh partitions on host"))
  | Success result =>
    setPartitions result ;;
    populated <- call (PopulateSystemPartitions (hID host)) ;;
    match populated with
    | Failure e => raise (ClientFailure e)
    | Success system => setPartitions (result ++ system)
    end
  end.

(** The check that ends the function: a partition in a transient status
    makes the pass wait. *)
Definition partitionStatusCheck (instance : Host) : M unit :=
  host <- getHost ;;
  forRange (hPartitions host) (fun p =>
    if isTransient p then
      raise (StartMonitor (PartitionStateMonitor instance (hID host))
               (text "waiting for partitions to transition to ready state"))
    else ret tt).

(** The loop that creates the missing partitions, and the refresh when one
    was created. *)
Definition partitionCreation (r : HostReconciler) (instance : Host) (group : VolumeGroupInfo)
  : M unit :=
  updated <- forRangeAcc (vgPhysicalVolumes group) false (partitionStep r instance group) ;;
  if updated : bool then refreshPartitions else ret tt.

Definition ReconcilePartitions (r : HostReconciler) (instance : Host)
    (profile : HostProfileSpec) (group : VolumeGroupInfo) : M unit :=
  if negb (IsReconcilerEnabled r Partition) then ret tt
  else
    partitionCreation r instance group ;;
    partitionStatusCheck instance.

(** ** ReconcilePhysicalVolumes *)

Definition physicalVolumeStep (instance : Host) (group : VolumeGroupInfo)
    (vg : volumegroups.VolumeGroup) (updated : bool) (pvInfo : PhysicalVolumeInfo) : M bool :=
  let size := match pvSize pvInfo with Some s => s | None => 0 end in
  host <- getHost ;;
  match FindPhysicalVolume host (vgName group) (pvType pvInfo) (pvPath pvInfo) size with
  | Some _ => ret updated
  | None =>
    let deviceID :=
      if String.eqb (pvType pvInfo) PVTypePartition then
        match FindPartitionByPath host (pvPath pvInfo) size (vgName group) with
        | Some partition => partitions.ID partition
        | None => EmptyString
        end
      else
        match FindDiskByPath host (pvPath pvInfo) with
        | Some disk => disks.ID disk
        | None => EmptyString
        end in
    if String.eqb deviceID EmptyString then
      raise (MissingSystemResource
               (Sprintf "failed to find physical volume device: %s(%s)"
                  [ArgString (pvPath pvInfo); ArgString (pvType pvInfo)]))
    else
      let opts := {| physicalvolumes.oHostID := hID host;
                     physicalvolumes.oDeviceID := deviceID;
                     physicalvolumes.oVolumeGroupID := volumegroups.ID vg;
                     physicalvolumes.oType := pvType pvInfo |} in
      created <- call (PhysicalVolumeCreate opts) ;;
      match created with
      | Failure e => raise (Wrap (ClientFailure e) (text "failed to create physical volume"))
      | Success _ =>
        call (NormalEvent instance ResourceCreated
                (Sprintf "physical volume '%s(%s)' has been created"
                   [ArgString (pvPath pvInfo); ArgString (pvType pvInfo)])) ;;
        ret true
      end
  end.

Definition ReconcilePhysicalVolumes (r : HostReconciler) (instance : Host)
    (profile : HostProfileSpec) (group : VolumeGroupInfo) : M unit :=
  if negb (IsReconcilerEnabled r PhysicalVolume) then ret tt
  else
    host <- getHost ;;
    match FindVolumeGroup host (vgName group) with
    | None =>
      raise (MissingSystemResource
               (Sprintf "unable to find volume group %s" [ArgString (vgName group)]))
    | Some vg =>
      ReconcilePartitions r instance profile group ;;
      updated <- forRangeAcc (vgPhysicalVolumes group) false
                   (physicalVolumeStep instance group vg) ;;
      if updated : bool then
        host <- getHost ;;
        listed <- call (ListPhysicalVolumes (hID host)) ;;
        match listed with
        | Failure e =>
          raise (Wrap (ClientFailure e) (text "failed to refresh physical volume list"))
        | Success result => setPhysicalVolumes result
        end
      else ret tt
    end.

(** ** ReconcileVolumeGroups *)

Definition volumeGroupStep (instance : Host) (updated : bool) (vgInfo : VolumeGroupInfo)
  : M bool :=
  host <- getHost ;;
  match FindVolumeGroup host (vgName vgInfo) with
  | Some _ => ret updated
  | None =>
    let capabilitiesPtr :=
      match vgLVMType vgInfo with
      | Some t => Some {| volumegroups.oLVMType := Some t |}
      | None => None
      end in
    let opts := {| volumegroups.oHostID := Some (hID host);
                   volumegroups.oName := Some (vgName vgInfo);
                   volumegroups.oCapabilities := capabilitiesPtr |} in
    created <- call (VolumeGroupCreate opts) ;;
    match created with
    | Failure e =>
      raise (Wrap (ClientFailure e)
               (Sprintf "failed to create volume group, %s" [ArgVolumeGroupOpts opts]))
    | Success _ =>
      call (NormalEvent instance ResourceCreated
              (Sprintf "volume Group %q has been created" [ArgString (vgName vgInfo)])) ;;
      ret true
    end
  end.

Definition ReconcileVolumeGroups (r : HostReconciler) (instance : Host)
    (profile : HostProfileSpec) : M unit :=
  storage <- storageOf profile ;;
  match sVolumeGroups storage with
  | None => ret tt
  | Some groups =>
    if negb (IsReconcilerEnabled r VolumeGroup) then ret tt
    else
      updated <- forRangeAcc groups false (volumeGroupStep instance) ;;
      (if updated : bool then
         host <- getHost ;;
         listed <- call (ListVolumeGroups (hID host)) ;;
         match listed with
         | Failure e => raise (Wrap (ClientFailure e) (text "failed to refresh volume groups"))
         | Success result => setVolumeGroups result
         end
       else ret tt) ;;
      forRange groups (fun vgInfo => ReconcilePhysicalVolumes r instance profile vgInfo)
  end.

(** ** OSDs *)

Definition osdUpdateRequired (osdInfo : OSDInfo) (osd : osds.OSD) : osds.OSDOpts * bool :=
  match osdJournal osdInfo with
  | Some journal =>
    match osds.Location (osds.Journal osd) with
    | None =>
      ({| osds.oHostID := None; osds.oDiskID := None; osds.oFunction := None;
          osds.oJournalLocation := Some (jLocation journal);
          osds.oJournalSize := Some (jSize journal);
          osds.oTierUUID := None |}, true)
    | Some _ =>
      if negb (osds.Gibibytes (osds.Journal osd) =? jSize journal) then
        ({| osds.oHostID := None; osds.oDiskID := None; osds.oFunction := None;
            osds.oJournalLocation := None;
            osds.oJournalSize := Some (jSize journal);
            osds.oTierUUID := None |}, true)
      else (osds.noOpts, false)
    end
  | None => (osds.noOpts, false)
  end.

(** A read of a Go [map[string]bool]: a missing key reads [false]. *)
Definition marked (m : gmap string bool) (k : string) : bool :=
  default false (m !! k).

(** The first loop of [ReconcileStaleOSDs]: the maps [present] and
    [updated], keyed by the identifier of the matched record. *)
Definition markStep (host : HostInfo) (marks : gmap string bool * gmap string bool)
    (osdInfo : OSDInfo) : gmap string bool * gmap string bool :=
  let '(present, updated) := marks in
  match FindOSDByPath host (osdPath osdInfo) with
  | Some osd =>
    let present := <[osds.ID osd := true]> present in
    if negb (String.eqb (osds.Function osd) (osdFunction osdInfo)) then
      (present, <[osds.ID osd := true]> updated)
    else
      match osdJournal osdInfo, osds.Location (osds.Journal osd) with
      | None, Some location =>
        if negb (String.eqb location (osds.ID osd)) then
          (present, <[osds.ID osd := true]> updated)
        else (present, updated)
      | _, _ => (present, updated)
      end
  | None => (present, updated)
  end.

Definition staleMarks (host : HostInfo) (desired : list OSDInfo)
  : gmap string bool * gmap string bool :=
  fold_left (markStep host) desired (∅, ∅).

Definition staleStep (instance : Host) (present updated : gmap string bool)
    (changes : bool) (osd : osds.OSD) : M bool :=
  if negb (marked present (osds.ID osd)) || marked updated (osds.ID osd) then
    deleted <- call (OSDDelete (osds.ID osd)) ;;
    match deleted with
    | Failure e =>
      raise (Wrap (ClientFailure e) (Sprintf "failed to delete OSD: %s" [ArgOSD osd]))
    | Success _ =>
      call (NormalEvent instance ResourceDeleted
              (Sprintf "osd %q deleted" [ArgString (osds.ID osd)])) ;;
      ret true
    end
  else ret changes.

Definition ReconcileStaleOSDs (r : HostReconciler) (instance : Host)
    (profile : HostProfileSpec) : M unit :=
  storage <- storageOf profile ;;
  match sOSDs storage with
  | None => ret tt
  | Some desired =>
    if negb (IsReconcilerEnabled r OSD) then ret tt
    else
      host <- getHost ;;
      let '(present, updated) := staleMarks host desired in
      changes <- forRangeAcc (hOSDs host) false (staleStep instance present updated) ;;
      if changes : bool then
        listed <- call (ListOSDs (hID host)) ;;
        match listed with
        | Failure e => raise (Wrap (ClientFailure e) (text "failed to refresh OSD list for host"))
        | Success result => setOSDs result
        end
      else ret tt
  end.

Definition OSDProvisioningState (r : HostReconciler) (namespace personality : string)
  : RequiredState :=
  match GetSystemType r namespace with
  | SystemTypeAllInOne => RequiredStateAny
  | SystemTypeStandard =>
    if EqualFold personality PersonalityStorage then RequiredStateDisabled
    else RequiredStateEnabled
  | SystemTypeOther _ => RequiredStateNone
  end.

Definition isStandard (t : SystemType) : bool :=
  match t with
  | SystemTypeStandard => true
  | _ => false
  end.

Definition OSDProvisioningAllowed (r : HostReconciler) (instance : Host)
    (osdInfo : OSDInfo) (tierUUID : option string) (host : HostInfo) : option error :=
  let clusterName := GetClusterName osdInfo in
  match FindClusterByName host clusterName with
  | None =>
    Some (StartMonitor (ClusterPresenceMonitor instance clusterName)
            (Sprintf "waiting for the %q cluster to be created before allowing OSDs"
               [ArgString clusterName]))
  | Some cluster =>
    let model := clusters.DeploymentModel cluster in
    if String.eqb model DeploymentModelUndefined then
      Some (StartMonitor (ClusterDeploymentModelMonitor instance (clusters.ID cluster))
              (text "waiting for storage deployment model to be defined before allowing OSDs"))
    else if (String.eqb model DeploymentModelStorage
             || String.eqb model DeploymentModelController)
            && isStandard (GetSystemType r (iNamespace instance))
            && negb (MonitorsEnabled r (OSDMinimumMonitorCount r))
    then
      Some (StartMonitor (StorageMonitorCountMonitor instance (OSDMinimumMonitorCount r))
              (Sprintf "waiting for %d monitor(s) to be enabled before allowing OSDs"
                 [ArgInt (OSDMinimumMonitorCount r)]))
    else
      match tierUUID with
      | None =>
        Some (StartMonitor
                (StorageTierMonitor instance (clusters.ID cluster) StorageTierName)
                (Sprintf "waiting for the %q %s tier to be created"
                   [ArgString clusterName; ArgString StorageTierName]))
      | Some _ => None
      end
  end.

Definition buildOSDOpts (host : HostInfo) (osdInfo : OSDInfo) : osds.OSDOpts * option error :=
  match FindDiskByPath host (osdPath osdInfo) with
  | None =>
    (osds.noOpts,
     Some (MissingSystemResource
             (Sprintf "unable to find disk for path: %s" [ArgString (osdPath osdInfo)])))
  | Some disk =>
    let tierUUID := storagetiers.ID <$> (hStorageTiers host !! GetClusterName osdInfo) in
    match osdJournal osdInfo with
    | None =>
      ({| osds.oHostID := Some (hID host);
          osds.oDiskID := Some (disks.ID disk);
          osds.oFunction := Some (osdFunction osdInfo);
          osds.oJournalLocation := None;
          osds.oJournalSize := None;
          osds.oTierUUID := tierUUID |}, None)
    | Some journalInfo =>
      match FindOSDByPath host (jLocation journalInfo) with
      | None =>
        (osds.noOpts,
         Some (MissingSystemResource
                 (Sprintf "unable to find journal OSD with path: %s"
                    [ArgString (jLocation journalInfo)])))
      | Some journal =>
        if negb (String.eqb (osds.Function journal) FunctionJournal) then
          (osds.noOpts,
           Some (UserDataError
                   (Sprintf "OSD on disk %s is not a Journal OSD"
                      [ArgString (osds.DiskID journal)])))
        else
          ({| osds.oHostID := Some (hID host);
              osds.oDiskID := Some (disks.ID disk);
              osds.oFunction := Some (osdFunction osdInfo);
              osds.oJournalLocation := Some (osds.ID journal);
              osds.oJournalSize := Some (jSize journalInfo);
              osds.oTierUUID := tierUUID |}, None)
      end
    end
  end.

Definition osdStep (r : HostReconciler) (instance : Host) (function : string)
    (updated : bool) (osdInfo : OSDInfo) : M bool :=
  if negb (String.eqb (osdFunction osdInfo) function) then ret updated
  else
    host <- getHost ;;
    match FindOSDByPath host (osdPath osdInfo) with
    | Some osd =>
      let '(opts, required) := osdUpdateRequired osdInfo osd in
      if required : bool then
        answer <- call (OSDUpdate (osds.ID osd) opts) ;;
        match answer with
        | Failure e =>
          raise (Wrap (ClientFailure e)
                   (Sprintf "failed to update OSD: %s, %s"
                      [ArgString (osds.ID osd); ArgOSDOpts opts]))
        | Success _ =>
          call (NormalEvent instance ResourceUpdated
                  (Sprintf "OSD %q has been updated" [ArgString (osdPath osdInfo)])) ;;
          ret true
        end
      else ret updated
    | None =>
      let '(opts, err) := buildOSDOpts host osdInfo in
      returnErr err ;;
      returnErr (OSDProvisioningAllowed r instance osdInfo (osds.oTierUUID opts) host) ;;
      answer <- call (OSDCreate opts) ;;
      match answer with
      | Failure e => raise (Wrap (ClientFailure e) (text "failed to create OSD"))
      | Success _ =>
        call (NormalEvent instance ResourceCreated
                (Sprintf "OSD %q has been created" [ArgString (osdPath osdInfo)])) ;;
        ret true
      end
    end.

Definition ReconcileOSDsByType (r : HostReconciler) (instance : Host)
    (profile : HostProfileSpec) (function : string) : M unit :=
  storage <- storageOf profile ;;
  match sOSDs storage with
  | None => raise NilPointerPanic
  | Some desired =>
    updated <- forRangeAcc desired false (osdStep r instance function) ;;
    if updated : bool then
      host <- getHost ;;
      listed <- call (ListOSDs (hID host)) ;;
      match listed with
      | Failure e => raise (Wrap (ClientFailure e) (text "failed to refresh OSD list for host"))
      | Success result => setOSDs result
      end
    else ret tt
  end.

Definition ReconcileOSDs (r : HostReconciler) (instance : Host)
    (profile : HostProfileSpec) : M unit :=
  storage <- storageOf profile ;;
  match sOSDs storage with
  | None => ret tt
  | Some desired =>
    if negb (IsReconcilerEnabled r OSD) then ret tt
    else if (length desired =? 0)%nat then ret tt
    else
      forRange [FunctionJournal; FunctionOSD] (fun f =>
        ReconcileOSDsByType r instance profile f)
  end.

(** ** Filesystems *)

(** [DeleteFileSystems] and [CreateFileSystems] return [(updated, err)]; the
    caller reads [updated] only when [err] is nil.  The inner loop ranges
    over the list the snapshot held when the loop began, also after the
    refresh inside it has replaced [host.FileSystems]. *)
Definition DeleteFileSystems (removed : list string) : M bool :=
  forRangeAcc removed false (fun updated fsInfo =>
    host <- getHost ;;
    forRangeAcc (hFileSystems host) updated (fun updated fs =>
      if String.eqb fsInfo (hostFilesystems.Name fs) then
        deleted <- call (FileSystemDelete (hostFilesystems.ID fs)) ;;
        match deleted with
        | Failure e => raise (Wrap (ClientFailure e) (text "failed to remove file systems"))
        | Success _ =>
          listed <- call (ListFileSystems (hID host)) ;;
          match listed with
          | Failure e => raise (Wrap (ClientFailure e) (text "failed to list file systems"))
          | Success result => setFileSystems result ;; ret true
          end
        end
      else ret updated)).

Definition CreateFileSystems (added : list string) (profile : HostProfileSpec) : M bool :=
  forRangeAcc added false (fun updated fsInfo =>
    storage <- storageOf profile ;;
    match sFileSystems storage with
    | None => raise NilPointerPanic
    | Some desired =>
      forRangeAcc desired updated (fun updated fs =>
        if String.eqb fsInfo (fsName fs) then
          host <- getHost ;;
          let opts := {| hostFilesystems.cName := fsName fs;
                         hostFilesystems.cSize := fsSize fs;
                         hostFilesystems.cHostUUID := hID host |} in
          created <- call (FileSystemCreate opts) ;;
          match created with
          | Failure e => raise (Wrap (ClientFailure e) (text "failed to create file systems"))
          | Success _ =>
            listed <- call (ListFileSystems (hID host)) ;;
            match listed with
            | Failure e => raise (Wrap (ClientFailure e) (text "failed to list file systems"))
            | Success result => setFileSystems result ;; ret true
            end
          end
        else ret updated)
    end).

Definition ReconcileFileSystemTypes (r : HostReconciler) (instance : Host)
    (profile : HostProfileSpec) : M unit :=
  storage <- storageOf profile ;;
  match sFileSystems storage with
  | None => ret tt
  | Some desired =>
    if negb (IsReconcilerEnabled r FileSystemTypes) then ret tt
    else if (length desired =? 0)%nat then ret tt
    else
      host <- getHost ;;
      let configured := map fsName desired in
      let current := map hostFilesystems.Name (hFileSystems host) in
      let '(added, removed, _) := ListDelta current configured in
      let '(_, _, fs_to_add) := ListDelta added (FileSystemCreationAllowed r) in
      let '(_, _, fs_to_remove) := ListDelta removed (FileSystemDeletionAllowed r) in
      (if (0 <? length fs_to_remove)%nat then
         updated <- DeleteFileSystems fs_to_remove ;;
         if updated : bool then
           call (NormalEvent instance ResourceDeleted
                   (text "filesystem sizes have been deleted")) ;;
           ret tt
         else ret tt
       else ret tt) ;;
      (if (0 <? length fs_to_add)%nat then
         updated <- CreateFileSystems fs_to_add profile ;;
         if updated : bool then
           call (NormalEvent instance ResourceCreated
                   (text "filesystem sizes have been created")) ;;
           ret tt
         else ret tt
       else ret tt)
  end.

(** The inner loop of [ReconcileFileSystemSizes] for one desired entry:
    [found], and the updates with the entry appended for every filesystem of
    that name that is smaller than desired. *)
Definition sizeScan (current : list hostFilesystems.FileSystem) (fsInfo : FileSystemInfo)
    (updates : list hostFilesystems.FileSystemOpts)
  : bool * list hostFilesystems.FileSystemOpts :=
  fold_left (fun (acc : bool * list hostFilesystems.FileSystemOpts) fs =>
               let '(found, updates) := acc in
               if negb (String.eqb (hostFilesystems.Name fs) (fsName fsInfo)) then
                 (found, updates)
               else if hostFilesystems.Size fs <? fsSize fsInfo then
                 (true, (updates ++ [{| hostFilesystems.oName := fsName fsInfo;
                                        hostFilesystems.oSize := fsSize fsInfo |}])%list)
               else (true, updates))
            current (false, updates).

Definition sizeStep (host : HostInfo) (updates : list hostFilesystems.FileSystemOpts)
    (fsInfo : FileSystemInfo) : M (list hostFilesystems.FileSystemOpts) :=
  let '(found, updates) := sizeScan (hFileSystems host) fsInfo updates in
  if negb found then
    raise (MissingSystemResource
             (Sprintf "unknown host filesystem %q" [ArgString (fsName fsInfo)]))
  else ret updates.

Definition ReconcileFileSystemSizes (r : HostReconciler) (instance : Host)
    (profile : HostProfileSpec) : M unit :=
  storage <- storageOf profile ;;
  match sFileSystems storage with
  | None => ret tt
  | Some desired =>
    if negb (IsReconcilerEnabled r FileSystemSizes) then ret tt
    else if (length desired =? 0)%nat then ret tt
    else
      host <- getHost ;;
      if negb (IsUnlockedAvailable host) then
        raise (StartMonitor (UnlockedAvailableHostMonitor instance (hID host))
                 (text "waiting for host to reach available state"))
      else
        updates <- forRangeAcc desired [] (sizeStep host) ;;
        if (0 <? length updates)%nat then
          answer <- call (FileSystemUpdate (hID host) updates) ;;
          match answer with
          | Failure e =>
            raise (Wrap (ClientFailure e) (text "failed to update filesystems sizes"))
          | Success _ =>
            call (NormalEvent instance ResourceUpdated
                    (text "filesystem sizes have been updated")) ;;
            ret tt
          end
        else ret tt
  end.

(** ** ReconcileStorage *)

(** The last step of [ReconcileStorage]: the switch on the required state. *)
Definition osdStage (r : HostReconciler) (instance : Host) (profile : HostProfileSpec)
  : M unit :=
  host <- getHost ;;
  match OSDProvisioningState r (iNamespace instance) (hPersonality host) with
  | RequiredStateDisabled | RequiredStateAny => ReconcileOSDs r instance profile
  | _ => ret tt
  end.

Definition ReconcileStorage (r : HostReconciler) (instance : Host)
    (profile : HostProfileSpec) : M unit :=
  if negb (IsReconcilerEnabled r Storage) then ret tt
  else
    match pStorage profile with
    | None => ret tt
    | Some _ =>
      ReconcileMonitor r instance profile ;;
      ReconcileFileSystemTypes r instance profile ;;
      ReconcileVolumeGroups r instance profile ;;
      ReconcileStaleOSDs r instance profile ;;
      osdStage r instance profile
    end.

(** [runM o hist m h]: the outcome of [m] on the snapshot [h], the snapshot
    it leaves and the requests made, after the requests [hist]. *)
Definition runM {A : Type} (o : Oracle) (hist : list Request) (m : M A) (h : HostInfo)
  : outcome A * HostInfo * list Request :=
  run o hist (m h).

(** * Examples of reconcilers, hosts and remote systems *)

(** A reconciler of a multi-node system with every reconciler enabled. *)
Definition standardReconciler : HostReconciler :=
  {| GetSystemType := fun _ => SystemTypeStandard;
     EnabledMonitors := 2;
     IsReconcilerEnabled := fun _ => true;
     OSDMinimumMonitorCount := 2;
     FileSystemCreationAllowed := ["instances"; "image-conversion"];
     FileSystemDeletionAllowed := ["instances"; "image-conversion"];
     PartitionTypeMap := fun _ => "ba5eba11-0000-1111-2222-000000000001" |}.

(** The resource the examples reconcile. *)
Definition exampleInstance : Host :=
  {| iName := "storage-0"; iNamespace := "deployment" |}.

(** A locked, disabled storage host with two disks, in a Ceph cluster whose
    tier is allocated. *)
Definition exampleHost : HostInfo :=
  {| hID := "host-1";
     hPersonality := PersonalityStorage;
     hAdministrativeState := AdminLocked;
     hOperationalStatus := OperDisabled;
     hAvailabilityStatus := "online";
     hDisks := [ {| disks.ID := "disk-b"; disks.DevicePath := "/dev/sdb" |};
                 {| disks.ID := "disk-c"; disks.DevicePath := "/dev/sdc" |} ];
     hPartitions := [];
     hPhysicalVolumes := [];
     hVolumeGroups := [];
     hOSDs := [];
     hFileSystems := [];
     hStorageTiers := {[ CephClusterName :=
                           {| storagetiers.ID := "tier-1";
                              storagetiers.Name := StorageTierName |} ]};
     hClusters := [ {| clusters.ID := "cluster-1";
                       clusters.Name := CephClusterName;
                       clusters.DeploymentModel := DeploymentModelStorage |} ] |}.

(** The same host with other clusters. *)
Definition withClusters (h : HostInfo) (l : list clusters.Cluster) : HostInfo :=
  {| hID := hID h; hPersonality := hPersonality h;
     hAdministrativeState := hAdministrativeState h;
     hOperationalStatus := hOperationalStatus h;
     hAvailabilityStatus := hAvailabilityStatus h;
     hDisks := hDisks h; hPartitions := hPartitions h;
     hPhysicalVolumes := hPhysicalVolumes h; hVolumeGroups := hVolumeGroups h;
     hOSDs := hOSDs h; hFileSystems := hFileSystems h;
     hStorageTiers := hStorageTiers h; hClusters := l |}.

(** A desired data OSD on the first disk, without a journal. *)
Definition exampleOSD : OSDInfo :=
  {| osdPath := "/dev/sdb"; osdFunction := FunctionOSD;
     osdClusterName := None; osdJournal := None |}.

(** The deployment models that assign storage duties to a cluster: storage
    nodes and controller nodes. *)
Definition assignsStorageDuties (model : string) : bool :=
  String.eqb model DeploymentModelStorage || String.eqb model DeploymentModelController.

(** ** Notions used to state the properties of ReconcileMonitor *)

(** The monitor belongs to the host. *)
Definition belongsTo (host : HostInfo) (m : cephmonitors.CephMonitor) : bool :=
  String.eqb (cephmonitors.HostUUID m) (hID host).

(** A desired size is given and the monitor's size differs from it. *)
Definition sizeDiffers (monitorInfo : MonitorInfo) (m : cephmonitors.CephMonitor) : bool :=
  match mSize monitorInfo with
  | Some size => negb (size =? cephmonitors.Size m)
  | None => false
  end.

(** The requests that read, resize or create a monitor, and the events. *)
Definition monitorRequest (q : Request) : bool :=
  match q with
  | ListCephMonitors | CephMonitorUpdate _ _ | CephMonitorCreate _ | NormalEvent _ _ _ => true
  | _ => false
  end.

(** The requests of one in-place update and of one creation. *)
Definition monitorUpdate (instance : Host) (host : HostInfo) (monitorInfo : MonitorInfo)
  : list Request :=
  [ CephMonitorUpdate (hID host)
      {| cephmonitors.oHostUUID := None; cephmonitors.oSize := mSize monitorInfo |};
    NormalEvent instance ResourceCreated (text "ceph monitor has been updated") ].

Definition monitorCreate (instance : Host) (host : HostInfo) (monitorInfo : MonitorInfo)
  : list Request :=
  [ CephMonitorCreate
      {| cephmonitors.oHostUUID := Some (hID host); cephmonitors.oSize := mSize monitorInfo |};
    NormalEvent instance ResourceCreated (text "ceph monitor has been created") ].

(** The remote system accepts every change: each request that creates,
    updates or deletes succeeds. *)
Definition acceptsChanges (o : Oracle) : Prop :=
  forall hist,
    (forall id opts, o hist (CephMonitorUpdate id opts) = Success tt) /\
    (forall opts, o hist (CephMonitorCreate opts) = Success tt) /\
    (forall opts, o hist (PhysicalVolumeCreate opts) = Success tt) /\
    (forall opts, o hist (VolumeGroupCreate opts) = Success tt) /\
    (forall id, o hist (OSDDelete id) = Success tt) /\
    (forall id opts, o hist (OSDUpdate id opts) = Success tt) /\
    (forall opts, o hist (OSDCreate opts) = Success tt) /\
    (forall id, o hist (FileSystemDelete id) = Success tt) /\
    (forall opts, o hist (FileSystemCreate opts) = Success tt) /\
    (forall id opts, o hist (FileSystemUpdate id opts) = Success tt).

(** A remote system that accepts every request.  It lists the resources of
    the snapshot it was started with; its OSDs are those of that snapshot
    without the deleted ones, followed by the created ones, each with an
    identifier assigned from its disk. *)
Definition osdOf (opts : osds.OSDOpts) : osds.OSD :=
  {| osds.ID := "osd-on-" ++ default EmptyString (osds.oDiskID opts);
     osds.Function := default EmptyString (osds.oFunction opts);
     osds.DiskID := default EmptyString (osds.oDiskID opts);
     osds.Journal := {| osds.Location := osds.oJournalLocation opts;
                        osds.Gibibytes := default 0 (osds.oJournalSize opts) |} |}.

Definition inventoryOSDs (initial : list osds.OSD) (hist : list Request) : list osds.OSD :=
  fold_left (fun l q =>
               match q with
               | OSDCreate opts => (l ++ [osdOf opts])%list
               | OSDDelete id => List.filter (fun o => negb (String.eqb (osds.ID o) id)) l
               | _ => l
               end) hist initial.

Definition inventory (monitors : list cephmonitors.CephMonitor) (h : HostInfo) : Oracle :=
  fun hist q =>
    match q return Reply q with
    | ListCephMonitors => Success monitors
    | PartitionCreate opts =>
      Success {| partitions.ID := "partition-1";
                 partitions.DevicePath := "/dev/sdb1";
                 partitions.Size := partitions.oSize opts;
                 partitions.VolumeGroup := EmptyString;
                 partitions.Status := StatusCreating |}
    | ListPartitions _ => Success (hPartitions h)
    | PopulateSystemPartitions _ => Success []
    | ListPhysicalVolumes _ => Success (hPhysicalVolumes h)
    | ListVolumeGroups _ => Success (hVolumeGroups h)
    | ListOSDs _ => Success (inventoryOSDs (hOSDs h) hist)
    | ListFileSystems _ => Success (hFileSystems h)
    | NormalEvent _ _ _ => tt
    | _ => Success tt
    end.

(** A worker profile that asks for a monitor of 30 GiB, and a monitor of the
    example host of 20 GiB. *)
Definition workerProfile : HostProfileSpec :=
  {| pPersonality := Some PersonalityWorker;
     pStorage := Some {| sMonitor := Some {| mSize := Some 30 |};
                         sVolumeGroups := None; sOSDs := None; sFileSystems := None |} |}.

Definition exampleMonitor : cephmonitors.CephMonitor :=
  {| cephmonitors.UUID := "mon-1"; cephmonitors.HostUUID := "host-1";
     cephmonitors.Size := 20 |}.

(** ** Notions used to state the properties of ReconcileStaleOSDs *)

(** The desired entry matches, by backing path, a record with this
    identifier. *)
Definition matchesID (host : HostInfo) (id : string) (osdInfo : OSDInfo) : bool :=
  match FindOSDByPath host (osdPath osdInfo) with
  | Some o => String.eqb (osds.ID o) id
  | None => false
  end.

(** The record is in the present set: some desired entry matches it. *)
Definition isPresent (host : HostInfo) (desired : list OSDInfo) (id : string) : bool :=
  existsb (matchesID host id) desired.

(** The desired function differs from the function of the record. *)
Definition functionChanged (osdInfo : OSDInfo) (o : osds.OSD) : bool :=
  negb (String.eqb (osds.Function o) (osdFunction osdInfo)).

(** The desired entry has no journal while the record carries a journal
    location that is not its own identifier. *)
Definition journalRemoved (osdInfo : OSDInfo) (o : osds.OSD) : bool :=
  match osdJournal osdInfo, osds.Location (osds.Journal o) with
  | None, Some location => negb (String.eqb location (osds.ID o))
  | _, _ => false
  end.

(** The record is flagged for recreation by some desired entry that matches
    it. *)
Definition recreatesID (host : HostInfo) (id : string) (osdInfo : OSDInfo) : bool :=
  match FindOSDByPath host (osdPath osdInfo) with
  | Some o => String.eqb (osds.ID o) id && (functionChanged osdInfo o || journalRemoved osdInfo o)
  | None => false
  end.

Definition mustRecreate (host : HostInfo) (desired : list OSDInfo) (id : string) : bool :=
  existsb (recreatesID host id) desired.

Definition isStale (host : HostInfo) (desired : list OSDInfo) (osd : osds.OSD) : bool :=
  negb (isPresent host desired (osds.ID osd)) || mustRecreate host desired (osds.ID osd).

(** The requests that delete one record, and those that delete the stale
    records of the snapshot, in the order of the snapshot. *)
Definition osdDeletion (instance : Host) (osd : osds.OSD) : list Request :=
  [ OSDDelete (osds.ID osd);
    NormalEvent instance ResourceDeleted (Sprintf "osd %q deleted" [ArgString (osds.ID osd)]) ].

Definition staleDeletions (instance : Host) (host : HostInfo) (desired : list OSDInfo)
  : list Request :=
  flat_map (osdDeletion instance) (List.filter (isStale host desired) (hOSDs host)).

(** The example host with a data OSD on the first disk and a journal OSD on
    the second. *)
Definition osdB : osds.OSD :=
  {| osds.ID := "osd-on-disk-b"; osds.Function := FunctionOSD; osds.DiskID := "disk-b";
     osds.Journal := {| osds.Location := None; osds.Gibibytes := 0 |} |}.

Definition osdC : osds.OSD :=
  {| osds.ID := "osd-on-disk-c"; osds.Function := FunctionJournal; osds.DiskID := "disk-c";
     osds.Journal := {| osds.Location := None; osds.Gibibytes := 0 |} |}.

Definition osdHost : HostInfo := withOSDs exampleHost [osdB; osdC].

(** Profiles of a storage host that give this list of OSDs, or none. *)
Definition osdProfile (l : option (list OSDInfo)) : HostProfileSpec :=
  {| pPersonality := Some PersonalityStorage;
     pStorage := Some {| sMonitor := None; sVolumeGroups := None;
                         sOSDs := l; sFileSystems := None |} |}.

(** ** Notions used to state the properties of ReconcileFileSystemSizes *)

(** A filesystem of that name exists on the host. *)
Definition onHost (current : list hostFilesystems.FileSystem) (fsInfo : FileSystemInfo) : bool :=
  existsb (fun fs => String.eqb (hostFilesystems.Name fs) (fsName fsInfo)) current.

(** The desired entry exceeds the size of this filesystem of the host. *)
Definition grows (fsInfo : FileSystemInfo) (fs : hostFilesystems.FileSystem) : bool :=
  String.eqb (hostFilesystems.Name fs) (fsName fsInfo)
  && (hostFilesystems.Size fs <? fsSize fsInfo).

(** The growing entries, in the order of the profile: one for each filesystem
    of the host, of the name of the entry, that is smaller than desired. *)
Definition growing (current : list hostFilesystems.FileSystem) (desired : list FileSystemInfo)
  : list hostFilesystems.FileSystemOpts :=
  flat_map (fun fsInfo =>
              map (fun _ => {| hostFilesystems.oName := fsName fsInfo;
                               hostFilesystems.oSize := fsSize fsInfo |})
                  (List.filter (grows fsInfo) current))
           desired.

(** An unlocked, available host with a filesystem of 10 GiB, and profiles
    that ask for this size of that filesystem. *)
Definition fsHost : HostInfo :=
  {| hID := "host-1";
     hPersonality := PersonalityController;
     hAdministrativeState := AdminUnlocked;
     hOperationalStatus := OperEnabled;
     hAvailabilityStatus := AvailAvailable;
     hDisks := []; hPartitions := []; hPhysicalVolumes := []; hVolumeGroups := [];
     hOSDs := [];
     hFileSystems := [ {| hostFilesystems.ID := "fs-1"; hostFilesystems.Name := "backup";
                          hostFilesystems.Size := 10 |} ];
     hStorageTiers := ∅; hClusters := [] |}.

Definition fsProfile (size : Z) : HostProfileSpec :=
  {| pPersonality := Some PersonalityController;
     pStorage := Some {| sMonitor := None; sVolumeGroups := None; sOSDs := None;
                         sFileSystems := Some [ {| fsName := "backup"; fsSize := size |} ] |} |}.

(** ** Notions used to state the properties of ReconcilePartitions *)

(** The entry is a partition with a size for which the snapshot has no
    matching partition: one has to be created for it. *)
Definition needsPartition (host : HostInfo) (group : VolumeGroupInfo)
    (pvInfo : PhysicalVolumeInfo) : bool :=
  match pvSize pvInfo with
  | Some size =>
    String.eqb (pvType pvInfo) PVTypePartition
    && match FindPartitionByPath host (pvPath pvInfo) size (vgName group) with
       | Some _ => false
       | None => true
       end
  | None => false
  end.

(** The wait of [ReconcilePartitions]. *)
Definition partitionWait (instance : Host) (host : HostInfo) : error :=
  WaitFor (PartitionStateMonitor instance (hID host))
    (text "waiting for partitions to transition to ready state").

(** The same host with other partitions. *)
Definition withPartitions (h : HostInfo) (l : list partitions.DiskPartition) : HostInfo :=
  {| hID := hID h; hPersonality := hPersonality h;
     hAdministrativeState := hAdministrativeState h;
     hOperationalStatus := hOperationalStatus h;
     hAvailabilityStatus := hAvailabilityStatus h;
     hDisks := hDisks h; hPartitions := l;
     hPhysicalVolumes := hPhysicalVolumes h; hVolumeGroups := hVolumeGroups h;
     hOSDs := hOSDs h; hFileSystems := hFileSystems h;
     hStorageTiers := hStorageTiers h; hClusters := hClusters h |}.

(** A volume group with one partition of 10 GiB on the first disk; a matching
    partition that is still being created, and one that is ready. *)
Definition exampleGroup : VolumeGroupInfo :=
  {| vgName := "nova-local"; vgLVMType := None;
     vgPhysicalVolumes := [ {| pvType := PVTypePartition; pvPath := "/dev/sdb";
                               pvSize := Some 10 |} ] |}.

Definition partitionOf (status : string) : partitions.DiskPartition :=
  {| partitions.ID := "partition-1"; partitions.DevicePath := "/dev/sdb";
     partitions.Size := 10; partitions.VolumeGroup := "nova-local";
     partitions.Status := status |}.

(** A volume group whose partition is on a path where the host has no
    disk. *)
Definition missingDiskGroup : VolumeGroupInfo :=
  {| vgName := "nova-local"; vgLVMType := None;
     vgPhysicalVolumes := [ {| pvType := PVTypePartition; pvPath := "/dev/sdz";
                               pvSize := Some 10 |} ] |}.

Definition groupProfile (g : VolumeGroupInfo) : HostProfileSpec :=
  {| pPersonality := Some PersonalityStorage;
     pStorage := Some {| sMonitor := None; sVolumeGroups := Some [g];
                         sOSDs := None; sFileSystems := None |} |}.

(** ** Notions used to state the properties of the OSD reconcilers *)

(** The tier reference of a desired OSD: the identifier of the tier that the
    snapshot holds for the cluster of the entry. *)
Definition tierOf (host : HostInfo) (osdInfo : OSDInfo) : option string :=
  storagetiers.ID <$> (hStorageTiers host !! GetClusterName osdInfo).

(** The requests that create an OSD. *)
Definition osdCreated (instance : Host) (osdInfo : OSDInfo) : Request :=
  NormalEvent instance ResourceCreated
    (Sprintf "OSD %q has been created" [ArgString (osdPath osdInfo)]).

(** A desired journal OSD on the second disk and a desired data OSD on the
    first disk that keeps its journal there. *)
Definition journalOSD : OSDInfo :=
  {| osdPath := "/dev/sdc"; osdFunction := FunctionJournal;
     osdClusterName := None; osdJournal := None |}.

Definition dataOSD : OSDInfo :=
  {| osdPath := "/dev/sdb"; osdFunction := FunctionOSD;
     osdClusterName := None;
     osdJournal := Some {| jLocation := "/dev/sdc"; jSize := 1 |} |}.

(** The record of the journal OSD once the example system has created it. *)
Definition journalRecord : osds.OSD :=
  {| osds.ID := "osd-on-disk-c"; osds.Function := FunctionJournal; osds.DiskID := "disk-c";
     osds.Journal := {| osds.Location := None; osds.Gibibytes := 0 |} |}.

(** ** Notions used to state the properties of ReconcileStorage *)







(** ** Notions used to state what a reconciler requests and how it ends *)

(** [behaves K E m]: against every remote system, after any requests and on
    any snapshot, the requests that [m] makes are all of the kind [K], and an
    error that it returns is of the kind [E]. *)
Definition behaves {A : Type} (K : Request -> Prop) (E : error -> Prop) (m : M A) : Prop :=
  forall (o : Oracle) (hist : list Request) (h : HostInfo),
  exists t,
    (runM o hist m h).2 = (hist ++ t)%list /\
    Forall K t /\
    forall e, (runM o hist m h).1.1 = Raise e -> E e.

(** The failure of a request to the inventory client, with its context. *)
Definition isTransport (e : error) : Prop :=
  match e with
  | Wrap (ClientFailure _) _ => True
  | ClientFailure _ => True
  | _ => False
  end.

(** The wait of the admission gate of OSD creation. *)
Definition isGateWait (e : error) : Prop :=
  match e with
  | WaitFor (ClusterPresenceMonitor _ _) _
  | WaitFor (ClusterDeploymentModelMonitor _ _) _
  | WaitFor (StorageMonitorCountMonitor _ _) _
  | WaitFor (StorageTierMonitor _ _ _) _ => True
  | _ => False
  end.

(** The wait for the partitions of the host to settle. *)
Definition isPartitionWait (e : error) : Prop :=
  match e with
  | WaitFor (PartitionStateMonitor _ _) _ => True
  | _ => False
  end.

Definition isMissing (e : error) : Prop :=
  match e with
  | MissingSystemResource _ => True
  | _ => False
  end.

Definition isUserData (e : error) : Prop :=
  match e with
  | UserDataError _ => True
  | _ => False
  end.

(** The kinds of requests of each reconciler. *)
Definition staleOSDRequest (q : Request) : Prop :=
  match q with
  | OSDDelete _ | ListOSDs _ | NormalEvent _ ResourceDeleted _ => True
  | _ => False
  end.

Definition osdRequest (q : Request) : Prop :=
  match q with
  | OSDUpdate _ _ | OSDCreate _ | ListOSDs _
  | NormalEvent _ ResourceUpdated _ | NormalEvent _ ResourceCreated _ => True
  | _ => False
  end.

Definition volumeGroupRequest (q : Request) : Prop :=
  match q with
  | VolumeGroupCreate _ | ListVolumeGroups _
  | PhysicalVolumeCreate _ | ListPhysicalVolumes _
  | PartitionCreate _ | ListPartitions _ | PopulateSystemPartitions _
  | NormalEvent _ ResourceCreated _ => True
  | _ => False
  end.

Definition fileSystemTypeRequest (q : Request) : Prop :=
  match q with
  | FileSystemDelete _ | FileSystemCreate _ | ListFileSystems _
  | NormalEvent _ ResourceDeleted _ | NormalEvent _ ResourceCreated _ => True
  | _ => False
  end.

(** The requests of the storage pass: it resizes no filesystem. *)
Definition storageRequest (q : Request) : Prop :=
  match q with
  | FileSystemUpdate _ _ => False
  | _ => True
  end.

(** A list of requests is not empty. *)
Definition requested (t : list Request) : bool :=
  match t with
  | [] => false
  | _ :: _ => true
  end.

(** What a request of the OSD loop says of the desired entry it was made
    for, on the snapshot that the loop reads: a creation is for an entry of
    the function of the pass, absent from the snapshot, with the parameters
    built for it, and admitted by the gate; an update is for an entry found
    in the snapshot, with the parameters of the update it requires. *)
Definition osdRequestFor (r : HostReconciler) (instance : Host) (function : string)
    (host : HostInfo) (osdInfo : OSDInfo) (q : Request) : Prop :=
  osdFunction osdInfo = function /\
  match q with
  | OSDCreate opts =>
    FindOSDByPath host (osdPath osdInfo) = None /\
    buildOSDOpts host osdInfo = (opts, None) /\
    OSDProvisioningAllowed r instance osdInfo (osds.oTierUUID opts) host = None
  | OSDUpdate id opts =>
    exists osd, FindOSDByPath host (osdPath osdInfo) = Some osd /\
                id = osds.ID osd /\
                osdUpdateRequired osdInfo osd = (opts, true)
  | NormalEvent _ _ _ => True
  | _ => False
  end.

(** The desired entry is in the snapshot and needs no update. *)
Definition upToDate (host : HostInfo) (osdInfo : OSDInfo) : bool :=
  match FindOSDByPath host (osdPath osdInfo) with
  | Some osd => negb (osdUpdateRequired osdInfo osd).2
  | None => false
  end.

(** What a request of the partition loop says of the physical volume it was
    made for, on the snapshot that the loop reads: a creation is for an entry
    that needs a partition, on the disk found at its path, of the LVM type
    and of the desired size. *)
Definition partitionRequestFor (r : HostReconciler) (host : HostInfo)
    (group : VolumeGroupInfo) (pvInfo : PhysicalVolumeInfo) (q : Request) : Prop :=
  needsPartition host group pvInfo = true /\
  match q with
  | PartitionCreate opts =>
    exists disk size,
      pvSize pvInfo = Some size /\
      FindDiskByPath host (pvPath pvInfo) = Some disk /\
      opts = {| partitions.oHostID := hID host;
                partitions.oDiskID := disks.ID disk;
                partitions.oTypeName := Some PartitionTypeLVM;
                partitions.oTypeGUID := Some (PartitionTypeMap r PartitionTypeLVM);
                partitions.oSize := size |}
  | NormalEvent _ ResourceCreated _ => True
  | _ => False
  end.

(** What a request of the volume group loop says of the desired group it was
    made for: a creation is for a group that the snapshot does not have, by
    its name, with the capabilities only when an LVM type is given. *)
Definition volumeGroupRequestFor (host : HostInfo) (vgInfo : VolumeGroupInfo) (q : Request)
  : Prop :=
  FindVolumeGroup host (vgName vgInfo) = None /\
  match q with
  | VolumeGroupCreate opts =>
    opts = {| volumegroups.oHostID := Some (hID host);
              volumegroups.oName := Some (vgName vgInfo);
              volumegroups.oCapabilities :=
                match vgLVMType vgInfo with
                | Some t => Some {| volumegroups.oLVMType := Some t |}
                | None => None
                end |}
  | NormalEvent _ ResourceCreated _ => True
  | _ => False
  end.

(** The requests of the physical volumes and partitions of a group. *)
Definition physicalVolumeRequest (q : Request) : Prop :=
  match q with
  | PhysicalVolumeCreate _ | ListPhysicalVolumes _
  | PartitionCreate _ | ListPartitions _ | PopulateSystemPartitions _
  | NormalEvent _ ResourceCreated _ => True
  | _ => False
  end.

Definition partitionRequest (q : Request) : Prop :=
  match q with
  | PartitionCreate _ | ListPartitions _ | PopulateSystemPartitions _
  | NormalEvent _ ResourceCreated _ => True
  | _ => False
  end.

(** The physical volume is in the snapshot. *)
Definition hasPhysicalVolume (host : HostInfo) (group : VolumeGroupInfo)
    (pvInfo : PhysicalVolumeInfo) : bool :=
  match FindPhysicalVolume host (vgName group) (pvType pvInfo) (pvPath pvInfo)
          (match pvSize pvInfo with Some s => s | None => 0 end) with
  | Some _ => true
  | None => false
  end.

(** The volume group is in the snapshot. *)
Definition hasVolumeGroup (host : HostInfo) (vgInfo : VolumeGroupInfo) : bool :=
  match FindVolumeGroup host (vgName vgInfo) with
  | Some _ => true
  | None => false
  end.

(** The example host once the example volume group is in place: the group,
    its partition, ready, and its physical volume. *)
Definition groupHost : HostInfo :=
  {| hID := hID exampleHost; hPersonality := hPersonality exampleHost;
     hAdministrativeState := hAdministrativeState exampleHost;
     hOperationalStatus := hOperationalStatus exampleHost;
     hAvailabilityStatus := hAvailabilityStatus exampleHost;
     hDisks := hDisks exampleHost;
     hPartitions := [partitionOf "Ready"];
     hPhysicalVolumes :=
       [ {| physicalvolumes.ID := "pv-1"; physicalvolumes.Type_ := PVTypePartition;
            physicalvolumes.DevicePath := "/dev/sdb"; physicalvolumes.Size := 10;
            physicalvolumes.VolumeGroup := "nova-local" |} ];
     hVolumeGroups := [ {| volumegroups.ID := "vg-1"; volumegroups.Name := "nova-local" |} ];
     hOSDs := hOSDs exampleHost; hFileSystems := hFileSystems exampleHost;
     hStorageTiers := hStorageTiers exampleHost; hClusters := hClusters exampleHost |}.

(** What the creation of a physical volume says of the group it was made
    for: it is for a desired physical volume of the group, of its type, in
    the volume group that the snapshot holds under the name of the group, on
    a device that was found. *)
Definition physicalVolumeCreateFor (group : VolumeGroupInfo) (vg : volumegroups.VolumeGroup)
    (q : Request) : Prop :=
  match q with
  | PhysicalVolumeCreate opts =>
    exists pvInfo,
      In pvInfo (vgPhysicalVolumes group) /\
      physicalvolumes.oType opts = pvType pvInfo /\
      physicalvolumes.oVolumeGroupID opts = volumegroups.ID vg /\
      physicalvolumes.oDeviceID opts <> EmptyString
  | _ => True
  end.

(** What the creation of a filesystem says of the profile: it has the name
    and the size of a desired filesystem, and its name may be created. *)
Definition fileSystemCreateFor (r : HostReconciler) (desired : list FileSystemInfo)
    (q : Request) : Prop :=
  match q with
  | FileSystemCreate opts =>
    In (hostFilesystems.cName opts) (FileSystemCreationAllowed r) /\
    exists fs,
      In fs desired /\
      hostFilesystems.cName opts = fsName fs /\
      hostFilesystems.cSize opts = fsSize fs
  | _ => True
  end.

(** The example host with the group and its partition, before the physical
    volume is created. *)
Definition partitionedHost : HostInfo :=
  {| hID := hID groupHost; hPersonality := hPersonality groupHost;
     hAdministrativeState := hAdministrativeState groupHost;
     hOperationalStatus := hOperationalStatus groupHost;
     hAvailabilityStatus := hAvailabilityStatus groupHost;
     hDisks := hDisks groupHost; hPartitions := hPartitions groupHost;
     hPhysicalVolumes := []; hVolumeGroups := hVolumeGroups groupHost;
     hOSDs := hOSDs groupHost; hFileSystems := hFileSystems groupHost;
     hStorageTiers := hStorageTiers groupHost; hClusters := hClusters groupHost |}.

(** A profile that asks for the filesystems of the host and for one more,
    which may be created. *)
Definition fsTypesProfile : HostProfileSpec :=
  {| pPersonality := Some PersonalityController;
     pStorage := Some {| sMonitor := None; sVolumeGroups := None; sOSDs := None;
                         sFileSystems := Some [ {| fsName := "backup"; fsSize := 10 |};
                                                {| fsName := "instances"; fsSize := 5 |} ] |} |}.

(** A host in the desired state of [convergedProfile]: the example group
    with its partition and physical volume, and the data OSD. *)
Definition convergedHost : HostInfo := withOSDs groupHost [osdB].

Definition convergedProfile : HostProfileSpec :=
  {| pPersonality := Some PersonalityStorage;
     pStorage := Some {| sMonitor := None; sVolumeGroups := Some [exampleGroup];
                         sOSDs := Some [exampleOSD]; sFileSystems := None |} |}.

(** * Properties *)

(** ** Running the monad *)

Lemma run_pbind {A B : Type} (o : Oracle) (p : Prog A) (f : A -> Prog B) :
  forall hist, run o hist (pbind p f) = run o (run o hist p).2 (f (run o hist p).1).
Proof.
  induction p as [a | q k IH]; intros hist; simpl.
  - reflexivity.
  - apply IH.
Qed.

Lemma runM_ret {A : Type} o hist (a : A) h : runM o hist (ret a) h = (Done a, h, hist).
Proof. reflexivity. Qed.

Lemma runM_raise {A : Type} o hist (e : error) h :
  runM o hist (@raise A e) h = (Raise e, h, hist).
Proof. reflexivity. Qed.

Lemma runM_call o hist q h :
  runM o hist (call q) h = (Done (o hist q), h, (hist ++ [q])%list).
Proof. reflexivity. Qed.

Lemma runM_getHost o hist h : runM o hist getHost h = (Done h, h, hist).
Proof. reflexivity. Qed.

Lemma runM_bind {A B : Type} o hist (m : M A) (f : A -> M B) h :
  runM o hist (bind m f) h =
  match runM o hist m h with
  | (Done a, h', t) => runM o t (f a) h'
  | (Raise e, h', t) => (Raise e, h', t)
  end.
Proof.
  unfold runM, bind. rewrite run_pbind.
  destruct (run o hist (m h)) as [[[a | e] h'] t]; reflexivity.
Qed.

Lemma exec_runM o (m : M unit) h :
  exec o m h =
  match runM o [] m h with
  | (Done _, h', t) => (None, h', t)
  | (Raise e, h', t) => (Some e, h', t)
  end.
Proof. reflexivity. Qed.

(** The requests of a computation extend the requests made before it. *)
Lemma run_extends {A : Type} (o : Oracle) (p : Prog A) :
  forall hist, exists s, (run o hist p).2 = (hist ++ s)%list.
Proof.
  induction p as [a | q k IH]; intros hist; simpl.
  - exists []. by rewrite app_nil_r.
  - destruct (IH (o hist q) (hist ++ [q])%list) as [s Hs].
    exists (q :: s). rewrite Hs. by rewrite <- app_assoc.
Qed.

Lemma runM_extends {A : Type} o hist (m : M A) h :
  exists s, (runM o hist m h).2 = (hist ++ s)%list.
Proof. apply run_extends. Qed.

Lemma runM_bind_requests {A B : Type} o hist (m : M A) (f : A -> M B) h :
  exists s, (runM o hist (bind m f) h).2 = ((runM o hist m h).2 ++ s)%list.
Proof.
  rewrite runM_bind. destruct (runM o hist m h) as [[[a | e] h'] t]; simpl.
  - destruct (runM_extends o t (f a) h') as [s Hs]. by exists s.
  - exists []. by rewrite app_nil_r.
Qed.

Ltac msimpl :=
  repeat first
    [ rewrite runM_bind
    | rewrite runM_call
    | match goal with
      | |- context [@runM ?A ?o ?hist (call ?q) ?h] =>
        change (@runM A o hist (call q) h) with (Done (o hist q), h, (hist ++ [q])%list);
        cbv beta iota
      end
    | rewrite runM_ret
    | rewrite runM_raise
    | rewrite runM_getHost ].

(** ** The provisioning state *)

Example EqualFold_case : EqualFold "Storage" PersonalityStorage = true.
Proof. reflexivity. Qed.




(** ** The admission gate of OSD creation *)

(** C3: the gate checks its conditions in order and answers the first unmet
    one with its own wait, never with a failure: the cluster is absent; its
    deployment model is undefined; the system is multi-node, the model
    assigns storage duties and fewer monitors than the minimum are enabled;
    the tier reference is nil.  When all hold it returns nil. *)
Theorem OSDProvisioningAllowed_gate :
  forall (r : HostReconciler) (instance : Host) (osdInfo : OSDInfo)
         (tierUUID : option string) (host : HostInfo),
    let name := GetClusterName osdInfo in
    let monitorsShort :=
      fun model : string =>
        isStandard (GetSystemType r (iNamespace instance))
        && assignsStorageDuties model
        && (EnabledMonitors r <? OSDMinimumMonitorCount r) in
    (FindClusterByName host name = None ->
     OSDProvisioningAllowed r instance osdInfo tierUUID host
     = Some (WaitFor (ClusterPresenceMonitor instance name)
               (Sprintf "waiting for the %q cluster to be created before allowing OSDs"
                  [ArgString name]))) /\
    (forall cluster,
        FindClusterByName host name = Some cluster ->
        clusters.DeploymentModel cluster = DeploymentModelUndefined ->
        OSDProvisioningAllowed r instance osdInfo tierUUID host
        = Some (WaitFor (ClusterDeploymentModelMonitor instance (clusters.ID cluster))
                  (text "waiting for storage deployment model to be defined before allowing OSDs"))) /\
    (forall cluster,
        FindClusterByName host name = Some cluster ->
        clusters.DeploymentModel cluster <> DeploymentModelUndefined ->
        monitorsShort (clusters.DeploymentModel cluster) = true ->
        OSDProvisioningAllowed r instance osdInfo tierUUID host
        = Some (WaitFor (StorageMonitorCountMonitor instance (OSDMinimumMonitorCount r))
                  (Sprintf "waiting for %d monitor(s) to be enabled before allowing OSDs"
                     [ArgInt (OSDMinimumMonitorCount r)]))) /\
    (forall cluster,
        FindClusterByName host name = Some cluster ->
        clusters.DeploymentModel cluster <> DeploymentModelUndefined ->
        monitorsShort (clusters.DeploymentModel cluster) = false ->
        tierUUID = None ->
        OSDProvisioningAllowed r instance osdInfo tierUUID host
        = Some (WaitFor (StorageTierMonitor instance (clusters.ID cluster) StorageTierName)
                  (Sprintf "waiting for the %q %s tier to be created"
                     [ArgString name; ArgString StorageTierName]))) /\
    (forall cluster,
        FindClusterByName host name = Some cluster ->
        clusters.DeploymentModel cluster <> DeploymentModelUndefined ->
        monitorsShort (clusters.DeploymentModel cluster) = false ->
        tierUUID <> None ->
        OSDProvisioningAllowed r instance osdInfo tierUUID host = None) /\
    (forall e,
        OSDProvisioningAllowed r instance osdInfo tierUUID host = Some e ->
        isWait e = true).
Proof.
  intros r instance osdInfo tierUUID host name monitorsShort.
  assert (Hshort : forall model,
             ((String.eqb model DeploymentModelStorage
               || String.eqb model DeploymentModelController)
              && isStandard (GetSystemType r (iNamespace instance))
              && negb (MonitorsEnabled r (OSDMinimumMonitorCount r)))%bool
             = monitorsShort model).
  { intros model. unfold monitorsShort, assignsStorageDuties, MonitorsEnabled.
    rewrite Z.leb_antisym.
    destruct (String.eqb model DeploymentModelStorage || String.eqb model DeploymentModelController),
      (isStandard (GetSystemType r (iNamespace instance))),
      (EnabledMonitors r <? OSDMinimumMonitorCount r); reflexivity. }
  unfold OSDProvisioningAllowed. fold name.
  repeat split.
  - intros ->. reflexivity.
  - intros cluster -> ->. reflexivity.
  - intros cluster -> Hm Hs.
    apply String.eqb_neq in Hm. rewrite Hm, Hshort, Hs. reflexivity.
  - intros cluster -> Hm Hs ->.
    apply String.eqb_neq in Hm. rewrite Hm, Hshort, Hs. reflexivity.
  - intros cluster -> Hm Hs Ht.
    apply String.eqb_neq in Hm. rewrite Hm, Hshort, Hs.
    destruct tierUUID; [reflexivity | congruence].
  - intros e. destruct (FindClusterByName host name) as [cluster |].
    + destruct (String.eqb (clusters.DeploymentModel cluster) DeploymentModelUndefined).
      * intros [= <-]. reflexivity.
      * rewrite Hshort. destruct (monitorsShort (clusters.DeploymentModel cluster)).
        -- intros [= <-]. reflexivity.
        -- destruct tierUUID; [discriminate | intros [= <-]; reflexivity].
    + intros [= <-]. reflexivity.
Qed.

Lemma OSDProvisioningAllowed_gate_witness :
  isWait (WaitFor (ClusterPresenceMonitor exampleInstance CephClusterName)
            (Sprintf "waiting for the %q cluster to be created before allowing OSDs"
               [ArgString CephClusterName])) = true /\
  OSDProvisioningAllowed standardReconciler exampleInstance exampleOSD None
    (withClusters exampleHost [])
  = Some (WaitFor (ClusterPresenceMonitor exampleInstance CephClusterName)
            (Sprintf "waiting for the %q cluster to be created before allowing OSDs"
               [ArgString CephClusterName])) /\
  OSDProvisioningAllowed standardReconciler exampleInstance exampleOSD (Some "tier-1")
    exampleHost = None.
Proof.
  pose proof (OSDProvisioningAllowed_gate standardReconciler exampleInstance exampleOSD
                None (withClusters exampleHost [])) as H0.
  pose proof (OSDProvisioningAllowed_gate standardReconciler exampleInstance exampleOSD
                (Some "tier-1") exampleHost) as H1.
  simpl in H0, H1.
  destruct H0 as (Habsent & _ & _ & _ & _ & Hwait).
  destruct H1 as (_ & _ & _ & _ & Hpass & _).
  split; [| split].
  - apply Hwait. apply Habsent. reflexivity.
  - apply Habsent. reflexivity.
  - apply (Hpass {| clusters.ID := "cluster-1"; clusters.Name := CephClusterName;
                    clusters.DeploymentModel := DeploymentModelStorage |});
      [reflexivity | discriminate | reflexivity | discriminate].
Defined.

(** ** The Ceph monitor of a worker *)

Lemma forRangeAcc_cons {A S : Type} o hist (x : A) (l : list A) (s : S)
    (body : S -> A -> M S) h :
  runM o hist (forRangeAcc (x :: l) s body) h =
  match runM o hist (body s x) h with
  | (Done s', h', t) => runM o t (forRangeAcc l s' body) h'
  | (Raise e, h', t) => (Raise e, h', t)
  end.
Proof. simpl. by rewrite runM_bind. Qed.

Lemma forRange_cons {A : Type} o hist (x : A) (l : list A) (body : A -> M unit) h :
  runM o hist (forRange (x :: l) body) h =
  match runM o hist (body x) h with
  | (Done _, h', t) => runM o t (forRange l body) h'
  | (Raise e, h', t) => (Raise e, h', t)
  end.
Proof. simpl. by rewrite runM_bind. Qed.

(** The loop over the listed monitors: what it requests, for any answers. *)
Lemma monitorLoop_requests o instance host monitorInfo :
  forall monitors hist found,
  exists res s,
    runM o hist (forRangeAcc monitors found (monitorStep instance host monitorInfo)) host
    = (res, host, (hist ++ s)%list) /\
    Forall (fun q => In q (monitorUpdate instance host monitorInfo)) s /\
    (s <> [] -> exists m, In m monitors /\ belongsTo host m = true
                          /\ sizeDiffers monitorInfo m = true) /\
    (forall f, res = Done f -> f = found || existsb (belongsTo host) monitors).
Proof.
  induction monitors as [| m monitors IH]; intros hist found.
  - exists (Done found), []. simpl. rewrite app_nil_r, orb_false_r.
    repeat split; [constructor | congruence | congruence].
  - rewrite forRangeAcc_cons. unfold monitorStep at 1.
    cbn [existsb].
    change (belongsTo host m) with (String.eqb (cephmonitors.HostUUID m) (hID host)).
    destruct (String.eqb (cephmonitors.HostUUID m) (hID host)) eqn:Hb.
    + destruct (mSize monitorInfo) as [size |] eqn:Hsize.
      * destruct (negb (size =? cephmonitors.Size m)) eqn:Hd.
        -- msimpl.
           destruct (o hist (CephMonitorUpdate (hID host) _)) as [[] | e] eqn:Ho.
           ++ msimpl.
              destruct (IH ((hist ++ [CephMonitorUpdate (hID host)
                       {| cephmonitors.oHostUUID := None; cephmonitors.oSize := Some size |}])
                     ++ [NormalEvent instance ResourceCreated (text "ceph monitor has been updated")])%list
                     true) as (res & s & Hrun & Hall & _ & Hres).
              exists res, (monitorUpdate instance host monitorInfo ++ s)%list.
              rewrite Hrun. unfold monitorUpdate. rewrite Hsize.
              rewrite <- !app_assoc. simpl. split; [reflexivity |].
              split; [| split].
              ** constructor; [simpl; tauto |].
                 constructor; [simpl; tauto |].
                 eapply Forall_impl; [exact Hall |].
                 intros q Hq. unfold monitorUpdate in Hq. by rewrite Hsize in Hq.
              ** intros _. exists m. split; [by left |].
                 unfold belongsTo, sizeDiffers. by rewrite Hb, Hsize, Hd.
              ** intros f Hf. rewrite (Hres f Hf). by rewrite orb_true_r.
           ++ msimpl. eexists _, [_]. split; [reflexivity |].
              split; [| split].
              ** constructor; [| constructor].
                 unfold monitorUpdate. rewrite Hsize. by left.
              ** intros _. exists m. split; [by left |].
                 unfold belongsTo, sizeDiffers. by rewrite Hb, Hsize, Hd.
              ** discriminate.
        -- msimpl. destruct (IH hist true) as (res & s & Hrun & Hall & Hne & Hres).
           exists res, s. rewrite Hrun. repeat split; auto.
           ++ intros Hs. destruct (Hne Hs) as (m' & Hin & Hm'). exists m'. split; [by right | done].
           ++ intros f Hf. rewrite (Hres f Hf). by rewrite orb_true_r.
      * msimpl. destruct (IH hist true) as (res & s & Hrun & Hall & Hne & Hres).
        exists res, s. rewrite Hrun. repeat split; auto.
        -- intros Hs. destruct (Hne Hs) as (m' & Hin & Hm'). exists m'. split; [by right | done].
        -- intros f Hf. rewrite (Hres f Hf). by rewrite orb_true_r.
    + msimpl. destruct (IH hist found) as (res & s & Hrun & Hall & Hne & Hres).
      exists res, s. rewrite Hrun. repeat split; auto.
      intros Hs. destruct (Hne Hs) as (m' & Hin & Hm'). exists m'. split; [by right | done].
Qed.

(** The same loop when the remote system accepts every change. *)
Lemma monitorLoop_accepted o instance host monitorInfo :
  acceptsChanges o ->
  forall monitors hist found,
    runM o hist (forRangeAcc monitors found (monitorStep instance host monitorInfo)) host
    = (Done (found || existsb (belongsTo host) monitors), host,
       (hist ++ flat_map (fun _ => monitorUpdate instance host monitorInfo)
                  (List.filter (fun m => belongsTo host m && sizeDiffers monitorInfo m)
                     monitors))%list).
Proof.
  intros Hok. induction monitors as [| m monitors IH]; intros hist found.
  - simpl. by rewrite app_nil_r, orb_false_r.
  - rewrite forRangeAcc_cons. unfold monitorStep at 1.
    cbn [existsb List.filter]. unfold sizeDiffers at 1.
    change (belongsTo host m) with (String.eqb (cephmonitors.HostUUID m) (hID host)).
    destruct (String.eqb (cephmonitors.HostUUID m) (hID host)) eqn:Hb.
    + destruct (mSize monitorInfo) as [size |] eqn:Hsize.
      * destruct (negb (size =? cephmonitors.Size m)) eqn:Hd.
        -- msimpl. destruct (Hok hist) as (Hupd & _). rewrite Hupd. msimpl.
           rewrite IH. cbn [andb flat_map]. unfold monitorUpdate at 2. rewrite Hsize.
           rewrite <- !app_assoc. simpl. by rewrite orb_true_r.
        -- msimpl. rewrite IH. simpl. by rewrite orb_true_r.
      * msimpl. rewrite IH. simpl. by rewrite orb_true_r.
    + msimpl. rewrite IH. reflexivity.
Qed.

(** C8: the monitor reconciler never deletes.  For any input it leaves the
    snapshot as it is and only lists, resizes or creates monitors (and
    records events).  On a host whose profile is not a worker's it requests
    nothing.  When no monitor is desired it lists the monitors and changes
    none, also when the host has one.  When a monitor is desired, a resize is
    requested only for a monitor of the host whose size differs from a given
    desired size, and a creation only when the host has no monitor; when the
    remote system accepts the changes, every such monitor is resized in place
    and a monitor is created exactly when the host has none. *)
Theorem ReconcileMonitor_never_deletes :
  forall (r : HostReconciler) (instance : Host) (profile : HostProfileSpec)
         (host : HostInfo) (o : Oracle),
    let res := exec o (ReconcileMonitor r instance profile) host in
    res.1.2 = host /\
    Forall (fun q => monitorRequest q = true) res.2 /\
    (pPersonality profile <> Some PersonalityWorker -> res = (None, host, [])) /\
    (forall storage monitors,
        IsReconcilerEnabled r StorageMonitor = true ->
        pPersonality profile = Some PersonalityWorker ->
        pStorage profile = Some storage ->
        sMonitor storage = None ->
        o [] ListCephMonitors = Success monitors ->
        res = (None, host, [ListCephMonitors])) /\
    (forall storage monitorInfo monitors,
        IsReconcilerEnabled r StorageMonitor = true ->
        pPersonality profile = Some PersonalityWorker ->
        pStorage profile = Some storage ->
        sMonitor storage = Some monitorInfo ->
        o [] ListCephMonitors = Success monitors ->
        (forall id opts,
            In (CephMonitorUpdate id opts) res.2 ->
            exists m, In m monitors /\ belongsTo host m = true
                      /\ sizeDiffers monitorInfo m = true) /\
        (forall opts,
            In (CephMonitorCreate opts) res.2 ->
            existsb (belongsTo host) monitors = false) /\
        (acceptsChanges o ->
         res = (None, host,
                (ListCephMonitors
                   :: flat_map (fun _ => monitorUpdate instance host monitorInfo)
                        (List.filter (fun m => belongsTo host m && sizeDiffers monitorInfo m)
                           monitors)
                   ++ (if existsb (belongsTo host) monitors then []
                       else monitorCreate instance host monitorInfo))%list))).
Proof.
  intros r instance profile host o res. subst res.
  rewrite exec_runM. unfold ReconcileMonitor.
  destruct (IsReconcilerEnabled r StorageMonitor) eqn:Hen; simpl negb; cbv iota.
  2:{ msimpl. simpl. repeat split; try constructor; intros; discriminate. }
  destruct (pPersonality profile) as [p |] eqn:Hp.
  2:{ msimpl. simpl. repeat split; try constructor; intros; discriminate. }
  destruct (String.eqb p PersonalityWorker) eqn:Hw; simpl negb; cbv iota.
  2:{ msimpl. simpl. repeat split; try constructor; intros; try discriminate.
      all: match goal with H : Some _ = Some _ |- _ => injection H as -> end;
        by rewrite String.eqb_refl in Hw. }
  apply String.eqb_eq in Hw. subst p.
  msimpl. simpl app.
  destruct (o [] ListCephMonitors) as [monitors | e] eqn:Hlist.
  2:{ msimpl. simpl. repeat split; try (repeat constructor; fail); intros; congruence. }
  unfold storageOf. destruct (pStorage profile) as [storage |] eqn:Hs.
  2:{ msimpl. simpl. repeat split; try (repeat constructor; fail); intros; congruence. }
  msimpl.
  destruct (sMonitor storage) as [monitorInfo |] eqn:Hm.
  - (* a monitor is desired *)
    msimpl.
    destruct (monitorLoop_requests o instance host monitorInfo monitors
                [ListCephMonitors] false) as (lres & s & Hrun & Hall & Hne & Hres).
    assert (Hs_ok : Forall (fun q => monitorRequest q = true) s).
    { eapply Forall_impl; [exact Hall |]. intros q Hq. simpl in Hq.
      destruct Hq as [<- | [<- | []]]; reflexivity. }
    assert (Hupd : forall id opts, In (CephMonitorUpdate id opts) s ->
               exists m, In m monitors /\ belongsTo host m = true
                         /\ sizeDiffers monitorInfo m = true).
    { intros id opts Hin. apply Hne. intros ->. destruct Hin. }
    assert (Hnocreate : forall opts, ~ In (CephMonitorCreate opts) s).
    { intros opts Hin. rewrite List.Forall_forall in Hall. apply Hall in Hin. simpl in Hin.
      destruct Hin as [H | [H | []]]; discriminate. }
    rewrite Hrun. destruct lres as [found | e].
    + pose proof (Hres found eq_refl) as Hf. simpl in Hf. subst found.
      destruct (existsb (belongsTo host) monitors) eqn:Hex; simpl negb; cbv iota.
      * msimpl. simpl. split; [reflexivity |]. split; [by constructor |].
        split; [congruence |]. split; [intros; congruence |].
        intros storage' mi' monitors' _ _ [= <-] Hm' [= <-].
        rewrite Hm in Hm'. injection Hm' as <-.
        split; [| split].
        -- intros id opts [H | H]; [discriminate | eauto].
        -- intros opts [H | H]; [discriminate | by apply Hnocreate in H].
        -- intros Hok.
           pose proof (monitorLoop_accepted o instance host monitorInfo Hok monitors
                         [ListCephMonitors] false) as Hacc.
           rewrite Hrun in Hacc. simplify_eq/=.
           repeat match goal with H : _ = existsb _ _ |- _ => rewrite <- H end.
           by rewrite app_nil_r.
      * msimpl.
        destruct (o _ (CephMonitorCreate _)) as [[] | e] eqn:Hc; msimpl; simpl.
        -- split; [reflexivity |]. split.
           { constructor; [reflexivity |]. rewrite <- ?app_assoc.
             apply Forall_app_2; [done | by repeat constructor]. }
           split; [congruence |]. split; [intros; congruence |].
           intros storage' mi' monitors' _ _ [= <-] Hm' [= <-].
           rewrite Hm in Hm'. injection Hm' as <-.
           split; [| split].
           ++ intros id opts [H | H]; [discriminate |].
              rewrite !in_app_iff in H. destruct H as [[H | H] | H]; [eauto | |].
              ** destruct H as [H | []]. discriminate.
              ** destruct H as [H | []]. discriminate.
           ++ intros; exact Hex.
           ++ intros Hok.
              pose proof (monitorLoop_accepted o instance host monitorInfo Hok monitors
                            [ListCephMonitors] false) as Hacc.
              rewrite Hrun in Hacc. simplify_eq/=.
              repeat match goal with H : _ = existsb _ _ |- _ => rewrite <- H end.
              unfold monitorCreate. by rewrite <- ?app_assoc.
        -- split; [reflexivity |]. split.
           { constructor; [reflexivity |]. rewrite <- ?app_assoc.
             apply Forall_app_2; [done | by repeat constructor]. }
           split; [congruence |]. split; [intros; congruence |].
           intros storage' mi' monitors' _ _ [= <-] Hm' [= <-].
           rewrite Hm in Hm'. injection Hm' as <-.
           split; [| split].
           ++ intros id opts [H | H]; [discriminate |].
              rewrite in_app_iff in H. destruct H as [H | H]; [eauto |].
              destruct H as [H | []]. discriminate.
           ++ intros; exact Hex.
           ++ intros Hok. destruct (Hok ([ListCephMonitors] ++ s)%list) as (_ & Hcr & _).
              simpl in Hcr. rewrite Hcr in Hc. discriminate.
    + simpl. split; [reflexivity |]. split; [by constructor |].
      split; [congruence |]. split; [intros; congruence |].
      intros storage' mi' monitors' _ _ [= <-] Hm' [= <-].
      rewrite Hm in Hm'. injection Hm' as <-.
      split; [| split].
      * intros id opts [H | H]; [discriminate | eauto].
      * intros opts [H | H]; [discriminate | by apply Hnocreate in H].
      * intros Hok.
        pose proof (monitorLoop_accepted o instance host monitorInfo Hok monitors
                      [ListCephMonitors] false) as Hacc.
        rewrite Hrun in Hacc. discriminate.
  - (* no monitor is desired *)
    assert (Hloop : forall (l : list cephmonitors.CephMonitor) hist,
               runM o hist (forRange l (fun _ => ret tt)) host = (Done tt, host, hist)).
    { induction l as [| x l IH]; intros hist; [reflexivity |].
      rewrite forRange_cons. msimpl. apply IH. }
    rewrite Hloop. simpl.
    split; [reflexivity |]. split; [by repeat constructor |].
    split; [congruence |]. split; [intros; reflexivity |].
    intros storage' mi' monitors' _ _ [= <-] Hm'. congruence.
Qed.

Lemma inventory_acceptsChanges monitors h : acceptsChanges (inventory monitors h).
Proof. intros hist. repeat split. Qed.

Lemma ReconcileMonitor_never_deletes_witness :
  exec (inventory [exampleMonitor] exampleHost)
       (ReconcileMonitor standardReconciler exampleInstance workerProfile) exampleHost
  = (None, exampleHost,
     [ ListCephMonitors;
       CephMonitorUpdate "host-1"
         {| cephmonitors.oHostUUID := None; cephmonitors.oSize := Some 30 |};
       NormalEvent exampleInstance ResourceCreated (text "ceph monitor has been updated") ]).
Proof.
  destruct (ReconcileMonitor_never_deletes standardReconciler exampleInstance workerProfile
              exampleHost (inventory [exampleMonitor] exampleHost))
    as (_ & _ & _ & _ & Hdesired).
  destruct (Hdesired _ {| mSize := Some 30 |} [exampleMonitor]
              eq_refl eq_refl eq_refl eq_refl eq_refl) as (_ & _ & Haccepted).
  exact (Haccepted (inventory_acceptsChanges _ _)).
Defined.

(** ** Loops, for any answers of the remote system *)

(** When every turn of a loop makes requests of a kind that its element
    allows, the loop makes requests that some element allows. *)
Lemma forRangeAcc_requests {A S : Type} (o : Oracle) (body : S -> A -> M S)
    (P : A -> Request -> Prop) (l : list A) :
  (forall s x hist h, In x l ->
      exists t, (runM o hist (body s x) h).2 = (hist ++ t)%list /\ Forall (P x) t) ->
  forall hist s h,
  exists t, (runM o hist (forRangeAcc l s body) h).2 = (hist ++ t)%list /\
            Forall (fun q => exists x, In x l /\ P x q) t.
Proof.
  induction l as [| x l IH]; intros Hbody hist s h.
  - exists []. simpl. split; [by rewrite app_nil_r | constructor].
  - rewrite forRangeAcc_cons.
    destruct (Hbody s x hist h (or_introl eq_refl)) as (t1 & Ht1 & HP1).
    assert (HP1' : Forall (fun q => exists x0, In x0 (x :: l) /\ P x0 q) t1).
    { eapply Forall_impl; [exact HP1 |]. intros q Hq. exists x. split; [by left | done]. }
    destruct (runM o hist (body s x) h) as [[[s' | e] h'] t] eqn:Hrun; simpl in Ht1; subst t.
    + destruct (IH (fun s x hist h Hin => Hbody s x hist h (or_intror Hin))
                  (hist ++ t1)%list s' h') as (t2 & Ht2 & HP2).
      exists (t1 ++ t2)%list. rewrite Ht2, app_assoc. split; [reflexivity |].
      apply Forall_app_2; [done |].
      eapply Forall_impl; [exact HP2 |].
      intros q (x0 & Hin & Hq). exists x0. split; [by right | done].
    + exists t1. split; [reflexivity | done].
Qed.

(** ** Stale OSDs *)

Lemma filter_existsb_false {A : Type} (f : A -> bool) (l : list A) :
  existsb f l = false -> List.filter f l = [].
Proof.
  induction l as [| x l IH]; simpl; [done |].
  destruct (f x); simpl; [discriminate | exact IH].
Qed.

Lemma marked_insert (m : gmap string bool) (k id : string) :
  marked (<[k := true]> m) id = String.eqb k id || marked m id.
Proof.
  unfold marked. destruct (String.eqb k id) eqn:E.
  - apply String.eqb_eq in E. subst. by rewrite lookup_insert_eq.
  - apply String.eqb_neq in E. by rewrite lookup_insert_ne.
Qed.

Lemma markStep_marks host id present updated e :
  marked (markStep host (present, updated) e).1 id
  = marked present id || matchesID host id e /\
  marked (markStep host (present, updated) e).2 id
  = marked updated id || recreatesID host id e.
Proof.
  unfold markStep, matchesID, recreatesID, functionChanged, journalRemoved.
  destruct (FindOSDByPath host (osdPath e)) as [o |]; [| by rewrite !orb_false_r].
  destruct (negb (String.eqb (osds.Function o) (osdFunction e))); simpl.
  - rewrite !marked_insert.
    destruct (String.eqb (osds.ID o) id), (marked present id), (marked updated id);
      split; reflexivity.
  - destruct (osdJournal e) as [j |]; [| destruct (osds.Location (osds.Journal o)) as [location |];
      [destruct (negb (String.eqb location (osds.ID o))) |]]; simpl;
      rewrite !marked_insert;
      destruct (String.eqb (osds.ID o) id), (marked present id), (marked updated id);
      split; reflexivity.
Qed.

(** The maps of the first loop hold the present set and the must-recreate
    set. *)
Lemma markStep_fold host id :
  forall desired marks,
    marked (fold_left (markStep host) desired marks).1 id
    = marked marks.1 id || isPresent host desired id /\
    marked (fold_left (markStep host) desired marks).2 id
    = marked marks.2 id || mustRecreate host desired id.
Proof.
  induction desired as [| e desired IH]; intros [present updated];
    unfold isPresent, mustRecreate in *; cbn [fold_left existsb fst snd].
  - by rewrite !orb_false_r.
  - destruct (IH (markStep host (present, updated) e)) as [-> ->].
    destruct (markStep_marks host id present updated e) as [-> ->].
    by rewrite !orb_assoc.
Qed.

Lemma staleMarks_stale host desired osd :
  negb (marked (staleMarks host desired).1 (osds.ID osd))
  || marked (staleMarks host desired).2 (osds.ID osd)
  = isStale host desired osd.
Proof.
  unfold staleMarks, isStale.
  destruct (markStep_fold host (osds.ID osd) desired (∅, ∅)) as [-> ->].
  reflexivity.
Qed.

Lemma staleStep_requests o instance present updated changes osd hist h :
  exists t,
    (runM o hist (staleStep instance present updated changes osd) h).2 = (hist ++ t)%list /\
    Forall (fun q => negb (marked present (osds.ID osd)) || marked updated (osds.ID osd) = true
                     /\ In q (osdDeletion instance osd)) t.
Proof.
  unfold staleStep.
  destruct (negb (marked present (osds.ID osd)) || marked updated (osds.ID osd)) eqn:Hst.
  - msimpl. destruct (o hist (OSDDelete (osds.ID osd))) as [[] | e]; msimpl.
    + exists (osdDeletion instance osd). rewrite <- app_assoc. split; [reflexivity |].
      repeat constructor; simpl; tauto.
    + exists [OSDDelete (osds.ID osd)]. split; [reflexivity |].
      repeat constructor; simpl; tauto.
  - msimpl. exists []. split; [by rewrite app_nil_r | constructor].
Qed.

Lemma staleLoop_accepted o instance present updated :
  acceptsChanges o ->
  forall l hist changes h,
    let stale := fun osd => negb (marked present (osds.ID osd)) || marked updated (osds.ID osd) in
    runM o hist (forRangeAcc l changes (staleStep instance present updated)) h
    = (Done (changes || existsb stale l), h,
       (hist ++ flat_map (osdDeletion instance) (List.filter stale l))%list).
Proof.
  intros Hok. induction l as [| osd l IH]; intros hist changes h stale.
  - simpl. by rewrite app_nil_r, orb_false_r.
  - rewrite forRangeAcc_cons. unfold staleStep at 1. cbn [existsb List.filter].
    subst stale. cbv beta in *.
    destruct (negb (marked present (osds.ID osd)) || marked updated (osds.ID osd)).
    + msimpl. destruct (Hok hist) as (_ & _ & _ & _ & Hdel & _). rewrite Hdel. msimpl.
      rewrite IH. cbn [flat_map]. unfold osdDeletion at 2.
      rewrite <- !app_assoc. simpl. by rewrite orb_true_r.
    + msimpl. rewrite IH. reflexivity.
Qed.

(** C5: with the OSD reconciler enabled and an OSD list given, a deletion is
    requested only for a record of the snapshot that is stale: absent from
    the present set, or flagged for recreation.  When the remote system
    accepts the deletions, every stale record is deleted and no other, and
    the OSD list of the snapshot is fetched again exactly when a record was
    deleted. *)
Theorem ReconcileStaleOSDs_deletes_stale :
  forall (r : HostReconciler) (instance : Host) (profile : HostProfileSpec)
         (storage : ProfileStorageInfo) (desired : list OSDInfo)
         (host : HostInfo) (o : Oracle),
    pStorage profile = Some storage ->
    sOSDs storage = Some desired ->
    IsReconcilerEnabled r OSD = true ->
    let res := exec o (ReconcileStaleOSDs r instance profile) host in
    let deletions := staleDeletions instance host desired in
    (forall id,
        In (OSDDelete id) res.2 ->
        exists osd, In osd (hOSDs host) /\ osds.ID osd = id
                    /\ isStale host desired osd = true) /\
    (acceptsChanges o ->
     if existsb (isStale host desired) (hOSDs host) then
       res.2 = (deletions ++ [ListOSDs (hID host)])%list /\
       match o deletions (ListOSDs (hID host)) with
       | Success refreshed => res.1 = (None, withOSDs host refreshed)
       | Failure e =>
         res.1 = (Some (Wrap (ClientFailure e) (text "failed to refresh OSD list for host")),
                  host)
       end
     else res = (None, host, [])).
Proof.
  intros r instance profile storage desired host o Hs Hd Hen res deletions.
  subst res deletions. rewrite exec_runM.
  unfold ReconcileStaleOSDs, storageOf. rewrite Hs. msimpl. rewrite Hd, Hen.
  simpl negb. cbv iota. msimpl.
  pose proof (staleMarks_stale host desired) as Hstale.
  destruct (staleMarks host desired) as [present updated]. simpl in Hstale.
  assert (Hfilter : forall l, List.filter
            (fun osd => negb (marked present (osds.ID osd)) || marked updated (osds.ID osd)) l
            = List.filter (isStale host desired) l).
  { intros l. apply filter_ext. exact Hstale. }
  assert (Hexists : forall l, existsb
            (fun osd => negb (marked present (osds.ID osd)) || marked updated (osds.ID osd)) l
            = existsb (isStale host desired) l).
  { induction l as [| x l IHl]; [reflexivity |]. simpl. by rewrite IHl, Hstale. }
  msimpl. split.
  - (* only stale records are deleted *)
    destruct (forRangeAcc_requests o (staleStep instance present updated)
                (fun osd q => negb (marked present (osds.ID osd))
                              || marked updated (osds.ID osd) = true
                              /\ In q (osdDeletion instance osd))
                (hOSDs host)
                (fun s x hist h _ => staleStep_requests o instance present updated s x hist h)
                [] false host) as (t & Ht & Hall).
    destruct (runM o [] (forRangeAcc (hOSDs host) false (staleStep instance present updated))
                host) as [[[changes | e] h'] t'].
    + simpl in Ht. subst t'.
      assert (Hdel : forall id, In (OSDDelete id) t ->
                 exists osd, In osd (hOSDs host) /\ osds.ID osd = id
                             /\ isStale host desired osd = true).
      { intros id Hin. rewrite List.Forall_forall in Hall.
        destruct (Hall _ Hin) as (osd & Hosd & Hst & Hq).
        exists osd. split; [done |]. rewrite <- Hstale. split; [| done].
        simpl in Hq. destruct Hq as [[= ->] | [[=] | []]]. reflexivity. }
      destruct changes; msimpl.
      * intros id Hin.
        destruct (o t (ListOSDs (hID host))) as [refreshed | e]; simpl in Hin;
          apply in_app_iff in Hin; destruct Hin as [Hin | [[=] | []]]; auto.
      * exact Hdel.
    + simpl in Ht. subst t'. simpl. intros id Hin.
      rewrite List.Forall_forall in Hall.
      destruct (Hall _ Hin) as (osd & Hosd & Hst & Hq).
      exists osd. split; [done |]. rewrite <- Hstale. split; [| done].
      simpl in Hq. destruct Hq as [[= ->] | [[=] | []]]. reflexivity.
  - (* with the deletions accepted *)
    intros Hok.
    rewrite (staleLoop_accepted o instance present updated Hok). cbv zeta.
    rewrite Hfilter, Hexists. simpl orb. simpl app.
    fold (staleDeletions instance host desired).
    destruct (existsb (isStale host desired) (hOSDs host)) eqn:Hany.
    + msimpl.
      destruct (o (staleDeletions instance host desired) (ListOSDs (hID host)))
        as [refreshed | e]; split; reflexivity.
    + msimpl. unfold staleDeletions.
      by rewrite (filter_existsb_false _ _ Hany).
Qed.

Lemma ReconcileStaleOSDs_deletes_stale_witness :
  let res := exec (inventory [] osdHost)
               (ReconcileStaleOSDs standardReconciler exampleInstance
                  (osdProfile (Some [exampleOSD]))) osdHost in
  res.2 = [ OSDDelete "osd-on-disk-c";
            NormalEvent exampleInstance ResourceDeleted
              (Sprintf "osd %q deleted" [ArgString "osd-on-disk-c"]);
            ListOSDs "host-1" ] /\
  res.1 = (None, withOSDs osdHost [osdB]).
Proof.
  pose proof (ReconcileStaleOSDs_deletes_stale standardReconciler exampleInstance
                (osdProfile (Some [exampleOSD])) _ [exampleOSD] osdHost
                (inventory [] osdHost) eq_refl eq_refl eq_refl) as [_ Haccepted].
  exact (Haccepted (inventory_acceptsChanges _ _)).
Defined.

Lemma exec_requests o (m : M unit) h : (exec o m h).2 = (runM o [] m h).2.
Proof. rewrite exec_runM. by destruct (runM o [] m h) as [[[] ?] ?]. Qed.

(** No OSD list, or an empty one: [ReconcileOSDs] requests nothing. *)
Lemma ReconcileOSDs_unconfigured r instance profile storage host o :
  pStorage profile = Some storage ->
  sOSDs storage = None \/ sOSDs storage = Some [] ->
  exec o (ReconcileOSDs r instance profile) host = (None, host, []).
Proof.
  intros Hs Hd. rewrite exec_runM. unfold ReconcileOSDs, storageOf. rewrite Hs. msimpl.
  destruct Hd as [-> | ->]; [reflexivity |].
  by destruct (IsReconcilerEnabled r OSD).
Qed.

(** No OSD list: [ReconcileStaleOSDs] requests nothing. *)
Lemma ReconcileStaleOSDs_unconfigured r instance profile storage host o :
  pStorage profile = Some storage ->
  sOSDs storage = None ->
  exec o (ReconcileStaleOSDs r instance profile) host = (None, host, []).
Proof.
  intros Hs Hd. rewrite exec_runM. unfold ReconcileStaleOSDs, storageOf. rewrite Hs. msimpl.
  by rewrite Hd.
Qed.

(** C4, what the code does: given an empty OSD list, with the OSD reconciler
    enabled, [ReconcileStaleOSDs] does not return as it does for a nil list:
    its first request deletes the first OSD record of the snapshot. *)
Theorem ReconcileStaleOSDs_empty_list_deletes :
  forall (r : HostReconciler) (instance : Host) (profile : HostProfileSpec)
         (storage : ProfileStorageInfo) (host : HostInfo) (o : Oracle)
         (osd : osds.OSD) (rest : list osds.OSD),
    pStorage profile = Some storage ->
    sOSDs storage = Some [] ->
    IsReconcilerEnabled r OSD = true ->
    hOSDs host = osd :: rest ->
    exists t, (exec o (ReconcileStaleOSDs r instance profile) host).2
              = OSDDelete (osds.ID osd) :: t.
Proof.
  intros r instance profile storage host o osd rest Hs Hd Hen Hosds.
  rewrite exec_requests. unfold ReconcileStaleOSDs, storageOf.
  rewrite Hs. msimpl. rewrite Hd, Hen. simpl negb. cbv iota. msimpl.
  unfold staleMarks. cbn [fold_left]. rewrite Hosds. cbn [forRangeAcc].
  unfold staleStep at 1. unfold marked at 1 2. rewrite lookup_empty. simpl.
  do 2 match goal with
       | |- context [runM o [] (bind ?m ?f) host] =>
         destruct (runM_bind_requests o [] m f host) as [? ->]
       end.
  msimpl.
  match goal with
  | |- context [(runM o ?hist ?m ?h).2] =>
    destruct (runM_extends o hist m h) as [? ->]
  end.
  simpl. eexists. reflexivity.
Qed.

Lemma ReconcileStaleOSDs_empty_list_deletes_witness :
  exists t, (exec (inventory [] osdHost)
               (ReconcileStaleOSDs standardReconciler exampleInstance (osdProfile (Some [])))
               osdHost).2
            = OSDDelete "osd-on-disk-b" :: t.
Proof.
  exact (ReconcileStaleOSDs_empty_list_deletes standardReconciler exampleInstance
           (osdProfile (Some [])) _ osdHost (inventory [] osdHost) osdB [osdC]
           eq_refl eq_refl eq_refl eq_refl).
Defined.

(** The same pass on the example host: both OSD records are deleted and the
    refreshed snapshot has none, where a nil list leaves them alone. *)
Example ReconcileStaleOSDs_empty_list_example :
  exec (inventory [] osdHost)
    (ReconcileStaleOSDs standardReconciler exampleInstance (osdProfile (Some []))) osdHost
  = (None, withOSDs osdHost [],
     [ OSDDelete "osd-on-disk-b";
       NormalEvent exampleInstance ResourceDeleted
         (Sprintf "osd %q deleted" [ArgString "osd-on-disk-b"]);
       OSDDelete "osd-on-disk-c";
       NormalEvent exampleInstance ResourceDeleted
         (Sprintf "osd %q deleted" [ArgString "osd-on-disk-c"]);
       ListOSDs "host-1" ]) /\
  exec (inventory [] osdHost)
    (ReconcileStaleOSDs standardReconciler exampleInstance (osdProfile None)) osdHost
  = (None, osdHost, []).
Proof. split; reflexivity. Qed.

(** ** Filesystem sizes *)

Lemma sizeScan_fold fsInfo :
  forall current found updates,
    fold_left (fun (acc : bool * list hostFilesystems.FileSystemOpts) fs =>
                 let '(found, updates) := acc in
                 if negb (String.eqb (hostFilesystems.Name fs) (fsName fsInfo)) then
                   (found, updates)
                 else if hostFilesystems.Size fs <? fsSize fsInfo then
                   (true, (updates ++ [{| hostFilesystems.oName := fsName fsInfo;
                                          hostFilesystems.oSize := fsSize fsInfo |}])%list)
                 else (true, updates))
              current (found, updates)
    = (found || onHost current fsInfo,
       (updates ++ growing current [fsInfo])%list).
Proof.
  unfold growing, onHost. simpl flat_map.
  induction current as [| fs current IH]; intros found updates; simpl.
  - by rewrite orb_false_r, app_nil_r.
  - unfold grows at 1.
    destruct (String.eqb (hostFilesystems.Name fs) (fsName fsInfo)); simpl.
    + destruct (hostFilesystems.Size fs <? fsSize fsInfo); rewrite IH; simpl;
        rewrite ?orb_true_r, <- ?app_assoc; reflexivity.
    + rewrite IH. reflexivity.
Qed.

Lemma sizeScan_spec current fsInfo updates :
  sizeScan current fsInfo updates
  = (onHost current fsInfo, (updates ++ growing current [fsInfo])%list).
Proof. unfold sizeScan. by rewrite sizeScan_fold. Qed.

Lemma growing_cons current fsInfo desired :
  growing current (fsInfo :: desired)
  = (growing current [fsInfo] ++ growing current desired)%list.
Proof. unfold growing. simpl. by rewrite app_nil_r. Qed.

(** The loop over the desired filesystems makes no request: it fails at the
    first entry that is not on the host and collects the growing entries
    otherwise. *)
Lemma sizeLoop_spec o host h :
  forall desired hist updates,
    runM o hist (forRangeAcc desired updates (sizeStep host)) h
    = match List.find (fun fsInfo => negb (onHost (hFileSystems host) fsInfo)) desired with
      | Some fsInfo =>
        (Raise (MissingSystemResource
                  (Sprintf "unknown host filesystem %q" [ArgString (fsName fsInfo)])),
         h, hist)
      | None => (Done (updates ++ growing (hFileSystems host) desired)%list, h, hist)
      end.
Proof.
  induction desired as [| fsInfo desired IH]; intros hist updates.
  - simpl. by rewrite app_nil_r.
  - rewrite forRangeAcc_cons. unfold sizeStep at 1. rewrite sizeScan_spec.
    cbn [List.find].
    destruct (onHost (hFileSystems host) fsInfo); simpl negb; cbv iota.
    + msimpl. rewrite IH.
      destruct (List.find _ desired); [reflexivity |].
      by rewrite (growing_cons _ fsInfo desired), app_assoc.
    + msimpl. reflexivity.
Qed.

(** Sizes are never shrunk: a growing entry is larger than the filesystem of
    the host it names. *)
Lemma growing_larger current desired u :
  In u (growing current desired) ->
  exists fs, In fs current /\ hostFilesystems.Name fs = hostFilesystems.oName u
             /\ hostFilesystems.Size fs < hostFilesystems.oSize u.
Proof.
  unfold growing. rewrite in_flat_map. intros (fsInfo & _ & Hu).
  rewrite in_map_iff in Hu. destruct Hu as (fs & <- & Hfs).
  apply filter_In in Hfs. destruct Hfs as [Hin Hg].
  unfold grows in Hg. apply andb_prop in Hg. destruct Hg as [Hn Hlt].
  exists fs. simpl. split; [done |]. split; [by apply String.eqb_eq | by apply Z.ltb_lt].
Qed.

(** C6: with the reconciler enabled and filesystems given, the pass first
    waits when the host is not unlocked and available.  Otherwise it fails
    with a missing resource at a desired filesystem that the host does not
    have, having requested nothing.  When the host has them all, the entries
    sent are those whose desired size is larger than the current size: none
    is sent when none grows, and one update request carries all of them
    otherwise. *)
Theorem ReconcileFileSystemSizes_grows_only :
  forall (r : HostReconciler) (instance : Host) (profile : HostProfileSpec)
         (storage : ProfileStorageInfo) (desired : list FileSystemInfo)
         (host : HostInfo) (o : Oracle),
    pStorage profile = Some storage ->
    sFileSystems storage = Some desired ->
    desired <> [] ->
    IsReconcilerEnabled r FileSystemSizes = true ->
    let res := exec o (ReconcileFileSystemSizes r instance profile) host in
    let updates := growing (hFileSystems host) desired in
    (IsUnlockedAvailable host = false ->
     res = (Some (WaitFor (UnlockedAvailableHostMonitor instance (hID host))
                    (text "waiting for host to reach available state")), host, [])) /\
    (IsUnlockedAvailable host = true ->
     forall fsInfo,
       List.find (fun fsInfo => negb (onHost (hFileSystems host) fsInfo)) desired
       = Some fsInfo ->
       res = (Some (MissingSystemResource
                      (Sprintf "unknown host filesystem %q" [ArgString (fsName fsInfo)])),
              host, [])) /\
    (IsUnlockedAvailable host = true ->
     forallb (onHost (hFileSystems host)) desired = true ->
     (updates = [] -> res = (None, host, [])) /\
     (updates <> [] ->
      res = match o [] (FileSystemUpdate (hID host) updates) with
            | Success _ =>
              (None, host,
               [ FileSystemUpdate (hID host) updates;
                 NormalEvent instance ResourceUpdated
                   (text "filesystem sizes have been updated") ])
            | Failure e =>
              (Some (Wrap (ClientFailure e) (text "failed to update filesystems sizes")),
               host, [ FileSystemUpdate (hID host) updates ])
            end)) /\
    (forall u, In u updates ->
       exists fs, In fs (hFileSystems host)
                  /\ hostFilesystems.Name fs = hostFilesystems.oName u
                  /\ hostFilesystems.Size fs < hostFilesystems.oSize u).
Proof.
  intros r instance profile storage desired host o Hs Hd Hne Hen res updates.
  subst res updates. rewrite exec_runM.
  unfold ReconcileFileSystemSizes, storageOf. rewrite Hs. msimpl. rewrite Hd, Hen.
  simpl negb. cbv iota.
  destruct desired as [| fsInfo0 desired0]; [done |].
  change (length (fsInfo0 :: desired0) =? 0)%nat with false. cbv iota. msimpl.
  remember (fsInfo0 :: desired0) as desired eqn:Hdesired. clear Hdesired.
  split; [| split; [| split]].
  - intros ->. reflexivity.
  - intros -> fsInfo Hfind. simpl negb. cbv iota. msimpl.
    rewrite sizeLoop_spec, Hfind. reflexivity.
  - intros -> Hall. simpl negb. cbv iota. msimpl. rewrite sizeLoop_spec.
    assert (Hnone : List.find (fun fsInfo => negb (onHost (hFileSystems host) fsInfo)) desired
                    = None).
    { destruct (List.find _ desired) as [fsInfo |] eqn:Hfind; [| reflexivity].
      apply find_some in Hfind. destruct Hfind as [Hin Hneg].
      rewrite forallb_forall in Hall. rewrite (Hall _ Hin) in Hneg. discriminate. }
    rewrite Hnone. simpl app. split.
    + intros Hup. rewrite Hup. reflexivity.
    + intros Hup. destruct (growing (hFileSystems host) desired) as [| u updates] eqn:Hg;
        [done |].
      change (0 <? length (u :: updates))%nat with true. cbv iota. msimpl.
      destruct (o [] (FileSystemUpdate (hID host) (u :: updates))) as [[] | e];
        msimpl; reflexivity.
  - intros u. apply growing_larger.
Qed.

Lemma ReconcileFileSystemSizes_grows_only_witness :
  exec (inventory [] fsHost)
    (ReconcileFileSystemSizes standardReconciler exampleInstance (fsProfile 8)) fsHost
  = (None, fsHost, []) /\
  exec (inventory [] fsHost)
    (ReconcileFileSystemSizes standardReconciler exampleInstance (fsProfile 20)) fsHost
  = (None, fsHost,
     [ FileSystemUpdate "host-1"
         [ {| hostFilesystems.oName := "backup"; hostFilesystems.oSize := 20 |} ];
       NormalEvent exampleInstance ResourceUpdated
         (text "filesystem sizes have been updated") ]).
Proof.
  split.
  - destruct (ReconcileFileSystemSizes_grows_only standardReconciler exampleInstance
                (fsProfile 8) _ [ {| fsName := "backup"; fsSize := 8 |} ] fsHost
                (inventory [] fsHost) eq_refl eq_refl ltac:(discriminate) eq_refl)
      as (_ & _ & Hall & _).
    exact (proj1 (Hall eq_refl eq_refl) eq_refl).
  - destruct (ReconcileFileSystemSizes_grows_only standardReconciler exampleInstance
                (fsProfile 20) _ [ {| fsName := "backup"; fsSize := 20 |} ] fsHost
                (inventory [] fsHost) eq_refl eq_refl ltac:(discriminate) eq_refl)
      as (_ & _ & Hall & _).
    exact (proj2 (Hall eq_refl eq_refl) ltac:(discriminate)).
Defined.

(** ** Partitions *)

Lemma forRangeAcc_app {A S : Type} o (body : S -> A -> M S) (l1 l2 : list A) :
  forall hist s h,
    runM o hist (forRangeAcc (l1 ++ l2) s body) h =
    match runM o hist (forRangeAcc l1 s body) h with
    | (Done s', h', t) => runM o t (forRangeAcc l2 s' body) h'
    | (Raise e, h', t) => (Raise e, h', t)
    end.
Proof.
  induction l1 as [| x l1 IH]; intros hist s h.
  - reflexivity.
  - rewrite <- app_comm_cons, !forRangeAcc_cons.
    destruct (runM o hist (body s x) h) as [[[s' | e] h'] t]; [apply IH | reflexivity].
Qed.

(** The check at the end: it waits exactly when a partition of the snapshot
    is in a transient status, and requests nothing. *)
Lemma partitionStatusCheck_spec o instance hist h :
  runM o hist (partitionStatusCheck instance) h =
  (if existsb isTransient (hPartitions h) then Raise (partitionWait instance h) else Done tt,
   h, hist).
Proof.
  unfold partitionStatusCheck. msimpl.
  induction (hPartitions h) as [| p l IH]; [reflexivity |].
  rewrite forRange_cons. cbn [existsb].
  destruct (isTransient p); msimpl; [reflexivity | exact IH].
Qed.

(** An entry that needs no partition is passed over. *)
Lemma partitionStep_skip o r instance group updated pv hist host :
  needsPartition host group pv = false ->
  runM o hist (partitionStep r instance group updated pv) host = (Done updated, host, hist).
Proof.
  unfold needsPartition, partitionStep. intros Hn.
  destruct (pvSize pv) as [size |]; [| reflexivity].
  destruct (String.eqb (pvType pv) PVTypePartition); [| reflexivity].
  simpl negb. cbv iota. msimpl.
  destruct (FindPartitionByPath host (pvPath pv) size (vgName group));
    [reflexivity | discriminate].
Qed.

Lemma partitionLoop_skip o r instance group host :
  forall l hist updated,
    forallb (fun pv => negb (needsPartition host group pv)) l = true ->
    runM o hist (forRangeAcc l updated (partitionStep r instance group)) host
    = (Done updated, host, hist).
Proof.
  induction l as [| pv l IH]; intros hist updated Hall; [reflexivity |].
  simpl in Hall. apply andb_prop in Hall. destruct Hall as [Hpv Hl].
  rewrite forRangeAcc_cons, partitionStep_skip; [by apply IH |].
  by destruct (needsPartition host group pv).
Qed.

(** An entry whose partition and disk are both missing fails the pass. *)
Lemma partitionStep_missing o r instance group updated pv size hist host :
  pvType pv = PVTypePartition ->
  pvSize pv = Some size ->
  FindPartitionByPath host (pvPath pv) size (vgName group) = None ->
  FindDiskByPath host (pvPath pv) = None ->
  runM o hist (partitionStep r instance group updated pv) host
  = (Raise (MissingSystemResource
              (Sprintf "failed to find disk for path %s" [ArgString (pvPath pv)])),
     host, hist).
Proof.
  intros Ht Hsz Hp Hd. unfold partitionStep. rewrite Hsz, Ht. simpl negb. cbv iota.
  msimpl. by rewrite Hp, Hd.
Qed.

(** The loop leaves the snapshot as it is, and never ends in a wait. *)
Lemma partitionStep_outcome o r instance group updated pv hist h :
  (runM o hist (partitionStep r instance group updated pv) h).1.2 = h /\
  forall e, (runM o hist (partitionStep r instance group updated pv) h).1.1 = Raise e ->
            isWait e = false.
Proof.
  unfold partitionStep.
  destruct (pvSize pv) as [size |]; [| split; [reflexivity | discriminate]].
  destruct (String.eqb (pvType pv) PVTypePartition); simpl negb; cbv iota;
    [| split; [reflexivity | discriminate]].
  msimpl.
  destruct (FindPartitionByPath h (pvPath pv) size (vgName group));
    [split; [reflexivity | discriminate] |].
  destruct (FindDiskByPath h (pvPath pv)) as [disk |].
  - msimpl. destruct (o hist (PartitionCreate _)) as [partition | e']; msimpl; simpl.
    + split; [reflexivity | discriminate].
    + split; [reflexivity |]. by intros e [= <-].
  - msimpl. simpl. split; [reflexivity |]. by intros e [= <-].
Qed.

Lemma partitionLoop_outcome o r instance group :
  forall l hist updated h,
    (runM o hist (forRangeAcc l updated (partitionStep r instance group)) h).1.2 = h /\
    forall e,
      (runM o hist (forRangeAcc l updated (partitionStep r instance group)) h).1.1 = Raise e ->
      isWait e = false.
Proof.
  induction l as [| pv l IH]; intros hist updated h.
  - split; [reflexivity | discriminate].
  - rewrite forRangeAcc_cons.
    destruct (partitionStep_outcome o r instance group updated pv hist h) as [Hh He].
    destruct (runM o hist (partitionStep r instance group updated pv) h)
      as [[[updated' | e'] h'] t]; simpl in Hh, He; subst h'.
    + apply IH.
    + split; [reflexivity | exact He].
Qed.



(** A physical volume that the snapshot has is passed over. *)
Lemma physicalVolumeLoop_present o instance group vg host :
  forall l hist updated,
    forallb (fun pv =>
               match FindPhysicalVolume host (vgName group) (pvType pv) (pvPath pv)
                       (match pvSize pv with Some s => s | None => 0 end) with
               | Some _ => true
               | None => false
               end) l = true ->
    runM o hist (forRangeAcc l updated (physicalVolumeStep instance group vg)) host
    = (Done updated, host, hist).
Proof.
  induction l as [| pv l IH]; intros hist updated Hall; [reflexivity |].
  simpl in Hall. apply andb_prop in Hall. destruct Hall as [Hpv Hl].
  rewrite forRangeAcc_cons. unfold physicalVolumeStep at 1. msimpl.
  destruct (FindPhysicalVolume host (vgName group) (pvType pv) (pvPath pv) _);
    [| discriminate].
  msimpl. by apply IH.
Qed.

(** C7: a desired physical volume of partition type, with a size, that has
    no matching partition in the snapshot and no disk at its path.  With the
    partition reconciler enabled the pass ends in an error that is not a
    wait: the missing resource of that entry, unless an earlier entry of the
    group failed first.  It leaves the snapshot as it is and requests nothing
    beyond what the earlier entries requested, so no partition is created for
    the entry.  The physical-volume reconciler returns the same error; with
    the partition reconciler disabled it fails with a missing resource when
    it looks for the device of the volume. *)
Theorem ReconcilePartitions_missing_disk :
  forall (r : HostReconciler) (instance : Host) (profile : HostProfileSpec)
         (group : VolumeGroupInfo) (host : HostInfo) (o : Oracle)
         (before after : list PhysicalVolumeInfo) (pv : PhysicalVolumeInfo) (size : Z),
    vgPhysicalVolumes group = (before ++ pv :: after)%list ->
    pvType pv = PVTypePartition ->
    pvSize pv = Some size ->
    FindPartitionByPath host (pvPath pv) size (vgName group) = None ->
    FindDiskByPath host (pvPath pv) = None ->
    let res := exec o (ReconcilePartitions r instance profile group) host in
    let earlier := runM o [] (forRangeAcc before false (partitionStep r instance group)) host in
    let missing := MissingSystemResource
                     (Sprintf "failed to find disk for path %s" [ArgString (pvPath pv)]) in
    (IsReconcilerEnabled r Partition = true ->
     (exists e, res.1.1 = Some e /\ isWait e = false) /\
     (forall updated, earlier.1.1 = Done updated -> res.1.1 = Some missing) /\
     res.1.2 = host /\
     res.2 = earlier.2 /\
     (forallb (fun pv' => negb (needsPartition host group pv')) before = true ->
      res = (Some missing, host, []))) /\
    (forall vg,
        IsReconcilerEnabled r PhysicalVolume = true ->
        FindVolumeGroup host (vgName group) = Some vg ->
        IsReconcilerEnabled r Partition = true ->
        exec o (ReconcilePhysicalVolumes r instance profile group) host = res) /\
    (forall vg,
        IsReconcilerEnabled r PhysicalVolume = true ->
        FindVolumeGroup host (vgName group) = Some vg ->
        IsReconcilerEnabled r Partition = false ->
        forallb (fun pv' =>
                   match FindPhysicalVolume host (vgName group) (pvType pv') (pvPath pv')
                           (match pvSize pv' with Some s => s | None => 0 end) with
                   | Some _ => true
                   | None => false
                   end) before = true ->
        FindPhysicalVolume host (vgName group) (pvType pv) (pvPath pv) size = None ->
        exec o (ReconcilePhysicalVolumes r instance profile group) host
        = (Some (MissingSystemResource
                   (Sprintf "failed to find physical volume device: %s(%s)"
                      [ArgString (pvPath pv); ArgString (pvType pv)])),
           host, [])).
Proof.
  intros r instance profile group host o before after pv size Hpvs Ht Hsz Hp Hd
    res earlier missing.
  assert (Hpart : IsReconcilerEnabled r Partition = true ->
            runM o [] (ReconcilePartitions r instance profile group) host
            = match earlier with
              | (Done _, _, t) => (Raise missing, host, t)
              | (Raise e, _, t) => (Raise e, host, t)
              end).
  { intros Hen. unfold ReconcilePartitions. rewrite Hen. simpl negb. cbv iota.
    rewrite runM_bind. unfold partitionCreation. rewrite runM_bind, Hpvs, forRangeAcc_app.
    subst earlier.
    destruct (partitionLoop_outcome o r instance group before [] false host) as [Hh _].
    destruct (runM o [] (forRangeAcc before false (partitionStep r instance group)) host)
      as [[[updated | e] h1] t1]; simpl in Hh; subst h1; [| reflexivity].
    rewrite forRangeAcc_cons, (partitionStep_missing _ _ _ _ _ _ size) by assumption.
    reflexivity. }
  split; [| split].
  - intros Hen. subst res. rewrite exec_runM, (Hpart Hen).
    destruct (partitionLoop_outcome o r instance group before [] false host) as [_ Hw].
    pose proof (partitionLoop_skip o r instance group host before [] false) as Hskip.
    fold earlier in Hw, Hskip.
    destruct earlier as [[[updated | e] h1] t1]; simpl in *.
    + split; [by exists missing |]. split; [done |]. split; [done |]. split; [done |].
      intros Hall. specialize (Hskip Hall). by injection Hskip as _ _ ->.
    + split; [exists e; split; [done | by apply Hw] |].
      split; [discriminate |]. split; [done |]. split; [done |].
      intros Hall. specialize (Hskip Hall). discriminate.
  - intros vg Hpv Hvg Hen. subst res. rewrite !exec_runM, (Hpart Hen).
    unfold ReconcilePhysicalVolumes. rewrite Hpv. simpl negb. cbv iota. msimpl.
    rewrite Hvg. rewrite runM_bind, (Hpart Hen).
    by destruct earlier as [[[updated | e] h1] t1].
  - intros vg Hpv Hvg Hdis Hbefore Hnew. rewrite exec_runM.
    unfold ReconcilePhysicalVolumes. rewrite Hpv. simpl negb. cbv iota. msimpl.
    rewrite Hvg. rewrite runM_bind. unfold ReconcilePartitions at 1. rewrite Hdis.
    simpl negb. cbv iota. msimpl.
    rewrite Hpvs, forRangeAcc_app, physicalVolumeLoop_present by exact Hbefore.
    rewrite forRangeAcc_cons. unfold physicalVolumeStep at 1. msimpl.
    rewrite Hsz, Hnew, Ht, Hp. simpl. msimpl. reflexivity.
Qed.

Lemma ReconcilePartitions_missing_disk_witness :
  exec (inventory [] exampleHost)
    (ReconcilePartitions standardReconciler exampleInstance (groupProfile missingDiskGroup)
       missingDiskGroup) exampleHost
  = (Some (MissingSystemResource
             (Sprintf "failed to find disk for path %s" [ArgString "/dev/sdz"])),
     exampleHost, []).
Proof.
  destruct (ReconcilePartitions_missing_disk standardReconciler exampleInstance
              (groupProfile missingDiskGroup) missingDiskGroup exampleHost
              (inventory [] exampleHost) [] []
              {| pvType := PVTypePartition; pvPath := "/dev/sdz"; pvSize := Some 10 |} 10
              eq_refl eq_refl eq_refl eq_refl eq_refl) as (Henabled & _ & _).
  destruct (Henabled eq_refl) as (_ & _ & _ & _ & Hfirst).
  exact (Hfirst eq_refl).
Defined.

(** ** Journal OSDs before data OSDs *)

(** An entry of another function is passed over. *)
Lemma osdStep_other o r instance function updated osdInfo hist h :
  String.eqb (osdFunction osdInfo) function = false ->
  runM o hist (osdStep r instance function updated osdInfo) h = (Done updated, h, hist).
Proof. intros Hf. unfold osdStep. by rewrite Hf. Qed.

(** An entry of the function of the pass, absent from the snapshot, whose
    parameters are built and whose creation is admitted: it is created. *)
Lemma osdStep_create o r instance function updated osdInfo opts hist h :
  String.eqb (osdFunction osdInfo) function = true ->
  FindOSDByPath h (osdPath osdInfo) = None ->
  buildOSDOpts h osdInfo = (opts, None) ->
  OSDProvisioningAllowed r instance osdInfo (osds.oTierUUID opts) h = None ->
  runM o hist (osdStep r instance function updated osdInfo) h
  = match o hist (OSDCreate opts) with
    | Success _ =>
      (Done true, h, (hist ++ [OSDCreate opts; osdCreated instance osdInfo])%list)
    | Failure e =>
      (Raise (Wrap (ClientFailure e) (text "failed to create OSD")), h,
       (hist ++ [OSDCreate opts])%list)
    end.
Proof.
  intros Hf Hfind Hbuild Hgate. unfold osdStep. rewrite Hf. simpl negb. cbv iota.
  msimpl. rewrite Hfind, Hbuild. cbn [returnErr]. msimpl. rewrite Hgate.
  cbn [returnErr]. msimpl.
  destruct (o hist (OSDCreate opts)) as [[] | e]; msimpl; [| reflexivity].
  by rewrite <- app_assoc.
Qed.

(** C9: a desired configuration of one journal OSD and one data OSD that
    keeps its journal on it, in either order, on a host that has the two
    disks and neither OSD, with both creations admitted.  The journal OSD is
    created first.  When that creation succeeds and the refreshed snapshot
    holds the journal OSD at its path, the data OSD is created next, and its
    parameters carry the identifier that the refreshed snapshot gives for the
    journal OSD. *)
Theorem ReconcileOSDs_journal_first :
  forall (r : HostReconciler) (instance : Host) (profile : HostProfileSpec)
         (storage : ProfileStorageInfo) (host : HostInfo) (o : Oracle)
         (j d : OSDInfo) (size : Z) (diskJ diskD : disks.Disk)
         (refreshed : list osds.OSD) (journal : osds.OSD),
    pStorage profile = Some storage ->
    sOSDs storage = Some [j; d] \/ sOSDs storage = Some [d; j] ->
    IsReconcilerEnabled r OSD = true ->
    osdFunction j = FunctionJournal ->
    osdJournal j = None ->
    osdFunction d = FunctionOSD ->
    osdJournal d = Some {| jLocation := osdPath j; jSize := size |} ->
    FindDiskByPath host (osdPath j) = Some diskJ ->
    FindDiskByPath host (osdPath d) = Some diskD ->
    FindOSDByPath host (osdPath j) = None ->
    FindOSDByPath host (osdPath d) = None ->
    OSDProvisioningAllowed r instance j (tierOf host j) host = None ->
    OSDProvisioningAllowed r instance d (tierOf host d) host = None ->
    let createJournal :=
      OSDCreate {| osds.oHostID := Some (hID host);
                   osds.oDiskID := Some (disks.ID diskJ);
                   osds.oFunction := Some FunctionJournal;
                   osds.oJournalLocation := None;
                   osds.oJournalSize := None;
                   osds.oTierUUID := tierOf host j |} in
    let createData :=
      OSDCreate {| osds.oHostID := Some (hID host);
                   osds.oDiskID := Some (disks.ID diskD);
                   osds.oFunction := Some FunctionOSD;
                   osds.oJournalLocation := Some (osds.ID journal);
                   osds.oJournalSize := Some size;
                   osds.oTierUUID := tierOf host d |} in
    o [] createJournal = Success tt ->
    o [createJournal; osdCreated instance j] (ListOSDs (hID host)) = Success refreshed ->
    FindOSDByPath (withOSDs host refreshed) (osdPath j) = Some journal ->
    osds.Function journal = FunctionJournal ->
    FindOSDByPath (withOSDs host refreshed) (osdPath d) = None ->
    exists rest,
      (exec o (ReconcileOSDs r instance profile) host).2
      = ([ createJournal; osdCreated instance j; ListOSDs (hID host); createData ] ++ rest)%list.
Proof.
  intros r instance profile storage host o j d size diskJ diskD refreshed journal
    Hs Hd Hen Hfj Hjj Hfd Hjd HdiskJ HdiskD HosdJ HosdD HgateJ HgateD
    createJournal createData HcreateJ Hlist HfindJ HfunJ HfindD.
  assert (Hjj' : String.eqb (osdFunction j) FunctionJournal = true) by by rewrite Hfj.
  assert (Hjo : String.eqb (osdFunction j) FunctionOSD = false) by by rewrite Hfj.
  assert (Hdj : String.eqb (osdFunction d) FunctionJournal = false) by by rewrite Hfd.
  assert (Hdo : String.eqb (osdFunction d) FunctionOSD = true) by by rewrite Hfd.
  assert (HbuildJ : buildOSDOpts host j
                    = ({| osds.oHostID := Some (hID host);
                          osds.oDiskID := Some (disks.ID diskJ);
                          osds.oFunction := Some FunctionJournal;
                          osds.oJournalLocation := None;
                          osds.oJournalSize := None;
                          osds.oTierUUID := tierOf host j |}, None)).
  { unfold buildOSDOpts. by rewrite HdiskJ, Hjj, Hfj. }
  assert (HbuildD : buildOSDOpts (withOSDs host refreshed) d
                    = ({| osds.oHostID := Some (hID host);
                          osds.oDiskID := Some (disks.ID diskD);
                          osds.oFunction := Some FunctionOSD;
                          osds.oJournalLocation := Some (osds.ID journal);
                          osds.oJournalSize := Some size;
                          osds.oTierUUID := tierOf host d |}, None)).
  { unfold buildOSDOpts.
    change (FindDiskByPath (withOSDs host refreshed) (osdPath d))
      with (FindDiskByPath host (osdPath d)).
    rewrite HdiskD, Hjd. cbn [jLocation jSize]. rewrite HfindJ, HfunJ, Hfd. reflexivity. }
  (* the journal pass *)
  assert (Hpass1 : forall desired,
             desired = [j; d] \/ desired = [d; j] ->
             runM o [] (forRangeAcc desired false (osdStep r instance FunctionJournal)) host
             = (Done true, host, [createJournal; osdCreated instance j])).
  { intros desired [-> | ->].
    - rewrite forRangeAcc_cons, (osdStep_create _ _ _ _ _ _ _ _ _ Hjj' HosdJ HbuildJ HgateJ).
      fold createJournal. rewrite HcreateJ. simpl app.
      rewrite forRangeAcc_cons, (osdStep_other _ _ _ _ _ _ _ _ Hdj). reflexivity.
    - rewrite forRangeAcc_cons, (osdStep_other _ _ _ _ _ _ _ _ Hdj).
      rewrite forRangeAcc_cons, (osdStep_create _ _ _ _ _ _ _ _ _ Hjj' HosdJ HbuildJ HgateJ).
      fold createJournal. rewrite HcreateJ. reflexivity. }
  (* the data pass, up to the creation *)
  assert (Hpass2 : forall desired,
             desired = [j; d] \/ desired = [d; j] ->
             exists rest,
               (runM o [createJournal; osdCreated instance j; ListOSDs (hID host)]
                  (forRangeAcc desired false (osdStep r instance FunctionOSD))
                  (withOSDs host refreshed)).2
               = ([createJournal; osdCreated instance j; ListOSDs (hID host); createData]
                    ++ rest)%list).
  { intros desired [-> | ->].
    - rewrite forRangeAcc_cons, (osdStep_other _ _ _ _ _ _ _ _ Hjo).
      rewrite forRangeAcc_cons, (osdStep_create _ _ _ _ _ _ _ _ _ Hdo HfindD HbuildD HgateD).
      fold createData. destruct (o _ createData) as [[] | e].
      + match goal with
        | |- context [(runM o ?hist ?m ?h).2] =>
          destruct (runM_extends o hist m h) as [s ->]
        end.
        exists (osdCreated instance d :: s). by rewrite <- app_assoc.
      + exists []. reflexivity.
    - rewrite forRangeAcc_cons, (osdStep_create _ _ _ _ _ _ _ _ _ Hdo HfindD HbuildD HgateD).
      fold createData. destruct (o _ createData) as [[] | e].
      + match goal with
        | |- context [(runM o ?hist ?m ?h).2] =>
          destruct (runM_extends o hist m h) as [s ->]
        end.
        exists (osdCreated instance d :: s). by rewrite <- app_assoc.
      + exists []. reflexivity. }
  rewrite exec_requests. unfold ReconcileOSDs, storageOf. rewrite Hs. msimpl.
  assert (Hbody : forall desired,
             desired = [j; d] \/ desired = [d; j] ->
             sOSDs storage = Some desired ->
             exists rest,
               (runM o [] (forRange [FunctionJournal; FunctionOSD]
                             (fun f => ReconcileOSDsByType r instance profile f)) host).2
               = ([createJournal; osdCreated instance j; ListOSDs (hID host); createData]
                    ++ rest)%list).
  { intros desired Hdes Hsd.
    rewrite forRange_cons. unfold ReconcileOSDsByType at 1, storageOf. rewrite Hs. msimpl.
    rewrite Hsd. msimpl. rewrite (Hpass1 desired Hdes). msimpl. simpl app.
    rewrite Hlist. cbn [runM setOSDs run].
    rewrite forRange_cons. unfold ReconcileOSDsByType at 1, storageOf. rewrite Hs. msimpl.
    rewrite Hsd. rewrite runM_bind.
    destruct (Hpass2 desired Hdes) as [rest Hrest].
    destruct (runM o _ (forRangeAcc desired false (osdStep r instance FunctionOSD))
                (withOSDs host refreshed)) as [[[updated | e] h2] t2];
      simpl in Hrest; subst t2.
    - match goal with
      | |- context [(match runM o ?hist ?m ?h with _ => _ end).2] =>
        destruct (runM_extends o hist m h) as [s Hs2];
        destruct (runM o hist m h) as [[[[] | e] h3] t3]; simpl in Hs2; subst t3
      end.
      + match goal with
        | |- context [(runM o ?hist ?m ?h).2] =>
          destruct (runM_extends o hist m h) as [s' ->]
        end.
        simpl. eexists. reflexivity.
      + simpl. eexists. reflexivity.
    - exists rest. reflexivity. }
  destruct Hd as [Hd | Hd]; rewrite Hd, Hen; simpl negb; cbv iota;
    simpl Nat.eqb; cbv iota; (eapply Hbody; [| exact Hd]); auto.
Qed.

Lemma ReconcileOSDs_journal_first_witness :
  exists rest,
    (exec (inventory [] exampleHost)
       (ReconcileOSDs standardReconciler exampleInstance
          (osdProfile (Some [dataOSD; journalOSD]))) exampleHost).2
    = ([ OSDCreate {| osds.oHostID := Some "host-1";
                      osds.oDiskID := Some "disk-c";
                      osds.oFunction := Some FunctionJournal;
                      osds.oJournalLocation := None;
                      osds.oJournalSize := None;
                      osds.oTierUUID := Some "tier-1" |};
         osdCreated exampleInstance journalOSD;
         ListOSDs "host-1";
         OSDCreate {| osds.oHostID := Some "host-1";
                      osds.oDiskID := Some "disk-b";
                      osds.oFunction := Some FunctionOSD;
                      osds.oJournalLocation := Some "osd-on-disk-c";
                      osds.oJournalSize := Some 1;
                      osds.oTierUUID := Some "tier-1" |} ] ++ rest)%list.
Proof.
  exact (ReconcileOSDs_journal_first standardReconciler exampleInstance
           (osdProfile (Some [dataOSD; journalOSD])) _ exampleHost
           (inventory [] exampleHost) journalOSD dataOSD 1
           {| disks.ID := "disk-c"; disks.DevicePath := "/dev/sdc" |}
           {| disks.ID := "disk-b"; disks.DevicePath := "/dev/sdb" |}
           [journalRecord] journalRecord
           eq_refl (or_intror eq_refl) eq_refl eq_refl eq_refl eq_refl eq_refl
           eq_refl eq_refl eq_refl eq_refl eq_refl eq_refl
           eq_refl eq_refl eq_refl eq_refl eq_refl).
Defined.

(** The whole pass on the example host. *)
Example ReconcileOSDs_journal_first_example :
  exec (inventory [] exampleHost)
    (ReconcileOSDs standardReconciler exampleInstance
       (osdProfile (Some [dataOSD; journalOSD]))) exampleHost
  = (None,
     withOSDs exampleHost
       [ journalRecord;
         {| osds.ID := "osd-on-disk-b"; osds.Function := FunctionOSD;
            osds.DiskID := "disk-b";
            osds.Journal := {| osds.Location := Some "osd-on-disk-c";
                               osds.Gibibytes := 1 |} |} ],
     [ OSDCreate {| osds.oHostID := Some "host-1";
                    osds.oDiskID := Some "disk-c";
                    osds.oFunction := Some FunctionJournal;
                    osds.oJournalLocation := None;
                    osds.oJournalSize := None;
                    osds.oTierUUID := Some "tier-1" |};
       osdCreated exampleInstance journalOSD;
       ListOSDs "host-1";
       OSDCreate {| osds.oHostID := Some "host-1";
                    osds.oDiskID := Some "disk-b";
                    osds.oFunction := Some FunctionOSD;
                    osds.oJournalLocation := Some "osd-on-disk-c";
                    osds.oJournalSize := Some 1;
                    osds.oTierUUID := Some "tier-1" |};
       osdCreated exampleInstance dataOSD;
       ListOSDs "host-1" ]).
Proof. vm_compute. reflexivity. Qed.

(** ** The order of the pass *)


(** A volume group that the snapshot has is not created. *)
Lemma volumeGroupLoop_present o instance host :
  forall groups hist updated,
    forallb (fun g => match FindVolumeGroup host (vgName g) with
                      | Some _ => true
                      | None => false
                      end) groups = true ->
    runM o hist (forRangeAcc groups updated (volumeGroupStep instance)) host
    = (Done updated, host, hist).
Proof.
  induction groups as [| g groups IH]; intros hist updated Hall; [reflexivity |].
  simpl in Hall. apply andb_prop in Hall. destruct Hall as [Hg Hl].
  rewrite forRangeAcc_cons. unfold volumeGroupStep at 1. msimpl.
  destruct (FindVolumeGroup host (vgName g)); [| discriminate].
  msimpl. by apply IH.
Qed.



(** * Further properties of the reconcilers *)

(** ** Kinds of requests and of errors, by composition *)

Lemma behaves_ret {A : Type} K E (a : A) : behaves K E (ret a).
Proof.
  intros o hist h. exists []. simpl. rewrite app_nil_r.
  split; [reflexivity |]. split; [constructor | discriminate].
Qed.

Lemma behaves_raise {A : Type} (K : Request -> Prop) (E : error -> Prop) (e : error) :
  E e -> behaves K E (@raise A e).
Proof.
  intros He o hist h. exists []. simpl. rewrite app_nil_r.
  split; [reflexivity |]. split; [constructor |]. by intros e' [= <-].
Qed.

Lemma behaves_call (K : Request -> Prop) E (q : Request) : K q -> behaves K E (call q).
Proof.
  intros Hq o hist h. exists [q]. simpl.
  split; [reflexivity |]. split; [by repeat constructor | discriminate].
Qed.

(** A step that only reads or assigns the snapshot. *)
Lemma behaves_local {A : Type} K E (m : M A) :
  (forall h, exists a h', m h = Ret (Done a, h')) -> behaves K E m.
Proof.
  intros Hm o hist h. destruct (Hm h) as (a & h' & Hmh).
  exists []. unfold runM. rewrite Hmh. simpl. rewrite app_nil_r.
  split; [reflexivity |]. split; [constructor | discriminate].
Qed.

Lemma behaves_bind {A B : Type} K E (m : M A) (f : A -> M B) :
  behaves K E m -> (forall a, behaves K E (f a)) -> behaves K E (bind m f).
Proof.
  intros Hm Hf o hist h. rewrite runM_bind.
  destruct (Hm o hist h) as (t1 & Ht1 & HK1 & HE1).
  destruct (runM o hist m h) as [[[a | e] h'] t]; simpl in Ht1, HE1; subst t.
  - destruct (Hf a o (hist ++ t1)%list h') as (t2 & Ht2 & HK2 & HE2).
    exists (t1 ++ t2)%list. rewrite Ht2, app_assoc.
    split; [reflexivity |]. split; [by apply Forall_app_2 | exact HE2].
  - exists t1. split; [reflexivity |]. split; [exact HK1 |].
    intros e0 [= <-]. by apply HE1.
Qed.

Lemma behaves_forRangeAcc {A S : Type} K E (l : list A) (body : S -> A -> M S) :
  (forall s x, In x l -> behaves K E (body s x)) ->
  forall s, behaves K E (forRangeAcc l s body).
Proof.
  induction l as [| x l IH]; intros Hbody s.
  - apply behaves_ret.
  - simpl. apply behaves_bind.
    + apply Hbody. by left.
    + intros s'. apply IH. intros s0 x0 Hin. apply Hbody. by right.
Qed.

Lemma behaves_forRange {A : Type} K E (l : list A) (body : A -> M unit) :
  (forall x, In x l -> behaves K E (body x)) ->
  behaves K E (forRange l body).
Proof.
  induction l as [| x l IH]; intros Hbody.
  - apply behaves_ret.
  - simpl. apply behaves_bind.
    + apply Hbody. by left.
    + intros _. apply IH. intros x0 Hin. apply Hbody. by right.
Qed.

Lemma behaves_weaken {A : Type} (K K' : Request -> Prop) (E E' : error -> Prop) (m : M A) :
  (forall q, K q -> K' q) -> (forall e, E e -> E' e) ->
  behaves K E m -> behaves K' E' m.
Proof.
  intros HK HE Hm o hist h. destruct (Hm o hist h) as (t & Ht & HKt & HEt).
  exists t. split; [exact Ht |]. split.
  - eapply Forall_impl; [exact HKt | exact HK].
  - intros e He. apply HE, HEt, He.
Qed.

(** What [behaves] says of a whole pass. *)
Lemma behaves_exec K E (m : M unit) o h :
  behaves K E m ->
  Forall K (exec o m h).2 /\ forall e, (exec o m h).1.1 = Some e -> E e.
Proof.
  intros Hm. destruct (Hm o [] h) as (t & Ht & HK & HE).
  rewrite exec_runM. destruct (runM o [] m h) as [[[[] | e] h'] t']; simpl in *; subst t'.
  - split; [exact HK | discriminate].
  - split; [exact HK |]. intros e' [= <-]. by apply HE.
Qed.

(** The steps of a reconciler, taken apart one at a time. *)
Ltac behave_step :=
  lazymatch goal with
  | |- behaves _ _ (bind _ _) => apply behaves_bind; [| intros ?]
  | |- behaves _ _ (ret _) => apply behaves_ret
  | |- behaves _ _ (call _) => apply behaves_call; exact I
  | |- behaves _ _ getHost => apply behaves_local; intros ?; eexists _, _; reflexivity
  | |- behaves _ _ (setPartitions _) => apply behaves_local; intros ?; eexists _, _; reflexivity
  | |- behaves _ _ (setPhysicalVolumes _) =>
    apply behaves_local; intros ?; eexists _, _; reflexivity
  | |- behaves _ _ (setVolumeGroups _) => apply behaves_local; intros ?; eexists _, _; reflexivity
  | |- behaves _ _ (setOSDs _) => apply behaves_local; intros ?; eexists _, _; reflexivity
  | |- behaves _ _ (setFileSystems _) => apply behaves_local; intros ?; eexists _, _; reflexivity
  | |- behaves _ _ (raise _) =>
    apply behaves_raise; solve [exact I | simpl; tauto | simpl; eauto 6]
  | |- behaves _ _ (forRangeAcc _ _ _) => apply behaves_forRangeAcc; intros ? ? ?
  | |- behaves _ _ (forRange _ _) => apply behaves_forRange; intros ? ?
  | |- behaves _ _ (if ?b then _ else _) => destruct b eqn:?
  | |- behaves _ _ (match ?x with _ => _ end) => destruct x eqn:?
  end.

Ltac behave := repeat behave_step.

(** The panic of a nil [profile.Storage], the only one these reconcilers can
    raise when they are called on their own. *)
Lemma storageOf_behaves K (E : error -> Prop) profile :
  (pStorage profile = None -> E NilPointerPanic) ->
  behaves K E (storageOf profile).
Proof.
  intros Hnil. unfold storageOf. destruct (pStorage profile).
  - apply behaves_ret.
  - apply behaves_raise. by apply Hnil.
Qed.

Lemma ReconcileMonitor_behaves r instance profile :
  behaves (fun q => monitorRequest q = true)
          (fun e => isTransport e \/ (pStorage profile = None /\ e = NilPointerPanic))
          (ReconcileMonitor r instance profile).
Proof.
  unfold ReconcileMonitor.
  destruct (negb (IsReconcilerEnabled r StorageMonitor)); [apply behaves_ret |].
  destruct (match pPersonality profile with
            | Some p => negb (String.eqb p PersonalityWorker)
            | None => true
            end); [apply behaves_ret |].
  apply behaves_bind; [by apply behaves_call |]. intros [monitors | e].
  2:{ apply behaves_raise. by left. }
  apply behaves_bind; [apply storageOf_behaves; auto |]. intros storage.
  apply behaves_bind; [behave |]. intros host.
  destruct (sMonitor storage) as [monitorInfo |].
  - apply behaves_bind.
    + apply behaves_forRangeAcc. intros found monitor _. unfold monitorStep.
      destruct (String.eqb _ _); [| apply behaves_ret].
      destruct (mSize monitorInfo) as [size |]; [| apply behaves_ret].
      destruct (negb _); [| apply behaves_ret].
      apply behaves_bind; [by apply behaves_call |]. intros [[] | e].
      * apply behaves_bind; [by apply behaves_call | intros; apply behaves_ret].
      * apply behaves_raise. by left.
    + intros found. destruct (negb found); [| apply behaves_ret].
      apply behaves_bind; [by apply behaves_call |]. intros [[] | e].
      * apply behaves_bind; [by apply behaves_call | intros; apply behaves_ret].
      * apply behaves_raise. by left.
  - apply behaves_forRange. intros; apply behaves_ret.
Qed.

Lemma ReconcileStaleOSDs_behaves r instance profile :
  behaves staleOSDRequest
          (fun e => isTransport e \/ (pStorage profile = None /\ e = NilPointerPanic))
          (ReconcileStaleOSDs r instance profile).
Proof.
  unfold ReconcileStaleOSDs.
  apply behaves_bind; [apply storageOf_behaves; auto |]. intros storage.
  destruct (sOSDs storage) as [desired |]; [| apply behaves_ret].
  destruct (negb (IsReconcilerEnabled r OSD)); [apply behaves_ret |].
  apply behaves_bind; [behave |]. intros host.
  destruct (staleMarks host desired) as [present updated].
  apply behaves_bind.
  - apply behaves_forRangeAcc. intros changes osd _. unfold staleStep.
    destruct (negb _ || _); [| apply behaves_ret].
    apply behaves_bind; [by apply behaves_call |]. intros [[] | e].
    + apply behaves_bind; [by apply behaves_call | intros; apply behaves_ret].
    + apply behaves_raise. by left.
  - intros changes. destruct changes; [| apply behaves_ret].
    apply behaves_bind; [by apply behaves_call |]. intros [result | e].
    + behave.
    + apply behaves_raise. by left.
Qed.

(** ** Building the parameters of an OSD *)



(** A wait of the gate is one of its four waits. *)
Lemma OSDProvisioningAllowed_waits r instance osdInfo tierUUID host e :
  OSDProvisioningAllowed r instance osdInfo tierUUID host = Some e -> isGateWait e.
Proof.
  unfold OSDProvisioningAllowed.
  destruct (FindClusterByName host (GetClusterName osdInfo)) as [cluster |];
    [| by intros [= <-]].
  destruct (String.eqb (clusters.DeploymentModel cluster) DeploymentModelUndefined);
    [by intros [= <-] |].
  destruct (_ && _ && _); [by intros [= <-] |].
  destruct tierUUID; [discriminate | by intros [= <-]].
Qed.

(** ** Loops that leave the snapshot as it is *)

(** A loop whose turns leave the snapshot alone, make requests that their
    element allows, and set the flag exactly when they request something:
    the loop does the same. *)
Lemma forRangeAcc_fixed {A : Type} (o : Oracle) (body : bool -> A -> M bool)
    (h : HostInfo) (P : A -> Request -> Prop) (l : list A) :
  (forall s x hist, In x l ->
      exists res t,
        runM o hist (body s x) h = (res, h, (hist ++ t)%list) /\
        Forall (P x) t /\
        forall s', res = Done s' -> s' = s || requested t) ->
  forall hist s,
  exists res t,
    runM o hist (forRangeAcc l s body) h = (res, h, (hist ++ t)%list) /\
    Forall (fun q => exists x, In x l /\ P x q) t /\
    forall s', res = Done s' -> s' = s || requested t.
Proof.
  induction l as [| x l IH]; intros Hbody hist s.
  - exists (Done s), []. simpl. rewrite app_nil_r, orb_false_r.
    split; [reflexivity |]. split; [constructor | congruence].
  - rewrite forRangeAcc_cons.
    destruct (Hbody s x hist (or_introl eq_refl)) as (res1 & t1 & Hrun1 & HP1 & Hs1).
    rewrite Hrun1.
    assert (HP1' : Forall (fun q => exists x0, In x0 (x :: l) /\ P x0 q) t1).
    { eapply Forall_impl; [exact HP1 |]. intros q Hq. exists x. split; [by left | done]. }
    destruct res1 as [s1 | e].
    + destruct (IH (fun s x hist Hin => Hbody s x hist (or_intror Hin))
                  (hist ++ t1)%list s1) as (res2 & t2 & Hrun2 & HP2 & Hs2).
      exists res2, (t1 ++ t2)%list. rewrite Hrun2, app_assoc.
      split; [reflexivity |]. split.
      * apply Forall_app_2; [done |]. eapply Forall_impl; [exact HP2 |].
        intros q (x0 & Hin & Hq). exists x0. split; [by right | done].
      * intros s' Hres. rewrite (Hs2 s' Hres), (Hs1 s1 eq_refl).
        destruct s, t1, t2; reflexivity.
    + exists (Raise e), t1. split; [reflexivity |]. split; [done | discriminate].
Qed.

(** ** Creating and updating OSDs *)

Lemma osdStep_fixed o r instance function host updated osdInfo hist :
  exists res t,
    runM o hist (osdStep r instance function updated osdInfo) host
    = (res, host, (hist ++ t)%list) /\
    Forall (osdRequestFor r instance function host osdInfo) t /\
    forall s', res = Done s' -> s' = updated || requested t.
Proof.
  unfold osdStep.
  destruct (String.eqb (osdFunction osdInfo) function) eqn:Hf; simpl negb; cbv iota.
  2:{ exists (Done updated), []. msimpl. rewrite app_nil_r, orb_false_r.
      split; [reflexivity |]. split; [constructor | congruence]. }
  apply String.eqb_eq in Hf. msimpl.
  destruct (FindOSDByPath host (osdPath osdInfo)) as [osd |] eqn:Hfind.
  - destruct (osdUpdateRequired osdInfo osd) as [opts required] eqn:Hreq.
    destruct required.
    + msimpl. destruct (o hist (OSDUpdate (osds.ID osd) opts)) as [[] | e]; msimpl.
      * eexists _, [_; _]. rewrite <- app_assoc. split; [reflexivity |]. split.
        -- constructor; [| by repeat constructor].
           split; [done |]. exists osd. by rewrite Hfind.
        -- intros s' [= <-]. by rewrite orb_true_r.
      * eexists _, [_]. split; [reflexivity |]. split; [| discriminate].
        constructor; [| constructor]. split; [done |]. exists osd. by rewrite Hfind.
    + msimpl. exists (Done updated), []. rewrite app_nil_r, orb_false_r.
      split; [reflexivity |]. split; [constructor | congruence].
  - destruct (buildOSDOpts host osdInfo) as [opts err] eqn:Hbuild.
    destruct err as [e |]; cbn [returnErr]; msimpl.
    { eexists _, []. rewrite app_nil_r. split; [reflexivity |].
      split; [constructor | discriminate]. }
    destruct (OSDProvisioningAllowed r instance osdInfo (osds.oTierUUID opts) host)
      as [e |] eqn:Hgate; cbn [returnErr]; msimpl.
    { eexists _, []. rewrite app_nil_r. split; [reflexivity |].
      split; [constructor | discriminate]. }
    destruct (o hist (OSDCreate opts)) as [[] | e]; msimpl.
    + eexists _, [_; _]. rewrite <- app_assoc. split; [reflexivity |]. split.
      * constructor; [| by repeat constructor]. split; [done |]. by rewrite Hfind.
      * intros s' [= <-]. by rewrite orb_true_r.
    + eexists _, [_]. split; [reflexivity |]. split; [| discriminate].
      constructor; [| constructor]. split; [done |]. by rewrite Hfind.
Qed.

(** The pass for one function: its loop, then the refresh when the loop
    changed something. *)
Lemma ReconcileOSDsByType_run o r instance profile storage desired function host hist :
  pStorage profile = Some storage ->
  sOSDs storage = Some desired ->
  exists res t,
    Forall (fun q => exists e, In e desired /\ osdRequestFor r instance function host e q) t /\
    (forall s', res = Done s' -> s' = requested t) /\
    runM o hist (ReconcileOSDsByType r instance profile function) host
    = match res with
      | Done true =>
        match o (hist ++ t)%list (ListOSDs (hID host)) with
        | Success refreshed =>
          (Done tt, withOSDs host refreshed, ((hist ++ t) ++ [ListOSDs (hID host)])%list)
        | Failure e =>
          (Raise (Wrap (ClientFailure e) (text "failed to refresh OSD list for host")),
           host, ((hist ++ t) ++ [ListOSDs (hID host)])%list)
        end
      | Done false => (Done tt, host, (hist ++ t)%list)
      | Raise e => (Raise e, host, (hist ++ t)%list)
      end.
Proof.
  intros Hs Hd.
  destruct (forRangeAcc_fixed o (osdStep r instance function) host
              (osdRequestFor r instance function host) desired
              (fun s x hist _ => osdStep_fixed o r instance function host s x hist)
              hist false) as (res & t & Hrun & HP & Hflag).
  exists res, t. split; [exact HP |]. split; [exact Hflag |].
  unfold ReconcileOSDsByType, storageOf. rewrite Hs. msimpl. rewrite Hd. msimpl.
  rewrite Hrun. destruct res as [[] | e]; msimpl; [| reflexivity | reflexivity].
  by destruct (o (hist ++ t)%list (ListOSDs (hID host))).
Qed.

(** X3: every OSD that the pass for one function creates is for a desired entry
    of that function that the snapshot does not have, with the parameters
    built for it, and was admitted by the gate; every update is for an entry
    that the snapshot has, with the parameters of the update it requires.
    Apart from these and their events, the pass only lists the OSDs. *)
Theorem ReconcileOSDsByType_admitted :
  forall (r : HostReconciler) (instance : Host) (profile : HostProfileSpec)
         (storage : ProfileStorageInfo) (desired : list OSDInfo) (function : string)
         (host : HostInfo) (o : Oracle),
    pStorage profile = Some storage ->
    sOSDs storage = Some desired ->
    forall q,
      In q (exec o (ReconcileOSDsByType r instance profile function) host).2 ->
      q = ListOSDs (hID host) \/
      exists osdInfo, In osdInfo desired /\ osdRequestFor r instance function host osdInfo q.
Proof.
  intros r instance profile storage desired function host o Hs Hd q.
  rewrite exec_requests.
  destruct (ReconcileOSDsByType_run o r instance profile storage desired function host []
              Hs Hd) as (res & t & HP & _ & ->).
  rewrite List.Forall_forall in HP.
  destruct res as [[] | e]; simpl.
  - destruct (o t (ListOSDs (hID host))); simpl; rewrite in_app_iff;
      (intros [Hin | [<- | []]]; [right; by apply HP | by left]).
  - intros Hin. right. by apply HP.
  - intros Hin. right. by apply HP.
Qed.

Lemma ReconcileOSDsByType_admitted_witness :
  OSDCreate {| osds.oHostID := Some "host-1";
               osds.oDiskID := Some "disk-b";
               osds.oFunction := Some FunctionOSD;
               osds.oJournalLocation := None;
               osds.oJournalSize := None;
               osds.oTierUUID := Some "tier-1" |} = ListOSDs (hID exampleHost) \/
  exists osdInfo,
    In osdInfo [exampleOSD] /\
    osdRequestFor standardReconciler exampleInstance FunctionOSD exampleHost osdInfo
      (OSDCreate {| osds.oHostID := Some "host-1";
                    osds.oDiskID := Some "disk-b";
                    osds.oFunction := Some FunctionOSD;
                    osds.oJournalLocation := None;
                    osds.oJournalSize := None;
                    osds.oTierUUID := Some "tier-1" |}).
Proof.
  apply (ReconcileOSDsByType_admitted standardReconciler exampleInstance
           (osdProfile (Some [exampleOSD])) _ [exampleOSD] FunctionOSD exampleHost
           (inventory [] exampleHost) eq_refl eq_refl).
  left. reflexivity.
Defined.

(** X4: the pass for one function keeps the snapshot in step with the remote
    system: when it returns success it has either requested nothing and left
    the snapshot as it was, or ended with a listing of the OSDs of the host
    whose answer is now the OSD list of the snapshot. *)
Theorem ReconcileOSDsByType_refreshes :
  forall (r : HostReconciler) (instance : Host) (profile : HostProfileSpec)
         (storage : ProfileStorageInfo) (desired : list OSDInfo) (function : string)
         (host : HostInfo) (o : Oracle),
    pStorage profile = Some storage ->
    sOSDs storage = Some desired ->
    let res := exec o (ReconcileOSDsByType r instance profile function) host in
    res.1.1 = None ->
    (res.2 = [] /\ res.1.2 = host) \/
    (exists t refreshed,
        t <> [] /\
        res.2 = (t ++ [ListOSDs (hID host)])%list /\
        o t (ListOSDs (hID host)) = Success refreshed /\
        res.1.2 = withOSDs host refreshed).
Proof.
  intros r instance profile storage desired function host o Hs Hd res. subst res.
  rewrite exec_runM.
  destruct (ReconcileOSDsByType_run o r instance profile storage desired function host []
              Hs Hd) as (res & t & _ & Hflag & ->).
  destruct res as [[] | e]; simpl.
  - pose proof (Hflag true eq_refl) as Ht.
    destruct (o t (ListOSDs (hID host))) as [refreshed | e] eqn:Ho; simpl; [| discriminate].
    intros _. right. exists t, refreshed.
    split; [by destruct t |]. by repeat split.
  - pose proof (Hflag false eq_refl) as Ht. intros _. left.
    destruct t; [by split | discriminate].
  - discriminate.
Qed.

Lemma ReconcileOSDsByType_refreshes_witness :
  ((exec (inventory [] exampleHost)
      (ReconcileOSDsByType standardReconciler exampleInstance
         (osdProfile (Some [exampleOSD])) FunctionOSD) exampleHost).2 = [] /\
   (exec (inventory [] exampleHost)
      (ReconcileOSDsByType standardReconciler exampleInstance
         (osdProfile (Some [exampleOSD])) FunctionOSD) exampleHost).1.2 = exampleHost) \/
  (exists t refreshed,
      t <> [] /\
      (exec (inventory [] exampleHost)
         (ReconcileOSDsByType standardReconciler exampleInstance
            (osdProfile (Some [exampleOSD])) FunctionOSD) exampleHost).2
      = (t ++ [ListOSDs (hID exampleHost)])%list /\
      inventory [] exampleHost t (ListOSDs (hID exampleHost)) = Success refreshed /\
      (exec (inventory [] exampleHost)
         (ReconcileOSDsByType standardReconciler exampleInstance
            (osdProfile (Some [exampleOSD])) FunctionOSD) exampleHost).1.2
      = withOSDs exampleHost refreshed).
Proof.
  exact (ReconcileOSDsByType_refreshes standardReconciler exampleInstance
           (osdProfile (Some [exampleOSD])) _ [exampleOSD] FunctionOSD exampleHost
           (inventory [] exampleHost) eq_refl eq_refl eq_refl).
Defined.

Lemma osdLoop_converged o r instance function host :
  forall l hist updated,
    (forall e, In e l -> osdFunction e = function -> upToDate host e = true) ->
    runM o hist (forRangeAcc l updated (osdStep r instance function)) host
    = (Done updated, host, hist).
Proof.
  induction l as [| e l IH]; intros hist updated Hall; [reflexivity |].
  rewrite forRangeAcc_cons. unfold osdStep at 1.
  destruct (String.eqb (osdFunction e) function) eqn:Hf; simpl negb; cbv iota.
  - apply String.eqb_eq in Hf. pose proof (Hall e (or_introl eq_refl) Hf) as Hup.
    unfold upToDate in Hup. msimpl.
    destruct (FindOSDByPath host (osdPath e)) as [osd |]; [| discriminate].
    destruct (osdUpdateRequired e osd) as [opts []]; [discriminate |].
    msimpl. apply IH. intros e' Hin. apply Hall. by right.
  - msimpl. apply IH. intros e' Hin. apply Hall. by right.
Qed.

Lemma ReconcileOSDs_converged_run o r instance profile storage desired host hist :
  pStorage profile = Some storage ->
  sOSDs storage = Some desired ->
  (forall osdInfo,
      In osdInfo desired ->
      osdFunction osdInfo = FunctionJournal \/ osdFunction osdInfo = FunctionOSD ->
      upToDate host osdInfo = true) ->
  runM o hist (ReconcileOSDs r instance profile) host = (Done tt, host, hist).
Proof.
  intros Hs Hd Hall.
  unfold ReconcileOSDs, storageOf. rewrite Hs. msimpl. rewrite Hd.
  destruct (negb (IsReconcilerEnabled r OSD)); [reflexivity |].
  destruct (length desired =? 0)%nat; [reflexivity |].
  assert (Hpass : forall function hist,
             function = FunctionJournal \/ function = FunctionOSD ->
             runM o hist (ReconcileOSDsByType r instance profile function) host
             = (Done tt, host, hist)).
  { intros function hist' Hfun. unfold ReconcileOSDsByType, storageOf.
    rewrite Hs. msimpl. rewrite Hd. msimpl.
    rewrite osdLoop_converged; [reflexivity |].
    intros e Hin Hf. apply Hall; [exact Hin |]. rewrite Hf. exact Hfun. }
  rewrite forRange_cons, Hpass by by left.
  rewrite forRange_cons, Hpass by by right.
  reflexivity.
Qed.

(** X5: reconciling the OSDs of a host that has them all is a no-op: when every
    desired entry of journal or data function is found in the snapshot and
    needs no journal update, the pass makes no request, leaves the snapshot
    as it is and returns success.  Entries of any other function are not
    looked at. *)
Theorem ReconcileOSDs_converged :
  forall (r : HostReconciler) (instance : Host) (profile : HostProfileSpec)
         (storage : ProfileStorageInfo) (desired : list OSDInfo)
         (host : HostInfo) (o : Oracle),
    pStorage profile = Some storage ->
    sOSDs storage = Some desired ->
    (forall osdInfo,
        In osdInfo desired ->
        osdFunction osdInfo = FunctionJournal \/ osdFunction osdInfo = FunctionOSD ->
        upToDate host osdInfo = true) ->
    exec o (ReconcileOSDs r instance profile) host = (None, host, []).
Proof.
  intros r instance profile storage desired host o Hs Hd Hall.
  rewrite exec_runM.
  by rewrite (ReconcileOSDs_converged_run o r instance profile storage desired host []).
Qed.

Lemma ReconcileOSDs_converged_witness :
  exec (inventory [] osdHost)
    (ReconcileOSDs standardReconciler exampleInstance (osdProfile (Some [exampleOSD])))
    osdHost
  = (None, osdHost, []).
Proof.
  apply (ReconcileOSDs_converged standardReconciler exampleInstance
           (osdProfile (Some [exampleOSD])) _ [exampleOSD] osdHost (inventory [] osdHost)
           eq_refl eq_refl).
  intros osdInfo [<- | []] _. reflexivity.
Defined.

Lemma buildOSDOpts_errors host osdInfo opts e :
  buildOSDOpts host osdInfo = (opts, Some e) -> isMissing e \/ isUserData e.
Proof.
  unfold buildOSDOpts.
  destruct (FindDiskByPath host (osdPath osdInfo)); [| intros [= _ <-]; by left].
  destruct (osdJournal osdInfo) as [journalInfo |]; [| discriminate].
  destruct (FindOSDByPath host (jLocation journalInfo)) as [journal |];
    [| intros [= _ <-]; by left].
  destruct (negb _); [intros [= _ <-]; by right | discriminate].
Qed.

Lemma osdStep_behaves r instance function updated osdInfo :
  behaves osdRequest
    (fun e => isTransport e \/ isMissing e \/ isUserData e \/ isGateWait e)
    (osdStep r instance function updated osdInfo).
Proof.
  unfold osdStep. destruct (negb _); [apply behaves_ret |].
  apply behaves_bind; [behave |]. intros host.
  destruct (FindOSDByPath host (osdPath osdInfo)) as [osd |].
  - destruct (osdUpdateRequired osdInfo osd) as [opts []]; [| apply behaves_ret].
    apply behaves_bind; [by apply behaves_call |]. intros [[] | e].
    + apply behaves_bind; [by apply behaves_call | intros; apply behaves_ret].
    + apply behaves_raise. by left.
  - destruct (buildOSDOpts host osdInfo) as [opts err] eqn:Hbuild.
    apply behaves_bind.
    { destruct err as [e |]; [| apply behaves_ret]. apply behaves_raise.
      destruct (buildOSDOpts_errors _ _ _ _ Hbuild); tauto. }
    intros _. apply behaves_bind.
    { destruct (OSDProvisioningAllowed r instance osdInfo (osds.oTierUUID opts) host)
        as [e |] eqn:Hgate; [| apply behaves_ret].
      apply behaves_raise. apply OSDProvisioningAllowed_waits in Hgate. tauto. }
    intros _. apply behaves_bind; [by apply behaves_call |]. intros [[] | e].
    + apply behaves_bind; [by apply behaves_call | intros; apply behaves_ret].
    + apply behaves_raise. by left.
Qed.

Lemma behaves_ret_bind {A B : Type} K E (a : A) (f : A -> M B) :
  behaves K E (f a) -> behaves K E (bind (ret a) f).
Proof. intros H o hist h. rewrite runM_bind, runM_ret. apply H. Qed.

Lemma behaves_raise_bind {A B : Type} (K : Request -> Prop) (E : error -> Prop)
    (e : error) (f : A -> M B) :
  E e -> behaves K E (bind (raise e) f).
Proof.
  intros He o hist h. rewrite runM_bind, runM_raise. exists []. simpl.
  rewrite app_nil_r. split; [reflexivity |]. split; [constructor |]. by intros e' [= <-].
Qed.

Lemma ReconcileOSDs_behaves :
  forall (r : HostReconciler) (instance : Host) (profile : HostProfileSpec),
    behaves osdRequest
      (fun e => isTransport e \/ isMissing e \/ isUserData e \/ isGateWait e
                \/ (pStorage profile = None /\ e = NilPointerPanic))
      (ReconcileOSDs r instance profile).
Proof.
  intros r instance profile. unfold ReconcileOSDs, ReconcileOSDsByType, storageOf.
  destruct (pStorage profile) as [storage |] eqn:Hs.
  2:{ apply behaves_raise_bind. tauto. }
  apply behaves_ret_bind.
  destruct (sOSDs storage) as [desired |] eqn:Hd; [| apply behaves_ret].
  destruct (negb _); [apply behaves_ret |].
  destruct (_ =? _)%nat; [apply behaves_ret |].
  apply behaves_forRange. intros function _.
  apply behaves_ret_bind. rewrite Hd.
  apply behaves_bind.
  - apply behaves_forRangeAcc. intros updated osdInfo _.
    eapply behaves_weaken; [| | apply osdStep_behaves];
      [intros q Hq; exact Hq | intros e He; cbv beta in *; tauto].
  - intros [|]; [| apply behaves_ret].
    apply behaves_bind; [behave |]. intros host.
    apply behaves_bind; [by apply behaves_call |]. intros [result | e].
    + behave.
    + apply behaves_raise. by left.
Qed.

(** X6: the OSD reconciler never deletes: whatever the remote system answers, it
    only updates, creates and lists OSDs and records their events.  It ends
    in success, in the failure of a request, in a missing resource or a user
    data error of an entry, or in a wait of the admission gate; the nil checks
    before the passes keep it from reading a nil OSD list, so that it panics
    only when it is called without a storage profile. *)
Theorem ReconcileOSDs_never_deletes :
  forall (r : HostReconciler) (instance : Host) (profile : HostProfileSpec)
         (host : HostInfo) (o : Oracle),
    let res := exec o (ReconcileOSDs r instance profile) host in
    Forall osdRequest res.2 /\
    forall e, res.1.1 = Some e ->
              isTransport e \/ isMissing e \/ isUserData e \/ isGateWait e
              \/ (pStorage profile = None /\ e = NilPointerPanic).
Proof.
  intros r instance profile host o.
  exact (behaves_exec _ _ _ o host (ReconcileOSDs_behaves r instance profile)).
Qed.

(** X7: the stale OSD reconciler never creates or updates: whatever the remote
    system answers, it only deletes and lists OSDs and records the deletions.
    It never waits and never reports a missing resource: it ends in success
    or in the failure of a request, and panics only when it is called without
    a storage profile. *)
Theorem ReconcileStaleOSDs_only_deletes :
  forall (r : HostReconciler) (instance : Host) (profile : HostProfileSpec)
         (host : HostInfo) (o : Oracle),
    let res := exec o (ReconcileStaleOSDs r instance profile) host in
    Forall staleOSDRequest res.2 /\
    forall e, res.1.1 = Some e ->
              isTransport e \/ (pStorage profile = None /\ e = NilPointerPanic).
Proof.
  intros r instance profile host o.
  exact (behaves_exec _ _ _ o host (ReconcileStaleOSDs_behaves r instance profile)).
Qed.

(** ** Partitions, physical volumes and volume groups *)

Lemma partitionStep_fixed o r instance group host updated pv hist :
  exists res t,
    runM o hist (partitionStep r instance group updated pv) host
    = (res, host, (hist ++ t)%list) /\
    Forall (partitionRequestFor r host group pv) t /\
    forall s', res = Done s' -> s' = updated || requested t.
Proof.
  unfold partitionStep, partitionRequestFor, needsPartition.
  destruct (pvSize pv) as [size |].
  2:{ exists (Done updated), []. msimpl. rewrite app_nil_r, orb_false_r.
      split; [reflexivity |]. split; [constructor | congruence]. }
  destruct (String.eqb (pvType pv) PVTypePartition); simpl negb; cbv iota.
  2:{ exists (Done updated), []. msimpl. rewrite app_nil_r, orb_false_r.
      split; [reflexivity |]. split; [constructor | congruence]. }
  msimpl.
  destruct (FindPartitionByPath host (pvPath pv) size (vgName group)).
  { exists (Done updated), []. msimpl. rewrite app_nil_r, orb_false_r.
    split; [reflexivity |]. split; [constructor | congruence]. }
  destruct (FindDiskByPath host (pvPath pv)) as [disk |].
  2:{ eexists _, []. msimpl. rewrite app_nil_r. split; [reflexivity |].
      split; [constructor | discriminate]. }
  msimpl. destruct (o hist (PartitionCreate _)) as [partition | e]; msimpl.
  - eexists _, [_; _]. rewrite <- app_assoc. split; [reflexivity |]. split.
    + constructor; [| by repeat constructor]. split; [done |]. by exists disk, size.
    + intros s' [= <-]. by rewrite orb_true_r.
  - eexists _, [_]. split; [reflexivity |]. split; [| discriminate].
    constructor; [| constructor]. split; [done |]. by exists disk, size.
Qed.

(** X8: a partition is created only where one is needed: every partition that
    the partition reconciler creates is for a desired physical volume of
    partition type, with a size, for which the snapshot has no matching
    partition; it is created on the disk found at the path of the volume,
    with the LVM type and the desired size. *)
Theorem ReconcilePartitions_creates_needed :
  forall (r : HostReconciler) (instance : Host) (profile : HostProfileSpec)
         (group : VolumeGroupInfo) (host : HostInfo) (o : Oracle)
         (opts : partitions.DiskPartitionOpts),
    In (PartitionCreate opts) (exec o (ReconcilePartitions r instance profile group) host).2 ->
    exists pvInfo,
      In pvInfo (vgPhysicalVolumes group) /\
      partitionRequestFor r host group pvInfo (PartitionCreate opts).
Proof.
  intros r instance profile group host o opts. rewrite exec_requests.
  unfold ReconcilePartitions.
  destruct (negb (IsReconcilerEnabled r Partition)); [intros [] |].
  rewrite runM_bind. unfold partitionCreation. rewrite runM_bind.
  destruct (forRangeAcc_fixed o (partitionStep r instance group) host
              (partitionRequestFor r host group) (vgPhysicalVolumes group)
              (fun s x hist _ => partitionStep_fixed o r instance group host s x hist)
              [] false) as (res & t & -> & HP & _).
  rewrite List.Forall_forall in HP. simpl app.
  assert (Hother : forall (m : M unit) h,
             behaves (fun q => forall opts', q <> PartitionCreate opts') (fun _ => True) m ->
             In (PartitionCreate opts) (runM o t m h).2 -> In (PartitionCreate opts) t).
  { intros m h Hm Hin. destruct (Hm o t h) as (t' & Ht' & HK & _).
    rewrite Ht', in_app_iff in Hin. destruct Hin as [Hin | Hin]; [done |].
    rewrite List.Forall_forall in HK. by destruct (HK _ Hin opts). }
  intros Hin. apply HP.
  destruct res as [updated | e]; [| exact Hin].
  apply (Hother ((if updated then refreshPartitions else ret tt) ;;
                 partitionStatusCheck instance) host); [| ].
  - apply behaves_bind.
    + destruct updated; [| apply behaves_ret]. unfold refreshPartitions.
      apply behaves_bind; [behave |]. intros h1.
      apply behaves_bind; [apply behaves_call; discriminate |]. intros [result | e].
      * apply behaves_bind; [behave |]. intros _.
        apply behaves_bind; [apply behaves_call; discriminate |]. intros [system | e].
        -- behave.
        -- by apply behaves_raise.
      * by apply behaves_raise.
    + intros _. unfold partitionStatusCheck.
      apply behaves_bind; [behave |]. intros h1.
      apply behaves_forRange. intros p _. destruct (isTransient p).
      * by apply behaves_raise.
      * apply behaves_ret.
  - rewrite runM_bind. exact Hin.
Qed.

Lemma ReconcilePartitions_creates_needed_witness :
  exists pvInfo,
    In pvInfo (vgPhysicalVolumes exampleGroup) /\
    partitionRequestFor standardReconciler exampleHost exampleGroup pvInfo
      (PartitionCreate
         {| partitions.oHostID := "host-1";
            partitions.oDiskID := "disk-b";
            partitions.oTypeName := Some PartitionTypeLVM;
            partitions.oTypeGUID := Some "ba5eba11-0000-1111-2222-000000000001";
            partitions.oSize := 10 |}).
Proof.
  apply (ReconcilePartitions_creates_needed standardReconciler exampleInstance
           (groupProfile exampleGroup) exampleGroup exampleHost (inventory [] exampleHost)).
  left. reflexivity.
Defined.

Lemma ReconcilePartitions_behaves r instance profile group :
  behaves partitionRequest (fun e => isTransport e \/ isMissing e \/ isPartitionWait e)
    (ReconcilePartitions r instance profile group).
Proof.
  unfold ReconcilePartitions. destruct (negb _); [apply behaves_ret |].
  apply behaves_bind.
  - unfold partitionCreation. apply behaves_bind.
    + apply behaves_forRangeAcc. intros updated pv _. unfold partitionStep.
      destruct (pvSize pv) as [size |]; [| apply behaves_ret].
      destruct (negb _); [apply behaves_ret |].
      apply behaves_bind; [behave |]. intros host.
      destruct (FindPartitionByPath _ _ _ _); [apply behaves_ret |].
      destruct (FindDiskByPath _ _) as [disk |]; [| apply behaves_raise; simpl; tauto].
      apply behaves_bind; [by apply behaves_call |]. intros [partition | e].
      * apply behaves_bind; [by apply behaves_call | intros; apply behaves_ret].
      * apply behaves_raise. by left.
    + intros [|]; [| apply behaves_ret]. unfold refreshPartitions.
      apply behaves_bind; [behave |]. intros host.
      apply behaves_bind; [by apply behaves_call |]. intros [result | e].
      * apply behaves_bind; [behave |]. intros _.
        apply behaves_bind; [by apply behaves_call |]. intros [system | e].
        -- behave.
        -- apply behaves_raise. by left.
      * apply behaves_raise. by left.
  - intros _. unfold partitionStatusCheck.
    apply behaves_bind; [behave |]. intros host.
    apply behaves_forRange. intros p _. destruct (isTransient p).
    + apply behaves_raise. simpl. tauto.
    + apply behaves_ret.
Qed.

Lemma ReconcilePhysicalVolumes_behaves r instance profile group :
  behaves physicalVolumeRequest (fun e => isTransport e \/ isMissing e \/ isPartitionWait e)
    (ReconcilePhysicalVolumes r instance profile group).
Proof.
  unfold ReconcilePhysicalVolumes. destruct (negb _); [apply behaves_ret |].
  apply behaves_bind; [behave |]. intros host.
  destruct (FindVolumeGroup host (vgName group)) as [vg |];
    [| apply behaves_raise; simpl; tauto].
  apply behaves_bind.
  { eapply behaves_weaken; [| | apply ReconcilePartitions_behaves];
      [intros [] Hq; try destruct reason; simpl in *; tauto | intros e He; exact He]. }
  intros _. apply behaves_bind.
  - apply behaves_forRangeAcc. intros updated pv _. unfold physicalVolumeStep.
    apply behaves_bind; [behave |]. intros h1.
    destruct (FindPhysicalVolume _ _ _ _ _); [apply behaves_ret |].
    destruct (String.eqb _ EmptyString); [apply behaves_raise; simpl; tauto |].
    apply behaves_bind; [by apply behaves_call |]. intros [[] | e].
    + apply behaves_bind; [by apply behaves_call | intros; apply behaves_ret].
    + apply behaves_raise. by left.
  - intros [|]; [| apply behaves_ret].
    apply behaves_bind; [behave |]. intros h1.
    apply behaves_bind; [by apply behaves_call |]. intros [result | e].
    + behave.
    + apply behaves_raise. by left.
Qed.

Lemma volumeGroupStep_fixed o instance host updated vgInfo hist :
  exists res t,
    runM o hist (volumeGroupStep instance updated vgInfo) host
    = (res, host, (hist ++ t)%list) /\
    Forall (volumeGroupRequestFor host vgInfo) t /\
    forall s', res = Done s' -> s' = updated || requested t.
Proof.
  unfold volumeGroupStep, volumeGroupRequestFor. msimpl.
  destruct (FindVolumeGroup host (vgName vgInfo)).
  { exists (Done updated), []. msimpl. rewrite app_nil_r, orb_false_r.
    split; [reflexivity |]. split; [constructor | congruence]. }
  msimpl. destruct (o hist (VolumeGroupCreate _)) as [[] | e]; msimpl.
  - eexists _, [_; _]. rewrite <- app_assoc. split; [reflexivity |]. split.
    + by repeat constructor.
    + intros s' [= <-]. by rewrite orb_true_r.
  - eexists _, [_]. split; [reflexivity |]. split; [| discriminate].
    by repeat constructor.
Qed.

Lemma ReconcileVolumeGroups_behaves r instance profile :
  behaves volumeGroupRequest
    (fun e => isTransport e \/ isMissing e \/ isPartitionWait e
              \/ (pStorage profile = None /\ e = NilPointerPanic))
    (ReconcileVolumeGroups r instance profile).
Proof.
  unfold ReconcileVolumeGroups.
  apply behaves_bind; [apply storageOf_behaves; tauto |]. intros storage.
  destruct (sVolumeGroups storage) as [groups |]; [| apply behaves_ret].
  destruct (negb _); [apply behaves_ret |].
  apply behaves_bind; [| intros updated; apply behaves_bind].
  - apply behaves_forRangeAcc. intros updated vgInfo _. unfold volumeGroupStep.
    apply behaves_bind; [behave |]. intros host.
    destruct (FindVolumeGroup _ _); [apply behaves_ret |].
    apply behaves_bind; [by apply behaves_call |]. intros [[] | e].
    + apply behaves_bind; [by apply behaves_call | intros; apply behaves_ret].
    + apply behaves_raise. by left.
  - destruct updated; [| apply behaves_ret].
    apply behaves_bind; [behave |]. intros host.
    apply behaves_bind; [by apply behaves_call |]. intros [result | e].
    + behave.
    + apply behaves_raise. by left.
  - intros _. apply behaves_forRange. intros vgInfo _.
    eapply behaves_weaken; [| | apply ReconcilePhysicalVolumes_behaves];
      [intros [] Hq; try destruct reason; simpl in *; tauto
      | intros e He; cbv beta in *; tauto].
Qed.

(** X11: the volume group reconciler, with the physical volumes and partitions it
    reconciles, never deletes or updates: whatever the remote system answers,
    it only creates and lists volume groups, physical volumes and partitions
    (with the partitions of the system) and records the creations.  It ends
    in success, in the failure of a request, in a missing resource, or in the
    wait for the partitions to settle; it panics only when it is called
    without a storage profile. *)
Theorem ReconcileVolumeGroups_only_creates :
  forall (r : HostReconciler) (instance : Host) (profile : HostProfileSpec)
         (host : HostInfo) (o : Oracle),
    let res := exec o (ReconcileVolumeGroups r instance profile) host in
    Forall volumeGroupRequest res.2 /\
    forall e, res.1.1 = Some e ->
              isTransport e \/ isMissing e \/ isPartitionWait e
              \/ (pStorage profile = None /\ e = NilPointerPanic).
Proof.
  intros r instance profile host o.
  exact (behaves_exec _ _ _ o host (ReconcileVolumeGroups_behaves r instance profile)).
Qed.

(** X12: a volume group is created only when the snapshot lacks it: every volume
    group that the reconciler creates is a desired group that the snapshot it
    was given does not have; it is created for the host, by its name, and its
    capabilities are given only when the profile gives an LVM type. *)
Theorem ReconcileVolumeGroups_creates_absent :
  forall (r : HostReconciler) (instance : Host) (profile : HostProfileSpec)
         (storage : ProfileStorageInfo) (groups : list VolumeGroupInfo)
         (host : HostInfo) (o : Oracle) (opts : volumegroups.VolumeGroupOpts),
    pStorage profile = Some storage ->
    sVolumeGroups storage = Some groups ->
    In (VolumeGroupCreate opts) (exec o (ReconcileVolumeGroups r instance profile) host).2 ->
    exists vgInfo,
      In vgInfo groups /\ volumeGroupRequestFor host vgInfo (VolumeGroupCreate opts).
Proof.
  intros r instance profile storage groups host o opts Hs Hg. rewrite exec_requests.
  unfold ReconcileVolumeGroups, storageOf. rewrite Hs. msimpl. rewrite Hg.
  destruct (negb (IsReconcilerEnabled r VolumeGroup)); [intros [] |].
  rewrite runM_bind.
  destruct (forRangeAcc_fixed o (volumeGroupStep instance) host
              (volumeGroupRequestFor host) groups
              (fun s x hist _ => volumeGroupStep_fixed o instance host s x hist)
              [] false) as (res & t & -> & HP & _).
  rewrite List.Forall_forall in HP. simpl app.
  intros Hin. apply HP.
  destruct res as [updated | e]; [| exact Hin].
  match type of Hin with
  | In _ (runM o t ?m host).2 =>
    assert (Hm : behaves (fun q => forall opts', q <> VolumeGroupCreate opts')
                   (fun _ => True) m)
  end.
  { apply behaves_bind.
    - destruct updated; [| apply behaves_ret].
      apply behaves_bind; [behave |]. intros h1.
      apply behaves_bind; [apply behaves_call; discriminate |]. intros [result | e].
      + behave.
      + by apply behaves_raise.
    - intros _. apply behaves_forRange. intros vgInfo _.
      eapply behaves_weaken; [| | apply ReconcilePhysicalVolumes_behaves];
        [intros [] Hq; try destruct Hq; discriminate | done]. }
  destruct (Hm o t host) as (t' & Ht' & HK & _).
  rewrite Ht', in_app_iff in Hin. destruct Hin as [Hin | Hin]; [done |].
  rewrite List.Forall_forall in HK. by destruct (HK _ Hin opts).
Qed.

Lemma ReconcileVolumeGroups_creates_absent_witness :
  exists vgInfo,
    In vgInfo [exampleGroup] /\
    volumeGroupRequestFor exampleHost vgInfo
      (VolumeGroupCreate {| volumegroups.oHostID := Some "host-1";
                            volumegroups.oName := Some "nova-local";
                            volumegroups.oCapabilities := None |}).
Proof.
  apply (ReconcileVolumeGroups_creates_absent standardReconciler exampleInstance
           (groupProfile exampleGroup) _ [exampleGroup] exampleHost
           (inventory [] exampleHost) _ eq_refl eq_refl).
  left. reflexivity.
Defined.

Lemma ReconcilePhysicalVolumes_converged o r instance profile group host hist :
  hasVolumeGroup host group = true ->
  forallb (fun pv => negb (needsPartition host group pv)) (vgPhysicalVolumes group) = true ->
  forallb (hasPhysicalVolume host group) (vgPhysicalVolumes group) = true ->
  existsb isTransient (hPartitions host) = false ->
  runM o hist (ReconcilePhysicalVolumes r instance profile group) host
  = (Done tt, host, hist).
Proof.
  intros Hvg Hparts Hpvs Hsettled. unfold ReconcilePhysicalVolumes.
  destruct (negb (IsReconcilerEnabled r PhysicalVolume)); [reflexivity |].
  msimpl. unfold hasVolumeGroup in Hvg.
  destruct (FindVolumeGroup host (vgName group)) as [vg |]; [| discriminate].
  rewrite runM_bind.
  assert (Hp : runM o hist (ReconcilePartitions r instance profile group) host
               = (Done tt, host, hist)).
  { unfold ReconcilePartitions.
    destruct (negb (IsReconcilerEnabled r Partition)); [reflexivity |].
    rewrite runM_bind. unfold partitionCreation.
    rewrite runM_bind, partitionLoop_skip by exact Hparts.
    msimpl. by rewrite partitionStatusCheck_spec, Hsettled. }
  rewrite Hp, runM_bind, physicalVolumeLoop_present by exact Hpvs.
  reflexivity.
Qed.

Lemma ReconcileVolumeGroups_converged_run o r instance profile storage groups host hist :
  pStorage profile = Some storage ->
  sVolumeGroups storage = Some groups ->
  (forall group,
      In group groups ->
      hasVolumeGroup host group = true /\
      forallb (fun pv => negb (needsPartition host group pv)) (vgPhysicalVolumes group)
      = true /\
      forallb (hasPhysicalVolume host group) (vgPhysicalVolumes group) = true) ->
  existsb isTransient (hPartitions host) = false ->
  runM o hist (ReconcileVolumeGroups r instance profile) host = (Done tt, host, hist).
Proof.
  intros Hs Hg Hall Hsettled.
  unfold ReconcileVolumeGroups, storageOf. rewrite Hs. msimpl.
  rewrite Hg. destruct (negb (IsReconcilerEnabled r VolumeGroup)); [reflexivity |].
  rewrite runM_bind, volumeGroupLoop_present.
  2:{ apply forallb_forall. intros g Hin. destruct (Hall g Hin) as (Hvg & _). exact Hvg. }
  msimpl.
  assert (Hloop : forall l hist,
             (forall g, In g l -> In g groups) ->
             runM o hist (forRange l (fun vgInfo =>
                            ReconcilePhysicalVolumes r instance profile vgInfo)) host
             = (Done tt, host, hist)).
  { induction l as [| g l IH]; intros hist' Hsub; [reflexivity |].
    destruct (Hall g (Hsub g (or_introl eq_refl))) as (Hvg & Hparts & Hpvs).
    rewrite forRange_cons, ReconcilePhysicalVolumes_converged by assumption.
    apply IH. intros g' Hin. apply Hsub. by right. }
  rewrite Hloop; [reflexivity | auto].
Qed.

(** X13: reconciling the volume groups of a host that has them all is a no-op:
    when the snapshot has every desired group, every desired physical volume
    and a matching partition for every desired partition, and no partition
    of the snapshot is in a transient status, the pass makes no request,
    leaves the snapshot as it is and returns success. *)
Theorem ReconcileVolumeGroups_converged :
  forall (r : HostReconciler) (instance : Host) (profile : HostProfileSpec)
         (storage : ProfileStorageInfo) (groups : list VolumeGroupInfo)
         (host : HostInfo) (o : Oracle),
    pStorage profile = Some storage ->
    sVolumeGroups storage = Some groups ->
    (forall group,
        In group groups ->
        hasVolumeGroup host group = true /\
        forallb (fun pv => negb (needsPartition host group pv)) (vgPhysicalVolumes group)
        = true /\
        forallb (hasPhysicalVolume host group) (vgPhysicalVolumes group) = true) ->
    existsb isTransient (hPartitions host) = false ->
    exec o (ReconcileVolumeGroups r instance profile) host = (None, host, []).
Proof.
  intros r instance profile storage groups host o Hs Hg Hall Hsettled.
  rewrite exec_runM.
  by rewrite (ReconcileVolumeGroups_converged_run o r instance profile storage groups host []).
Qed.

Lemma ReconcileVolumeGroups_converged_witness :
  exec (inventory [] groupHost)
    (ReconcileVolumeGroups standardReconciler exampleInstance (groupProfile exampleGroup))
    groupHost
  = (None, groupHost, []).
Proof.
  apply (ReconcileVolumeGroups_converged standardReconciler exampleInstance
           (groupProfile exampleGroup) _ [exampleGroup] groupHost (inventory [] groupHost)
           eq_refl eq_refl); [| reflexivity].
  intros group [<- | []]. repeat split.
Defined.

(** X10: a physical volume is created only on a device that was found: every
    physical volume that the reconciler creates for a group is a desired
    physical volume of the group, of its type, in the volume group that the
    snapshot holds under the name of the group, and on a partition or disk
    whose identifier is not empty. *)
Theorem ReconcilePhysicalVolumes_creates_on_device :
  forall (r : HostReconciler) (instance : Host) (profile : HostProfileSpec)
         (group : VolumeGroupInfo) (host : HostInfo) (o : Oracle)
         (opts : physicalvolumes.PhysicalVolumeOpts),
    In (PhysicalVolumeCreate opts)
       (exec o (ReconcilePhysicalVolumes r instance profile group) host).2 ->
    exists vg,
      FindVolumeGroup host (vgName group) = Some vg /\
      physicalVolumeCreateFor group vg (PhysicalVolumeCreate opts).
Proof.
  intros r instance profile group host o opts. rewrite exec_requests.
  unfold ReconcilePhysicalVolumes.
  destruct (negb (IsReconcilerEnabled r PhysicalVolume)); [intros [] |].
  msimpl. destruct (FindVolumeGroup host (vgName group)) as [vg |]; [| intros []].
  intros Hin. exists vg. split; [reflexivity |].
  match type of Hin with
  | In _ (runM o [] ?m host).2 =>
    assert (Hm : behaves (physicalVolumeCreateFor group vg) (fun _ => True) m)
  end.
  { apply behaves_bind.
    { eapply behaves_weaken; [| | apply ReconcilePartitions_behaves];
        [intros [] Hq; try destruct Hq; exact I | done]. }
    intros _. apply behaves_bind.
    - apply behaves_forRangeAcc. intros updated pv Hpv. unfold physicalVolumeStep.
      apply behaves_bind; [behave |]. intros h1.
      destruct (FindPhysicalVolume _ _ _ _ _); [apply behaves_ret |].
      destruct (String.eqb _ EmptyString) eqn:Hdev; [by apply behaves_raise |].
      apply String.eqb_neq in Hdev.
      apply behaves_bind.
      { apply behaves_call. exists pv. by repeat split. }
      intros [[] | e].
      + apply behaves_bind; [by apply behaves_call | intros; apply behaves_ret].
      + by apply behaves_raise.
    - intros [|]; [| apply behaves_ret].
      apply behaves_bind; [behave |]. intros h1.
      apply behaves_bind; [by apply behaves_call |]. intros [result | e].
      + behave.
      + by apply behaves_raise. }
  destruct (Hm o [] host) as (t & Ht & HK & _).
  rewrite Ht in Hin. rewrite List.Forall_forall in HK. exact (HK _ Hin).
Qed.

Lemma ReconcilePhysicalVolumes_creates_on_device_witness :
  exists vg,
    FindVolumeGroup partitionedHost (vgName exampleGroup) = Some vg /\
    physicalVolumeCreateFor exampleGroup vg
      (PhysicalVolumeCreate {| physicalvolumes.oHostID := "host-1";
                               physicalvolumes.oDeviceID := "partition-1";
                               physicalvolumes.oVolumeGroupID := "vg-1";
                               physicalvolumes.oType := PVTypePartition |}).
Proof.
  apply (ReconcilePhysicalVolumes_creates_on_device standardReconciler exampleInstance
           (groupProfile exampleGroup) exampleGroup partitionedHost
           (inventory [] partitionedHost)).
  left. reflexivity.
Defined.

(** ** Filesystem types *)

Lemma member_In x l : member x l = true <-> In x l.
Proof.
  unfold member. rewrite existsb_exists. split.
  - intros (y & Hin & Heq). apply String.eqb_eq in Heq. by subst.
  - intros Hin. exists x. split; [done | apply String.eqb_refl].
Qed.

Lemma DeleteFileSystems_behaves removed :
  behaves (fun q => match q with
                    | FileSystemDelete _ | ListFileSystems _ => True
                    | _ => False
                    end)
    isTransport (DeleteFileSystems removed).
Proof.
  unfold DeleteFileSystems. apply behaves_forRangeAcc. intros updated fsInfo _.
  apply behaves_bind; [behave |]. intros host.
  apply behaves_forRangeAcc. intros updated' fs _.
  destruct (String.eqb _ _); [| apply behaves_ret].
  apply behaves_bind; [by apply behaves_call |]. intros [[] | e].
  - apply behaves_bind; [by apply behaves_call |]. intros [result | e].
    + behave.
    + by apply behaves_raise.
  - by apply behaves_raise.
Qed.

Lemma CreateFileSystems_behaves r added profile storage desired :
  pStorage profile = Some storage ->
  sFileSystems storage = Some desired ->
  (forall x, In x added -> In x (FileSystemCreationAllowed r)) ->
  behaves (fun q => fileSystemTypeRequest q /\ fileSystemCreateFor r desired q) isTransport
    (CreateFileSystems added profile).
Proof.
  intros Hs Hd Hadded. unfold CreateFileSystems, storageOf. rewrite Hs.
  apply behaves_forRangeAcc. intros updated fsInfo Hin.
  apply behaves_ret_bind. rewrite Hd.
  apply behaves_forRangeAcc. intros updated' fs Hfs.
  destruct (String.eqb fsInfo (fsName fs)) eqn:Hname; [| apply behaves_ret].
  apply String.eqb_eq in Hname.
  apply behaves_bind; [behave |]. intros host.
  apply behaves_bind.
  { apply behaves_call. split; [exact I |]. simpl. split.
    - rewrite <- Hname. by apply Hadded.
    - by exists fs. }
  intros [[] | e].
  - apply behaves_bind; [by apply behaves_call |]. intros [result | e].
    + behave.
    + by apply behaves_raise.
  - by apply behaves_raise.
Qed.

Lemma ReconcileFileSystemTypes_behaves r instance profile :
  behaves
    (fun q => fileSystemTypeRequest q /\
              forall storage desired,
                pStorage profile = Some storage ->
                sFileSystems storage = Some desired ->
                fileSystemCreateFor r desired q)
    (fun e => isTransport e \/ (pStorage profile = None /\ e = NilPointerPanic))
    (ReconcileFileSystemTypes r instance profile).
Proof.
  unfold ReconcileFileSystemTypes, storageOf.
  destruct (pStorage profile) as [storage |] eqn:Hs.
  2:{ apply behaves_raise_bind. tauto. }
  apply behaves_ret_bind.
  destruct (sFileSystems storage) as [desired |] eqn:Hd; [| apply behaves_ret].
  destruct (negb _); [apply behaves_ret |].
  destruct (_ =? _)%nat; [apply behaves_ret |].
  apply behaves_bind; [behave |]. intros host.
  destruct (ListDelta _ _) as [[added removed] unchanged].
  destruct (ListDelta added _) as [[a1 r1] fs_to_add] eqn:Hadd.
  destruct (ListDelta removed _) as [[a2 r2] fs_to_remove].
  assert (Hallowed : forall x, In x fs_to_add -> In x (FileSystemCreationAllowed r)).
  { unfold ListDelta in Hadd. injection Hadd as _ _ <-.
    intros x Hx. apply filter_In in Hx. tauto. }
  apply behaves_bind; [| intros _].
  - destruct (0 <? length fs_to_remove)%nat; [| apply behaves_ret].
    apply behaves_bind.
    + eapply behaves_weaken; [| | apply DeleteFileSystems_behaves].
      * intros q Hq. destruct q; try destruct Hq; (split; [exact I | intros; exact I]).
      * intros e He. by left.
    + intros [|]; [| apply behaves_ret].
      apply behaves_bind; [| intros; apply behaves_ret].
      apply behaves_call. split; [exact I |]. intros; exact I.
  - destruct (0 <? length fs_to_add)%nat; [| apply behaves_ret].
    apply behaves_bind.
    + eapply behaves_weaken;
        [| | apply (CreateFileSystems_behaves r fs_to_add profile storage desired Hs Hd
                      Hallowed)].
      * intros q [Hq Hfor]. split; [exact Hq |].
        intros storage' desired' [= <-] Hd'. rewrite Hd in Hd'. by injection Hd' as <-.
      * intros e He. by left.
    + intros [|]; [| apply behaves_ret].
      apply behaves_bind; [| intros; apply behaves_ret].
      apply behaves_call. split; [exact I |]. intros; exact I.
Qed.

(** X14: the filesystem type reconciler only deletes, creates and lists
    filesystems and records these changes, whatever the remote system
    answers; it never waits and never reports a missing resource.  Every
    filesystem it creates has the name and the size of a desired filesystem,
    and a name from the list of the filesystems that may be created. *)
Theorem ReconcileFileSystemTypes_creates_desired :
  forall (r : HostReconciler) (instance : Host) (profile : HostProfileSpec)
         (storage : ProfileStorageInfo) (desired : list FileSystemInfo)
         (host : HostInfo) (o : Oracle),
    pStorage profile = Some storage ->
    sFileSystems storage = Some desired ->
    let res := exec o (ReconcileFileSystemTypes r instance profile) host in
    Forall (fun q => fileSystemTypeRequest q /\ fileSystemCreateFor r desired q) res.2 /\
    forall e, res.1.1 = Some e -> isTransport e.
Proof.
  intros r instance profile storage desired host o Hs Hd res. subst res.
  destruct (behaves_exec _ _ _ o host (ReconcileFileSystemTypes_behaves r instance profile))
    as [HK HE].
  split.
  - eapply Forall_impl; [exact HK |]. intros q [Hq Hfor]. split; [exact Hq |].
    by apply (Hfor storage desired).
  - intros e He. destruct (HE e He) as [Ht | [Hnone _]]; [exact Ht | congruence].
Qed.

Lemma ReconcileFileSystemTypes_creates_desired_witness :
  Forall (fun q => fileSystemTypeRequest q /\
                   fileSystemCreateFor standardReconciler
                     [ {| fsName := "backup"; fsSize := 10 |};
                       {| fsName := "instances"; fsSize := 5 |} ] q)
    [ FileSystemCreate {| hostFilesystems.cName := "instances";
                          hostFilesystems.cSize := 5;
                          hostFilesystems.cHostUUID := "host-1" |};
      ListFileSystems "host-1";
      NormalEvent exampleInstance ResourceCreated (text "filesystem sizes have been created") ].
Proof.
  exact (proj1 (ReconcileFileSystemTypes_creates_desired standardReconciler exampleInstance
                  fsTypesProfile _ _ fsHost (inventory [] fsHost) eq_refl eq_refl)).
Defined.

Lemma filter_nil {A : Type} (f : A -> bool) (l : list A) :
  (forall x, In x l -> f x = false) -> List.filter f l = [].
Proof.
  induction l as [| x l IH]; intros Hall; [reflexivity |]. simpl.
  rewrite (Hall x (or_introl eq_refl)). apply IH. intros y Hy. apply Hall. by right.
Qed.

Lemma onHost_In current fsInfo :
  onHost current fsInfo = true <-> In (fsName fsInfo) (map hostFilesystems.Name current).
Proof.
  unfold onHost. rewrite existsb_exists, in_map_iff. split.
  - intros (fs & Hin & Heq). apply String.eqb_eq in Heq. by exists fs.
  - intros (fs & Heq & Hin). exists fs. split; [done |]. by apply String.eqb_eq.
Qed.

Lemma ReconcileFileSystemTypes_converged_run o r instance profile storage host hist :
  pStorage profile = Some storage ->
  (forall desired,
      sFileSystems storage = Some desired ->
      (forall fsInfo,
          In fsInfo desired ->
          In (fsName fsInfo) (FileSystemCreationAllowed r) ->
          onHost (hFileSystems host) fsInfo = true) /\
      (forall fs,
          In fs (hFileSystems host) ->
          In (hostFilesystems.Name fs) (FileSystemDeletionAllowed r) ->
          In (hostFilesystems.Name fs) (map fsName desired))) ->
  runM o hist (ReconcileFileSystemTypes r instance profile) host = (Done tt, host, hist).
Proof.
  intros Hs Hall. unfold ReconcileFileSystemTypes, storageOf. rewrite Hs. msimpl.
  destruct (sFileSystems storage) as [desired |]; [| reflexivity].
  destruct (Hall desired eq_refl) as [Hcreate Hdelete].
  destruct (negb _); [reflexivity |].
  destruct (_ =? _)%nat; [reflexivity |].
  msimpl. unfold ListDelta.
  rewrite (filter_nil (fun x => member x
             (List.filter (fun x0 => negb (member x0 (map hostFilesystems.Name
                                                        (hFileSystems host))))
                (map fsName desired))) (FileSystemCreationAllowed r)).
  2:{ intros x Hx. destruct (member x _) eqn:Hm; [| reflexivity].
      apply member_In, filter_In in Hm. destruct Hm as [Hin Hnot].
      apply in_map_iff in Hin. destruct Hin as (fsInfo & <- & Hin).
      pose proof (Hcreate fsInfo Hin Hx) as Hon.
      apply onHost_In, member_In in Hon. by rewrite Hon in Hnot. }
  rewrite (filter_nil (fun x => member x
             (List.filter (fun x0 => negb (member x0 (map fsName desired)))
                (map hostFilesystems.Name (hFileSystems host))))
             (FileSystemDeletionAllowed r)).
  2:{ intros x Hx. destruct (member x _) eqn:Hm; [| reflexivity].
      apply member_In, filter_In in Hm. destruct Hm as [Hin Hnot].
      apply in_map_iff in Hin. destruct Hin as (fs & <- & Hin).
      pose proof (Hdelete fs Hin Hx) as Hwanted.
      apply member_In in Hwanted. by rewrite Hwanted in Hnot. }
  reflexivity.
Qed.

(** X15: filesystems outside the allow-lists are left alone: when every desired
    filesystem that may be created is on the host, and every filesystem of
    the host that may be deleted is desired, the filesystem type reconciler
    makes no request, leaves the snapshot as it is and returns success,
    whatever other filesystems the profile or the host have. *)
Theorem ReconcileFileSystemTypes_converged :
  forall (r : HostReconciler) (instance : Host) (profile : HostProfileSpec)
         (storage : ProfileStorageInfo) (desired : list FileSystemInfo)
         (host : HostInfo) (o : Oracle),
    pStorage profile = Some storage ->
    sFileSystems storage = Some desired ->
    (forall fsInfo,
        In fsInfo desired ->
        In (fsName fsInfo) (FileSystemCreationAllowed r) ->
        onHost (hFileSystems host) fsInfo = true) ->
    (forall fs,
        In fs (hFileSystems host) ->
        In (hostFilesystems.Name fs) (FileSystemDeletionAllowed r) ->
        In (hostFilesystems.Name fs) (map fsName desired)) ->
    exec o (ReconcileFileSystemTypes r instance profile) host = (None, host, []).
Proof.
  intros r instance profile storage desired host o Hs Hd Hcreate Hdelete.
  rewrite exec_runM.
  rewrite (ReconcileFileSystemTypes_converged_run o r instance profile storage host []);
    [reflexivity | exact Hs |].
  intros desired' Hd'. rewrite Hd in Hd'. injection Hd' as <-. by split.
Qed.

Lemma ReconcileFileSystemTypes_converged_witness :
  exec (inventory [] fsHost)
    (ReconcileFileSystemTypes standardReconciler exampleInstance (fsProfile 20)) fsHost
  = (None, fsHost, []).
Proof.
  apply (ReconcileFileSystemTypes_converged standardReconciler exampleInstance
           (fsProfile 20) _ [ {| fsName := "backup"; fsSize := 20 |} ] fsHost
           (inventory [] fsHost) eq_refl eq_refl).
  - intros fsInfo [<- | []] _. reflexivity.
  - intros fs [<- | []] _. left. reflexivity.
Defined.

Lemma existsb_agree {A : Type} (f g : A -> bool) (l : list A) :
  (forall x, f x = g x) -> existsb f l = existsb g l.
Proof.
  intros Hfg. induction l as [| x l IH]; [reflexivity |]. simpl. by rewrite IH, Hfg.
Qed.

Lemma staleLoop_settled o instance present updated h :
  forall l hist changes,
    existsb (fun osd => negb (marked present (osds.ID osd)) || marked updated (osds.ID osd)) l
    = false ->
    runM o hist (forRangeAcc l changes (staleStep instance present updated)) h
    = (Done changes, h, hist).
Proof.
  induction l as [| osd l IH]; intros hist changes Hnone; [reflexivity |].
  simpl in Hnone. apply orb_false_elim in Hnone. destruct Hnone as [Hosd Hl].
  rewrite forRangeAcc_cons. unfold staleStep at 1. rewrite Hosd. msimpl. by apply IH.
Qed.

Lemma ReconcileStaleOSDs_converged_run o r instance profile storage host hist :
  pStorage profile = Some storage ->
  (forall desired,
      sOSDs storage = Some desired ->
      existsb (isStale host desired) (hOSDs host) = false) ->
  runM o hist (ReconcileStaleOSDs r instance profile) host = (Done tt, host, hist).
Proof.
  intros Hs Hall. unfold ReconcileStaleOSDs, storageOf. rewrite Hs. msimpl.
  destruct (sOSDs storage) as [desired |]; [| reflexivity].
  destruct (negb _); [reflexivity |]. msimpl.
  pose proof (staleMarks_stale host desired) as Hstale.
  destruct (staleMarks host desired) as [present updated]. simpl in Hstale.
  rewrite runM_bind, staleLoop_settled; [reflexivity |].
  rewrite <- (Hall desired eq_refl). apply existsb_agree. exact Hstale.
Qed.

(** ** The whole pass *)

Lemma ReconcileStorage_behaves r instance profile :
  behaves storageRequest
    (fun e => isTransport e \/ isMissing e \/ isUserData e \/ isGateWait e
              \/ isPartitionWait e)
    (ReconcileStorage r instance profile).
Proof.
  unfold ReconcileStorage. destruct (negb _); [apply behaves_ret |].
  destruct (pStorage profile) as [storage |] eqn:Hs; [| apply behaves_ret].
  apply behaves_bind.
  { eapply behaves_weaken; [| | apply ReconcileMonitor_behaves].
    - intros [] Hq; simpl in *; try exact I; discriminate.
    - intros e [He | [Hnone _]]; [tauto | congruence]. }
  intros _. apply behaves_bind.
  { eapply behaves_weaken; [| | apply ReconcileFileSystemTypes_behaves].
    - intros [] [Hq _]; simpl in *; try exact I; destruct Hq.
    - intros e [He | [Hnone _]]; [tauto | congruence]. }
  intros _. apply behaves_bind.
  { eapply behaves_weaken; [| | apply ReconcileVolumeGroups_behaves].
    - intros [] Hq; simpl in *; try exact I; destruct Hq.
    - intros e [He | [He | [He | [Hnone _]]]]; [tauto | tauto | tauto | congruence]. }
  intros _. apply behaves_bind.
  { eapply behaves_weaken; [| | apply ReconcileStaleOSDs_behaves].
    - intros [] Hq; simpl in *; try exact I; destruct Hq.
    - intros e [He | [Hnone _]]; [tauto | congruence]. }
  intros _. unfold osdStage. apply behaves_bind; [behave |]. intros host.
  assert (Hosd : behaves storageRequest
                   (fun e => isTransport e \/ isMissing e \/ isUserData e \/ isGateWait e
                             \/ isPartitionWait e)
                   (ReconcileOSDs r instance profile)).
  { eapply behaves_weaken; [| | apply ReconcileOSDs_behaves].
    - intros [] Hq; simpl in *; try exact I; destruct Hq.
    - intros e [He | [He | [He | [He | [Hnone _]]]]];
        [tauto | tauto | tauto | tauto | congruence]. }
  destruct (OSDProvisioningState _ _ _); [apply behaves_ret | exact Hosd
                                          | apply behaves_ret | exact Hosd].
Qed.

(** X16: the storage pass never panics and never resizes a filesystem: whatever
    the profile, the snapshot and the answers of the remote system, the nil
    check on the storage profile covers every pointer that the reconcilers
    read, no request updates the filesystems of the host, and the pass ends
    in success, in the failure of a request, in a missing resource, in a user
    data error, in a wait of the OSD admission gate or in the wait for the
    partitions to settle. *)
Theorem ReconcileStorage_never_panics :
  forall (r : HostReconciler) (instance : Host) (profile : HostProfileSpec)
         (host : HostInfo) (o : Oracle),
    let res := exec o (ReconcileStorage r instance profile) host in
    Forall storageRequest res.2 /\
    res.1.1 <> Some NilPointerPanic /\
    forall e, res.1.1 = Some e ->
              isTransport e \/ isMissing e \/ isUserData e \/ isGateWait e
              \/ isPartitionWait e.
Proof.
  intros r instance profile host o res. subst res.
  destruct (behaves_exec _ _ _ o host (ReconcileStorage_behaves r instance profile))
    as [HK HE].
  split; [exact HK |]. split; [| exact HE].
  intros Hpanic. destruct (HE _ Hpanic) as [H | [H | [H | [H | H]]]]; exact H.
Qed.

(** The reconciler of one function of OSD does read the OSD list without a
    check: called on a profile whose OSD list is nil it panics, having
    requested nothing.  [ReconcileOSDs] returns before it reaches it. *)
Theorem ReconcileOSDsByType_nil_list_panics :
  forall (r : HostReconciler) (instance : Host) (profile : HostProfileSpec)
         (storage : ProfileStorageInfo) (function : string) (host : HostInfo) (o : Oracle),
    pStorage profile = Some storage ->
    sOSDs storage = None ->
    exec o (ReconcileOSDsByType r instance profile function) host
    = (Some NilPointerPanic, host, []) /\
    exec o (ReconcileOSDs r instance profile) host = (None, host, []).
Proof.
  intros r instance profile storage function host o Hs Hd. split.
  - rewrite exec_runM. unfold ReconcileOSDsByType, storageOf. rewrite Hs. msimpl.
    by rewrite Hd.
  - rewrite exec_runM. unfold ReconcileOSDs, storageOf. rewrite Hs. msimpl. by rewrite Hd.
Qed.

Lemma ReconcileOSDsByType_nil_list_panics_witness :
  exec (inventory [] exampleHost)
    (ReconcileOSDsByType standardReconciler exampleInstance (osdProfile None) FunctionOSD)
    exampleHost
  = (Some NilPointerPanic, exampleHost, []).
Proof.
  exact (proj1 (ReconcileOSDsByType_nil_list_panics standardReconciler exampleInstance
                  (osdProfile None) _ FunctionOSD exampleHost (inventory [] exampleHost)
                  eq_refl eq_refl)).
Defined.

(** X17: a pass over a host that is in its desired state changes nothing: for a
    profile that is not a worker's, when the filesystems, the volume groups
    with their physical volumes and partitions, and the OSDs of the snapshot
    are the desired ones (no filesystem to create or delete, every group,
    volume and partition present and settled, no stale OSD, every desired OSD
    present and up to date), the storage pass makes no request, leaves the
    snapshot as it is and returns success. *)
Theorem ReconcileStorage_converged :
  forall (r : HostReconciler) (instance : Host) (profile : HostProfileSpec)
         (storage : ProfileStorageInfo) (host : HostInfo) (o : Oracle),
    pStorage profile = Some storage ->
    pPersonality profile <> Some PersonalityWorker ->
    (forall desired,
        sFileSystems storage = Some desired ->
        (forall fsInfo,
            In fsInfo desired ->
            In (fsName fsInfo) (FileSystemCreationAllowed r) ->
            onHost (hFileSystems host) fsInfo = true) /\
        (forall fs,
            In fs (hFileSystems host) ->
            In (hostFilesystems.Name fs) (FileSystemDeletionAllowed r) ->
            In (hostFilesystems.Name fs) (map fsName desired))) ->
    (forall groups,
        sVolumeGroups storage = Some groups ->
        existsb isTransient (hPartitions host) = false /\
        forall group,
          In group groups ->
          hasVolumeGroup host group = true /\
          forallb (fun pv => negb (needsPartition host group pv)) (vgPhysicalVolumes group)
          = true /\
          forallb (hasPhysicalVolume host group) (vgPhysicalVolumes group) = true) ->
    (forall desired,
        sOSDs storage = Some desired ->
        existsb (isStale host desired) (hOSDs host) = false /\
        forall osdInfo,
          In osdInfo desired ->
          osdFunction osdInfo = FunctionJournal \/ osdFunction osdInfo = FunctionOSD ->
          upToDate host osdInfo = true) ->
    exec o (ReconcileStorage r instance profile) host = (None, host, []).
Proof.
  intros r instance profile storage host o Hs Hworker Hfs Hvg Hosd.
  rewrite exec_runM. unfold ReconcileStorage.
  destruct (negb (IsReconcilerEnabled r Storage)); [reflexivity |].
  rewrite Hs.
  assert (Hmonitor : forall hist,
             runM o hist (ReconcileMonitor r instance profile) host = (Done tt, host, hist)).
  { intros hist. unfold ReconcileMonitor.
    destruct (negb (IsReconcilerEnabled r StorageMonitor)); [reflexivity |].
    destruct (pPersonality profile) as [p |]; [| reflexivity].
    destruct (String.eqb p PersonalityWorker) eqn:Hp; [| reflexivity].
    apply String.eqb_eq in Hp. by subst p. }
  rewrite runM_bind, Hmonitor.
  rewrite runM_bind,
    (ReconcileFileSystemTypes_converged_run o r instance profile storage host [] Hs Hfs).
  rewrite runM_bind. destruct (sVolumeGroups storage) as [groups |] eqn:Hg.
  - destruct (Hvg groups eq_refl) as [Hsettled Hgroups].
    rewrite (ReconcileVolumeGroups_converged_run o r instance profile storage groups host []
               Hs Hg Hgroups Hsettled).
    revert Hosd. clear Hvg. intros Hosd.
    rewrite runM_bind, (ReconcileStaleOSDs_converged_run o r instance profile storage host []
                          Hs (fun desired Hd => proj1 (Hosd desired Hd))).
    unfold osdStage. msimpl.
    destruct (OSDProvisioningState _ _ _); try reflexivity;
      (destruct (sOSDs storage) as [desired |] eqn:Hd;
       [ rewrite (ReconcileOSDs_converged_run o r instance profile storage desired host []
                    Hs Hd (proj2 (Hosd desired eq_refl))); reflexivity
       | unfold ReconcileOSDs, storageOf; rewrite Hs; msimpl; by rewrite Hd ]).
  - assert (Hnone : runM o [] (ReconcileVolumeGroups r instance profile) host
                    = (Done tt, host, [])).
    { unfold ReconcileVolumeGroups, storageOf. rewrite Hs. msimpl. by rewrite Hg. }
    rewrite Hnone.
    rewrite runM_bind, (ReconcileStaleOSDs_converged_run o r instance profile storage host []
                          Hs (fun desired Hd => proj1 (Hosd desired Hd))).
    unfold osdStage. msimpl.
    destruct (OSDProvisioningState _ _ _); try reflexivity;
      (destruct (sOSDs storage) as [desired |] eqn:Hd;
       [ rewrite (ReconcileOSDs_converged_run o r instance profile storage desired host []
                    Hs Hd (proj2 (Hosd desired eq_refl))); reflexivity
       | unfold ReconcileOSDs, storageOf; rewrite Hs; msimpl; by rewrite Hd ]).
Qed.

Lemma ReconcileStorage_converged_witness :
  exec (inventory [] convergedHost)
    (ReconcileStorage standardReconciler exampleInstance convergedProfile) convergedHost
  = (None, convergedHost, []).
Proof.
  apply (ReconcileStorage_converged standardReconciler exampleInstance convergedProfile _
           convergedHost (inventory [] convergedHost) eq_refl).
  - discriminate.
  - intros desired [=].
  - intros groups [= <-]. split; [reflexivity |].
    intros group [<- | []]. repeat split.
  - intros desired [= <-]. split; [reflexivity |].
    intros osdInfo [<- | []] _. reflexivity.
Defined.

(** ** Updating the journal of an OSD *)

(** X2: an update of an existing OSD touches its journal only.  It is required
    exactly when a journal is desired and the record either has no journal
    location or has a journal of another size.  Its parameters then carry the
    desired size, carry the desired location only when the record has none,
    and leave the host, the disk, the function and the tier unset. *)
Theorem osdUpdateRequired_cases :
  forall (osdInfo : OSDInfo) (osd : osds.OSD),
    let res := osdUpdateRequired osdInfo osd in
    (res.2 = true <->
     exists journal,
       osdJournal osdInfo = Some journal /\
       (osds.Location (osds.Journal osd) = None \/
        osds.Gibibytes (osds.Journal osd) <> jSize journal)) /\
    (forall journal,
        osdJournal osdInfo = Some journal ->
        res.2 = true ->
        osds.oJournalSize res.1 = Some (jSize journal) /\
        osds.oJournalLocation res.1
        = match osds.Location (osds.Journal osd) with
          | None => Some (jLocation journal)
          | Some _ => None
          end) /\
    osds.oHostID res.1 = None /\
    osds.oDiskID res.1 = None /\
    osds.oFunction res.1 = None /\
    osds.oTierUUID res.1 = None.
Proof.
  intros osdInfo osd res. subst res. unfold osdUpdateRequired.
  destruct (osdJournal osdInfo) as [journal |].
  - destruct (osds.Location (osds.Journal osd)) as [location |].
    + destruct (osds.Gibibytes (osds.Journal osd) =? jSize journal) eqn:Hsize; simpl.
      * apply Z.eqb_eq in Hsize. repeat split; try discriminate.
        intros (journal' & [= <-] & [H | H]); [discriminate | congruence].
      * apply Z.eqb_neq in Hsize. repeat split; try (intros; simplify_eq; reflexivity).
        intros _. exists journal. split; [reflexivity | by right].
    + simpl. repeat split; try (intros; simplify_eq; reflexivity).
      intros _. exists journal. split; [reflexivity | by left].
  - simpl. repeat split; try discriminate. intros (journal' & [=] & _).
Qed.

Lemma osdUpdateRequired_cases_witness :
  osds.oJournalSize (osdUpdateRequired dataOSD osdB).1 = Some 1 /\
  osds.oJournalLocation (osdUpdateRequired dataOSD osdB).1 = Some "/dev/sdc".
Proof.
  destruct (osdUpdateRequired_cases dataOSD osdB) as (_ & Hjournal & _).
  exact (Hjournal {| jLocation := "/dev/sdc"; jSize := 1 |} eq_refl eq_refl).
Defined.

(** ** Refreshing the partitions *)

Lemma runM_setPartitions o hist l h :
  runM o hist (setPartitions l) h = (Done tt, withPartitions h l, hist).
Proof. reflexivity. Qed.

(** The partition reconciler, enabled: its loop, the refresh when the loop
    created a partition, and the check. *)
Lemma ReconcilePartitions_run o r instance profile group host hist :
  IsReconcilerEnabled r Partition = true ->
  exists res t,
    (forall s', res = Done s' -> s' = requested t) /\
    runM o hist (ReconcilePartitions r instance profile group) host
    = match res with
      | Done true =>
        match o (hist ++ t)%list (ListPartitions (hID host)) with
        | Success result =>
          match o ((hist ++ t) ++ [ListPartitions (hID host)])%list
                  (PopulateSystemPartitions (hID host)) with
          | Success system =>
            (if existsb isTransient (result ++ system)
             then Raise (partitionWait instance host) else Done tt,
             withPartitions host (result ++ system),
             (((hist ++ t) ++ [ListPartitions (hID host)])
                ++ [PopulateSystemPartitions (hID host)])%list)
          | Failure e =>
            (Raise (ClientFailure e), withPartitions host result,
             (((hist ++ t) ++ [ListPartitions (hID host)])
                ++ [PopulateSystemPartitions (hID host)])%list)
          end
        | Failure e =>
          (Raise (Wrap (ClientFailure e) (text "failed to refresh partitions on host")),
           host, ((hist ++ t) ++ [ListPartitions (hID host)])%list)
        end
      | Done false =>
        (if existsb isTransient (hPartitions host)
         then Raise (partitionWait instance host) else Done tt, host, (hist ++ t)%list)
      | Raise e => (Raise e, host, (hist ++ t)%list)
      end.
Proof.
  intros Hen.
  destruct (forRangeAcc_fixed o (partitionStep r instance group) host
              (partitionRequestFor r host group) (vgPhysicalVolumes group)
              (fun s x hist _ => partitionStep_fixed o r instance group host s x hist)
              hist false) as (res & t & Hrun & _ & Hflag).
  exists res, t. split; [exact Hflag |].
  unfold ReconcilePartitions. rewrite Hen. simpl negb. cbv iota.
  rewrite runM_bind. unfold partitionCreation. rewrite runM_bind, Hrun.
  destruct res as [[] | e]; [| | reflexivity].
  - unfold refreshPartitions. msimpl.
    destruct (o (hist ++ t)%list (ListPartitions (hID host))) as [result | e];
      [| msimpl; reflexivity].
    rewrite runM_bind, runM_setPartitions. msimpl.
    change (hID (withPartitions host result)) with (hID host).
    destruct (o ((hist ++ t) ++ [ListPartitions (hID host)])%list
                (PopulateSystemPartitions (hID host))) as [system | e];
      [| msimpl; reflexivity].
    rewrite runM_setPartitions, partitionStatusCheck_spec. reflexivity.
  - msimpl. by rewrite partitionStatusCheck_spec.
Qed.

(** X9: the partition reconciler keeps the snapshot in step with the remote
    system: when it returns success it has either requested nothing and left
    the snapshot as it was, or ended by listing the partitions of the host and
    asking for the partitions of the system, and the snapshot holds these two
    answers, one after the other.  In both cases no partition of the snapshot
    it leaves is in a transient status. *)
Theorem ReconcilePartitions_refreshes :
  forall (r : HostReconciler) (instance : Host) (profile : HostProfileSpec)
         (group : VolumeGroupInfo) (host : HostInfo) (o : Oracle),
    IsReconcilerEnabled r Partition = true ->
    let res := exec o (ReconcilePartitions r instance profile group) host in
    res.1.1 = None ->
    existsb isTransient (hPartitions res.1.2) = false /\
    ((res.2 = [] /\ res.1.2 = host) \/
     (exists t result system,
         t <> [] /\
         res.2 = (t ++ [ListPartitions (hID host); PopulateSystemPartitions (hID host)])%list /\
         o t (ListPartitions (hID host)) = Success result /\
         o (t ++ [ListPartitions (hID host)])%list (PopulateSystemPartitions (hID host))
         = Success system /\
         res.1.2 = withPartitions host (result ++ system))).
Proof.
  intros r instance profile group host o Hen res. subst res.
  rewrite exec_runM.
  destruct (ReconcilePartitions_run o r instance profile group host [] Hen)
    as (res & t & Hflag & ->).
  simpl app. destruct res as [[] | e]; [| | discriminate].
  - pose proof (Hflag true eq_refl) as Ht.
    destruct (o t (ListPartitions (hID host))) as [result | e] eqn:Hlist;
      [| discriminate].
    destruct (o (t ++ [ListPartitions (hID host)])%list (PopulateSystemPartitions (hID host)))
      as [system | e] eqn:Hsystem; [| discriminate].
    destruct (existsb isTransient (result ++ system)) eqn:Hsettled; [discriminate |].
    intros _. split; [exact Hsettled |]. right. exists t, result, system.
    split; [by destruct t |]. simpl. rewrite <- app_assoc. by repeat split.
  - pose proof (Hflag false eq_refl) as Ht.
    destruct (existsb isTransient (hPartitions host)) eqn:Hsettled; [discriminate |].
    intros _. split; [exact Hsettled |]. left. destruct t; [by split | discriminate].
Qed.

Lemma ReconcilePartitions_refreshes_witness :
  existsb isTransient
    (hPartitions
       (exec (inventory [] exampleHost)
          (ReconcilePartitions standardReconciler exampleInstance (groupProfile exampleGroup)
             exampleGroup) exampleHost).1.2) = false.
Proof.
  exact (proj1 (ReconcilePartitions_refreshes standardReconciler exampleInstance
                  (groupProfile exampleGroup) exampleGroup exampleHost
                  (inventory [] exampleHost) eq_refl eq_refl)).
Defined.
